(** * go-http-utils: the error-classification and response-envelope protocol

    A shallow embedding of the last revision of the three packages of the
    repository,

      - [apperr]     the classified error [HTTPError] and its constructors,
      - [response]   the envelope [Response], its constructors and [Err],
      - [httputils]  [DecodeRequest], [ValidateRequest], [SendOK],
                     [SendDataOK], [WriteHTTPError] and [writeJSON],

    together with the part of the Go runtime these functions drive: the
    response writer of the net/http server, the logger, [errors.As], the
    streaming JSON decoder and the JSON encoding of the [Response] struct
    as its field tags prescribe it.

    Conventions of the model.

      - A response body is the sequence of JSON documents the writer
        accepted; every successful [Encode] contributes one document.  A
        document is abstract syntax: a string member holds the text a
        reader of the JSON gets back.  What [Encode] puts on the wire for
        a document, its compact text with the encoder's escapes and a
        newline, is [jsontext.line]; what the scanner of encoding/json
        makes of a text is [jsonscan.readValue].  The replacement of
        invalid UTF-8 by U+FFFD, which the encoder applies to every
        string, is part of both.
      - A Go [any] is either the nil interface or a dynamic value.  All
        the code does with a dynamic value is to compare the interface
        with nil and to marshal it, so a dynamic value is given by the
        document that spells it out, by its being a nil pointer, slice or
        map (which all marshal to null), or by the encoder rejecting it.
      - The writer and the logger of a request are the state of a small
        state monad, [Handler]; the Go parameters [w] and [log] denote
        them.  A handler either returns or panics; a panic ends it where
        it stands.
      - The validation engine is a collaborator (class [Validatable]); of
        the JSON decoder, reading the first value of the body is modelled
        here and storing it into a request type is the type's part (class
        [Decodable]). *)

From Stdlib Require Import ZArith NArith String List Bool Ascii.
From Stdlib Require Import Decimal DecimalFacts DecimalPos DecimalN DecimalString.
From stdpp Require Import base option strings gmap.
Import ListNotations.

Set Warnings "-register-all".

Local Open Scope string_scope.
Local Open Scope Z_scope.
Local Open Scope list_scope.

(* ===================================================================== *)
(** ** unicode/utf8                                                       *)
(* ===================================================================== *)

Module utf8.

Definition byte (c : ascii) : N := N_of_ascii c.

Definition between (lo hi : N) (c : ascii) : bool :=
  ((lo <=? byte c) && (byte c <=? hi))%N.

(** A continuation byte, 0x80..0xBF. *)
Definition continuation (c : ascii) : bool := between 128 191 c.

(** [utf8.DecodeRuneInString] on [c] followed by [rest], reduced to what
    the callers here need: [Some n] when a well-formed encoding starts at
    [c] and has [n] bytes after it, [None] when the byte is invalid (the
    rune error of width 1).  The second byte of a three- or four-byte
    encoding is held to the narrower ranges that exclude overlong forms,
    surrogates and code points past U+10FFFF. *)
Definition following (c : ascii) (rest : string) : option nat :=
  let b := byte c in
  if (b <? 128)%N then Some 0%nat
  else if (b <? 194)%N then None
  else if (b <? 224)%N then
    match rest with
    | String c1 _ => if continuation c1 then Some 1%nat else None
    | EmptyString => None
    end
  else if (b <? 240)%N then
    match rest with
    | String c1 (String c2 _) =>
        if between (if (b =? 224)%N then 160 else 128)
                   (if (b =? 237)%N then 159 else 191) c1
           && continuation c2
        then Some 2%nat else None
    | _ => None
    end
  else if (b <? 245)%N then
    match rest with
    | String c1 (String c2 (String c3 _)) =>
        if between (if (b =? 240)%N then 144 else 128)
                   (if (b =? 244)%N then 143 else 191) c1
           && continuation c2 && continuation c3
        then Some 3%nat else None
    | _ => None
    end
  else None.

(** The encoding of U+FFFD: EF BF BD. *)
Definition RuneError : string :=
  String "239"%char (String "191"%char (String "189"%char EmptyString)).

(** The text with every invalid byte replaced by U+FFFD, rune by rune;
    [pending] counts the bytes of the current rune still to copy. *)
Fixpoint replace (pending : nat) (s : string) : string :=
  match s with
  | EmptyString => EmptyString
  | String c rest =>
      match pending with
      | S p => String c (replace p rest)
      | O =>
          match following c rest with
          | Some n => String c (replace n rest)
          | None => (RuneError ++ replace 0 rest)%string
          end
      end
  end.

(** What [encoding/json] does to the bytes of a Go string on its way into
    a JSON string, and to the bytes of a JSON string on its way back. *)
Definition replaceInvalid (s : string) : string := replace 0 s.

Fixpoint valid (pending : nat) (s : string) : bool :=
  match s with
  | EmptyString => true
  | String c rest =>
      match pending with
      | S p => valid p rest
      | O =>
          match following c rest with
          | Some n => valid n rest
          | None => false
          end
      end
  end.

(** [utf8.ValidString] *)
Definition ValidString (s : string) : bool := valid 0 s.

(** Whether the next [n] bytes are continuation bytes. *)
Fixpoint continuations (n : nat) (s : string) : bool :=
  match n with
  | O => true
  | S p =>
      match s with
      | String c rest => continuation c && continuations p rest
      | EmptyString => false
      end
  end.

Fixpoint count (pending : nat) (s : string) : nat :=
  match s with
  | EmptyString => O
  | String c rest =>
      match pending with
      | S p => count p rest
      | O =>
          match following c rest with
          | Some n => S (count n rest)
          | None => S (count 0 rest)
          end
      end
  end.

(** [utf8.RuneCountInString]: an invalid byte counts as one rune. *)
Definition RuneCountInString (s : string) : nat := count 0 s.

Definition of_byte (n : N) : string := String (ascii_of_N n) EmptyString.

(** [utf8.EncodeRune]: surrogates and values past U+10FFFF are written
    as U+FFFD. *)
Definition EncodeRune (r : N) : string :=
  if (r <? 128)%N then of_byte r
  else if (r <? 2048)%N then
    (of_byte (192 + r / 64) ++ of_byte (128 + r mod 64))%string
  else if ((55296 <=? r) && (r <? 57344))%N then RuneError
  else if (r <? 65536)%N then
    (of_byte (224 + r / 4096) ++ of_byte (128 + (r / 64) mod 64)
       ++ of_byte (128 + r mod 64))%string
  else if (r <? 1114112)%N then
    (of_byte (240 + r / 262144) ++ of_byte (128 + (r / 4096) mod 64)
       ++ of_byte (128 + (r / 64) mod 64) ++ of_byte (128 + r mod 64))%string
  else RuneError.

End utf8.

(* ===================================================================== *)
(** ** encoding/json: documents and interface values                      *)
(* ===================================================================== *)

Module json.

(** A JSON document.  An object keeps its members in the order they were
    written, as the encoder emits struct fields in declaration order.  A
    number is an integer, [JNum n], or a literal with a fraction or an
    exponent, [JReal m e] for the digits [m] scaled by ten to the [e]. *)
Inductive value : Type :=
| JNull
| JBool (b : bool)
| JNum (n : Z)
| JReal (mantissa exponent : Z)
| JStr (s : string)
| JArr (elems : list value)
| JObj (members : list (string * value)).

(** The document with every string, keys included, as the encoder
    writes it: with U+FFFD for each byte that is not well-formed UTF-8. *)
Fixpoint canon (v : value) : value :=
  match v with
  | JStr s => JStr (utf8.replaceInvalid s)
  | JArr elems => JArr (map canon elems)
  | JObj members =>
      JObj (map (fun m => (utf8.replaceInvalid (fst m), canon (snd m))) members)
  | other => other
  end.

(** The dynamic value held by a non-nil interface, as [json.Marshal] sees
    it: a nil pointer, a nil slice or a nil map stored in the interface
    (each marshals to null); any other value the encoder accepts, given
    by the document that spells it out (a Go string by [JStr] of its
    bytes, a slice by [JArr] of its elements, a map or a struct by
    [JObj] of its members); or a value the encoder rejects (a channel, a
    function, a NaN, a cyclic structure). *)
Inductive dynamic : Type :=
| NilPointer
| NilSlice
| NilMap
| Encodable (doc : value)
| Unsupported.

(** Go's [any]: [None] is the nil interface. *)
Definition any : Type := option dynamic.

(** [json.Marshal], by the type of the marshalled value. *)
Class Marshaler (A : Type) : Type := Marshal : A -> option value.

(** A value the encoder accepts marshals to its document, strings as
    the encoder writes them. *)
#[global] Instance dynamic_Marshaler : Marshaler dynamic :=
  fun v => match v with
           | NilPointer | NilSlice | NilMap => Some JNull
           | Encodable doc => Some (canon doc)
           | Unsupported => None
           end.

(** The first member of an object with the given key. *)
Fixpoint member (k : string) (ms : list (string * value)) : option value :=
  match ms with
  | [] => None
  | (k', v) :: ms' => if String.eqb k' k then Some v else member k ms'
  end.

(** Member access on a document; [None] on anything but an object. *)
Definition get (k : string) (doc : value) : option value :=
  match doc with
  | JObj ms => member k ms
  | _ => None
  end.

End json.

(* ===================================================================== *)
(** ** encoding/json: the scanner, and reading one value off a stream     *)
(* ===================================================================== *)

Module jsonscan.

(** A piece of a string literal: a byte taken as it stands or as an
    escape names it, or the code unit of a [\u] escape. *)
Inductive piece : Type :=
| Raw (c : ascii)
| Unit (u : N).

(** The Go string a literal denotes: escapes replaced, a high surrogate
    escape directly followed by a low one combined with it, any other
    surrogate and every invalid byte replaced by U+FFFD. *)
Fixpoint pieces_text (ps : list piece) : string :=
  match ps with
  | [] => EmptyString
  | Raw c :: rest => String c (pieces_text rest)
  | Unit u :: rest =>
      if ((55296 <=? u) && (u <? 56320))%N then
        match rest with
        | Unit l :: rest' =>
            if ((56320 <=? l) && (l <? 57344))%N
            then (utf8.EncodeRune (65536 + (u - 55296) * 1024 + (l - 56320))
                    ++ pieces_text rest')%string
            else (utf8.RuneError ++ pieces_text rest)%string
        | _ => (utf8.RuneError ++ pieces_text rest)%string
        end
      else (utf8.EncodeRune u ++ pieces_text rest)%string
  end.

Definition unquote (ps : list piece) : string :=
  utf8.replaceInvalid (pieces_text ps).

(** A number literal under way: sign, the digits read so far as one
    integer, how many of them follow the point, whether a point or an
    exponent was seen, and the exponent. *)
Record number : Type := {
  negative : bool;
  digits : Z;
  fraction : Z;
  real : bool;
  exp_negative : bool;
  exp : Z
}.

Definition number_value (n : number) : json.value :=
  let m := if negative n then - digits n else digits n in
  if real n
  then json.JReal m ((if exp_negative n then - exp n else exp n) - fraction n)
  else json.JNum m.

(** The states of the scanner ([scanner.go]), each with what has been
    read of the token under way. *)
Inductive lex : Type :=
| BeginValue
| BeginValueOrEmpty
| BeginStringOrEmpty
| BeginString
| EndValue
| InString (ps : list piece)
| InStringEsc (ps : list piece)
| InStringEscU (ps : list piece) (seen : nat) (u : N)
| Neg
| Zero (n : number)
| Int (n : number)
| Dot (n : number)
| Dot0 (n : number)
| E (n : number)
| ESign (n : number)
| E0 (n : number)
| Literal (name todo : string) (v : json.value).

(** The parse stack, each entry with the part of the container built so
    far. *)
Inductive frame : Type :=
| ObjKey (done : list (string * json.value))
| ObjColon (done : list (string * json.value)) (key : string)
| ObjValue (done : list (string * json.value)) (key : string)
| ObjNext (done : list (string * json.value))
| ArrValue (done : list json.value)
| ArrNext (done : list json.value).

Inductive stepped : Type :=
| Next (l : lex) (stack : list frame)
| Complete (v : json.value) (consumed : bool)
| Invalid (c : ascii) (context : string).

Definition maxNestingDepth : N := 10000.

Definition isSpace (c : ascii) : bool :=
  Ascii.eqb c " " || Ascii.eqb c "009" || Ascii.eqb c "013" || Ascii.eqb c "010".

Definition isDigit (c : ascii) : bool := utf8.between 48 57 c.

Definition digit (c : ascii) : Z := Z.of_N (utf8.byte c) - 48.

Definition hex (c : ascii) : option N :=
  let b := utf8.byte c in
  if utf8.between 48 57 c then Some (b - 48)%N
  else if utf8.between 97 102 c then Some (b - 87)%N
  else if utf8.between 65 70 c then Some (b - 55)%N
  else None.

(** A finished value goes to the container on top of the stack; with no
    container open it is the value read.  (A value is begun under an
    [ObjValue], an [ArrValue] or nothing, so no other frame is on top
    when it ends.) *)
Definition deliver (v : json.value) (consumed : bool) (stack : list frame) : stepped :=
  match stack with
  | [] => Complete v consumed
  | ObjValue done key :: below => Next EndValue (ObjNext (done ++ [(key, v)]) :: below)
  | ArrValue done :: below => Next EndValue (ArrNext (done ++ [v]) :: below)
  | _ => Complete v consumed
  end.

(** [stateEndValue]: what may follow a finished value, by the container
    it sits in. *)
Definition endValue (stack : list frame) (c : ascii) : stepped :=
  if isSpace c then Next EndValue stack
  else
    match stack with
    | ObjColon done key :: below =>
        if Ascii.eqb c ":" then Next BeginValue (ObjValue done key :: below)
        else Invalid c "after object key"
    | ObjNext done :: below =>
        if Ascii.eqb c "," then Next BeginString (ObjKey done :: below)
        else if Ascii.eqb c "}" then deliver (json.JObj done) true below
        else Invalid c "after object key:value pair"
    | ArrNext done :: below =>
        if Ascii.eqb c "," then Next BeginValue (ArrValue done :: below)
        else if Ascii.eqb c "]" then deliver (json.JArr done) true below
        else Invalid c "after array element"
    | _ => Invalid c "after top-level value"
    end.

(** A finished string is a key when the object on top awaits one. *)
Definition endString (ps : list piece) (stack : list frame) : stepped :=
  match stack with
  | ObjKey done :: below => Next EndValue (ObjColon done (unquote ps) :: below)
  | _ => deliver (json.JStr (unquote ps)) true stack
  end.

(** A number ends at the first byte that cannot continue it; that byte is
    then read as what follows a value. *)
Definition endNumber (n : number) (stack : list frame) (c : ascii) : stepped :=
  match deliver (number_value n) false stack with
  | Next _ stack' => endValue stack' c
  | other => other
  end.

Definition push (c : ascii) (f : frame) (l : lex) (stack : list frame) : stepped :=
  if (N.of_nat (length stack) <? maxNestingDepth)%N then Next l (f :: stack)
  else Invalid c "exceeded max depth".

Definition start_number (neg : bool) (d : Z) : number :=
  {| negative := neg; digits := d; fraction := 0; real := false;
     exp_negative := false; exp := 0 |}.

Definition more_digit (n : number) (c : ascii) : number :=
  {| negative := negative n; digits := 10 * digits n + digit c; fraction := fraction n;
     real := real n; exp_negative := exp_negative n; exp := exp n |}.

Definition more_fraction (n : number) (c : ascii) : number :=
  {| negative := negative n; digits := 10 * digits n + digit c;
     fraction := fraction n + 1;
     real := true; exp_negative := exp_negative n; exp := exp n |}.

Definition more_exp (n : number) (c : ascii) : number :=
  {| negative := negative n; digits := digits n; fraction := fraction n;
     real := true; exp_negative := exp_negative n; exp := 10 * exp n + digit c |}.

Definition with_real (n : number) (eneg : bool) : number :=
  {| negative := negative n; digits := digits n; fraction := fraction n;
     real := true; exp_negative := eneg; exp := exp n |}.

(** [stateBeginValue] *)
Definition beginValue (stack : list frame) (c : ascii) : stepped :=
  if isSpace c then Next BeginValue stack
  else if Ascii.eqb c "{" then push c (ObjKey []) BeginStringOrEmpty stack
  else if Ascii.eqb c "[" then push c (ArrValue []) BeginValueOrEmpty stack
  else if Ascii.eqb c "034" then Next (InString []) stack
  else if Ascii.eqb c "-" then Next Neg stack
  else if Ascii.eqb c "0" then Next (Zero (start_number false 0)) stack
  else if Ascii.eqb c "t" then Next (Literal "true" "rue" (json.JBool true)) stack
  else if Ascii.eqb c "f" then Next (Literal "false" "alse" (json.JBool false)) stack
  else if Ascii.eqb c "n" then Next (Literal "null" "ull" json.JNull) stack
  else if isDigit c then Next (Int (start_number false (digit c))) stack
  else Invalid c "looking for beginning of value".

(** [stateBeginString] *)
Definition beginString (stack : list frame) (c : ascii) : stepped :=
  if isSpace c then Next BeginString stack
  else if Ascii.eqb c "034" then Next (InString []) stack
  else Invalid c "looking for beginning of object key string".

(** [state0]: after the integer part. *)
Definition afterInt (n : number) (stack : list frame) (c : ascii) : stepped :=
  if Ascii.eqb c "." then Next (Dot n) stack
  else if Ascii.eqb c "e" || Ascii.eqb c "E" then Next (E n) stack
  else endNumber n stack c.

(** [stateESign]: the first digit of the exponent. *)
Definition expDigit (n : number) (stack : list frame) (c : ascii) : stepped :=
  if isDigit c then Next (E0 (more_exp n c)) stack
  else Invalid c "in exponent of numeric literal".

(** One byte through the scanner. *)
Definition step (l : lex) (stack : list frame) (c : ascii) : stepped :=
  match l with
  | BeginValue => beginValue stack c
  | BeginValueOrEmpty =>
      if isSpace c then Next BeginValueOrEmpty stack
      else if Ascii.eqb c "]" then
        match stack with
        | ArrValue done :: below => deliver (json.JArr done) true below
        | _ => Invalid c "looking for beginning of value"
        end
      else beginValue stack c
  | BeginStringOrEmpty =>
      if isSpace c then Next BeginStringOrEmpty stack
      else if Ascii.eqb c "}" then
        match stack with
        | ObjKey done :: below => deliver (json.JObj done) true below
        | _ => Invalid c "looking for beginning of object key string"
        end
      else beginString stack c
  | BeginString => beginString stack c
  | EndValue => endValue stack c
  | InString ps =>
      if Ascii.eqb c "034" then endString ps stack
      else if Ascii.eqb c "\" then Next (InStringEsc ps) stack
      else if (utf8.byte c <? 32)%N then Invalid c "in string literal"
      else Next (InString (ps ++ [Raw c])) stack
  | InStringEsc ps =>
      if Ascii.eqb c "b" then Next (InString (ps ++ [Raw "008"%char])) stack
      else if Ascii.eqb c "f" then Next (InString (ps ++ [Raw "012"%char])) stack
      else if Ascii.eqb c "n" then Next (InString (ps ++ [Raw "010"%char])) stack
      else if Ascii.eqb c "r" then Next (InString (ps ++ [Raw "013"%char])) stack
      else if Ascii.eqb c "t" then Next (InString (ps ++ [Raw "009"%char])) stack
      else if Ascii.eqb c "\" || Ascii.eqb c "/" || Ascii.eqb c "034"
      then Next (InString (ps ++ [Raw c])) stack
      else if Ascii.eqb c "u" then Next (InStringEscU ps 0 0) stack
      else Invalid c "in string escape code"
  | InStringEscU ps seen u =>
      match hex c with
      | Some h =>
          match seen with
          | 3%nat => Next (InString (ps ++ [Unit (16 * u + h)])) stack
          | _ => Next (InStringEscU ps (S seen) (16 * u + h)) stack
          end
      | None => Invalid c "in \u hexadecimal character escape"
      end
  | Neg =>
      if Ascii.eqb c "0" then Next (Zero (start_number true 0)) stack
      else if isDigit c then Next (Int (start_number true (digit c))) stack
      else Invalid c "in numeric literal"
  | Zero n => afterInt n stack c
  | Int n => if isDigit c then Next (Int (more_digit n c)) stack else afterInt n stack c
  | Dot n =>
      if isDigit c then Next (Dot0 (more_fraction n c)) stack
      else Invalid c "after decimal point in numeric literal"
  | Dot0 n =>
      if isDigit c then Next (Dot0 (more_fraction n c)) stack
      else if Ascii.eqb c "e" || Ascii.eqb c "E" then Next (E n) stack
      else endNumber n stack c
  | E n =>
      if Ascii.eqb c "+" then Next (ESign (with_real n false)) stack
      else if Ascii.eqb c "-" then Next (ESign (with_real n true)) stack
      else expDigit (with_real n false) stack c
  | ESign n => expDigit n stack c
  | E0 n => if isDigit c then Next (E0 (more_exp n c)) stack else endNumber n stack c
  | Literal name todo v =>
      match todo with
      | String e todo' =>
          if Ascii.eqb c e then
            match todo' with
            | EmptyString => deliver v true stack
            | _ => Next (Literal name todo' v) stack
            end
          else Invalid c ("in literal " ++ name ++ " (expecting '"
                            ++ String e EmptyString ++ "')")%string
      | EmptyString => Invalid c "after top-level value"
      end
  end.

(** What reading one value off a stream comes to. *)
Inductive read : Type :=
| Value (v : json.value) (rest : string)
| SyntaxError (c : ascii) (context : string)
| UnexpectedEOF
| EOF.

(** The bytes of the stream through the scanner until a value is
    complete.  When the input ends, a number with no container open is
    complete; anything else under way is cut short. *)
Fixpoint scan (l : lex) (stack : list frame) (s : string) : read :=
  match s with
  | EmptyString =>
      match l, stack with
      | Zero n, [] | Int n, [] | Dot0 n, [] | E0 n, [] => Value (number_value n) EmptyString
      | BeginValue, [] => EOF
      | _, _ => UnexpectedEOF
      end
  | String c rest =>
      match step l stack c with
      | Next l' stack' => scan l' stack' rest
      | Complete v true => Value v rest
      | Complete v false => Value v s
      | Invalid c' context => SyntaxError c' context
      end
  end.

(** Where the scanner stands once a value [v] is complete under
    [stack], with [rest] still ahead of it. *)
Definition resume (v : json.value) (stack : list frame) (rest : string) : read :=
  match deliver v true stack with
  | Next l stack' => scan l stack' rest
  | Complete v' _ => Value v' rest
  | Invalid c context => SyntaxError c context
  end.

(** The stacks under which a value may begin: no container open, or one
    that awaits a value. *)
Definition awaitsValue (stack : list frame) : bool :=
  match stack with
  | [] | ObjValue _ _ :: _ | ArrValue _ :: _ => true
  | _ => false
  end.

(** The bytes that may follow a value in a compact text: a comma, a
    closing bracket or brace, or white space. *)
Definition delimiter (c : ascii) : bool :=
  Ascii.eqb c "," || Ascii.eqb c "]" || Ascii.eqb c "}" || isSpace c.

(** [Decoder.readValue] on a fresh decoder: the first value of the
    stream.  What follows that value is left unread. *)
Definition readValue (s : string) : read := scan BeginValue [] s.

Fixpoint allSpace (s : string) : bool :=
  match s with
  | EmptyString => true
  | String c rest => isSpace c && allSpace rest
  end.

(** [json.Valid]: the whole text is one value, with white space around
    it at most. *)
Definition Valid (s : string) : bool :=
  match readValue s with
  | Value _ rest => allSpace rest
  | _ => false
  end.

End jsonscan.

(* ===================================================================== *)
(** ** encoding/json: the text of a document                              *)
(* ===================================================================== *)

Module jsontext.

(** A hexadecimal digit, in lower case. *)
Definition hexdigit (n : N) : ascii :=
  ascii_of_N (if (n <? 10)%N then 48 + n else 87 + n).

(** How the encoder writes a byte below 0x80 inside a string
    ([appendString] with HTML escaping on, as [json.NewEncoder] has it):
    the quote and the backslash behind a backslash, five control
    characters by their short escapes, the other control characters and
    [<], [>], [&] as [\u00XX], anything else as it stands.  (Releases
    of Go before 1.22 write backspace and form feed as [\u0008] and
    [\u000c]; the scanner reads either form as the same byte.) *)
Definition escape_ascii (c : ascii) : string :=
  if Ascii.eqb c "034" || Ascii.eqb c "\" then String "\" (String c EmptyString)
  else if Ascii.eqb c "008" then "\b"
  else if Ascii.eqb c "012" then "\f"
  else if Ascii.eqb c "010" then "\n"
  else if Ascii.eqb c "013" then "\r"
  else if Ascii.eqb c "009" then "\t"
  else if (utf8.byte c <? 32)%N || Ascii.eqb c "<" || Ascii.eqb c ">" || Ascii.eqb c "&"
  then String "\" (String "u" (String "0" (String "0"
         (String (hexdigit (utf8.byte c / 16)) (String (hexdigit (utf8.byte c mod 16))
            EmptyString)))))
  else String c EmptyString.

(** U+2028 and U+2029 (E2 80 A8 and E2 80 A9) are written as escapes;
    the result is the last digit of the escape. *)
Definition separator (c : ascii) (rest : string) : option ascii :=
  if Ascii.eqb c "226" then
    match rest with
    | String c1 (String c2 _) =>
        if Ascii.eqb c1 "128" then
          if Ascii.eqb c2 "168" then Some "8"%char
          else if Ascii.eqb c2 "169" then Some "9"%char
          else None
        else None
    | _ => None
    end
  else None.

(** The inside of a string literal, rune by rune: [copy] counts the
    bytes of the current rune still to copy, [skip] those of a rune
    already written as an escape.  A byte that is not part of
    well-formed UTF-8 is written as the escape of U+FFFD. *)
Fixpoint escape (copy skip : nat) (s : string) : string :=
  match s with
  | EmptyString => EmptyString
  | String c rest =>
      match skip, copy with
      | S k, _ => escape 0 k rest
      | O, S p => String c (escape p 0 rest)
      | O, O =>
          if (utf8.byte c <? 128)%N then (escape_ascii c ++ escape 0 0 rest)%string
          else
            match utf8.following c rest with
            | None => ("\ufffd" ++ escape 0 0 rest)%string
            | Some n =>
                match separator c rest with
                | Some d => ("\u202" ++ String d (escape 0 2 rest))%string
                | None => String c (escape n 0 rest)
                end
            end
      end
  end.

Definition quote (s : string) : string :=
  String "034" (escape 0 0 s ++ String "034" EmptyString).

(** An integer in decimal. *)
Definition decimal (n : Z) : string :=
  match n with
  | Z0 => "0"
  | Zpos p => NilEmpty.string_of_uint (Pos.to_uint p)
  | Zneg p => String "-" (NilEmpty.string_of_uint (Pos.to_uint p))
  end.

(** Texts with a comma between them. *)
Fixpoint join (texts : list string) : string :=
  match texts with
  | [] => EmptyString
  | [t] => t
  | t :: more => (t ++ String "," (join more))%string
  end.

(** The text of a document, without insignificant white space: members
    and elements in order, strings as the encoder escapes them, integers
    in decimal.  Of the literals that denote a number with a fraction or
    an exponent the one written is the digits followed by the exponent;
    Go picks positional notation for moderate exponents, which the
    scanner reads as the same number. *)
Fixpoint encode (v : json.value) : string :=
  match v with
  | json.JNull => "null"
  | json.JBool true => "true"
  | json.JBool false => "false"
  | json.JNum n => decimal n
  | json.JReal m e => (decimal m ++ String "e" (decimal e))%string
  | json.JStr s => quote s
  | json.JArr elems => String "[" (join (map encode elems) ++ "]")
  | json.JObj members =>
      String "{"
        (join (map (fun m => (quote (fst m) ++ String ":" (encode (snd m)))%string)
                 members)
           ++ "}")
  end.

(** What [Encoder.Encode] writes for a document: its text and a
    newline. *)
Definition line (v : json.value) : string :=
  (encode v ++ String "010" EmptyString)%string.

(** How deep arrays and objects nest in a document. *)
Fixpoint depth (v : json.value) : nat :=
  match v with
  | json.JArr elems => S (fold_right (fun e d => Nat.max (depth e) d) O elems)
  | json.JObj members => S (fold_right (fun m d => Nat.max (depth (snd m)) d) O members)
  | _ => O
  end.

End jsontext.

(** What it is for the scanner to read a document back from its text:
    under every stack that awaits a value and has room for the nesting
    of the document, and before every delimiter, the text of [v] takes
    the scanner to where it stands with [v] complete (strings as the
    encoder writes them). *)
Definition reads_back (v : json.value) : Prop :=
  forall (stack : list jsonscan.frame) (c : ascii) (tail : string),
    jsonscan.awaitsValue stack = true ->
    jsonscan.delimiter c = true ->
    (N.of_nat (length stack + jsontext.depth v) <= jsonscan.maxNestingDepth)%N ->
    jsonscan.scan jsonscan.BeginValue stack (jsontext.encode v ++ String c tail)
    = jsonscan.resume (json.canon v) stack (String c tail).

(* ===================================================================== *)
(** ** package apperr                                                     *)
(* ===================================================================== *)

Module apperr.

Record HTTPError : Type := {
  Code : Z;
  Message : string;
  Data : json.any
}.

(** [func (e HTTPError) Error() string] *)
Definition Error (e : HTTPError) : string := Message e.

(** [New] leaves the [Data] field at its zero value, the nil interface.
    The Go functions return the address of the fresh struct; nothing ever
    writes through that pointer, so the struct stands for it (see the
    constructor [HTTPErrorPtr] of [error] below). *)
Definition New (code : Z) (msg : string) : HTTPError :=
  {| Code := code; Message := msg; Data := None |}.

Definition NewWithData (code : Z) (msg : string) (data : json.any) : HTTPError :=
  {| Code := code; Message := msg; Data := data |}.

End apperr.

(* ===================================================================== *)
(** ** The error interface and package errors                             *)
(* ===================================================================== *)

(** Non-nil values of the interface type [error], by dynamic type. *)
Inductive error : Type :=
| errorString (text : string)
    (* errors.New(text), and any error type foreign to apperr *)
| HTTPErrorVal (e : apperr.HTTPError)
    (* an apperr.HTTPError stored by value, as the first revision built it *)
| HTTPErrorPtr (e : apperr.HTTPError)
    (* a non-nil *apperr.HTTPError, what New and NewWithData return *)
| wrapError (text : string) (inner : error).
    (* fmt.Errorf with the verb %w: text is the formatted message *)

(** The method [err.Error()].  [HTTPError.Error] has a value receiver, so
    it serves the pointer type too. *)
Definition error_Error (err : error) : string :=
  match err with
  | errorString text => text
  | HTTPErrorVal e => apperr.Error e
  | HTTPErrorPtr e => apperr.Error e
  | wrapError text _ => text
  end.

Module errors.

(** [errors.As(err, &httpErr)] for a target of type [*apperr.HTTPError]:
    walk the [Unwrap] chain and stop at the first error whose dynamic type
    is the pointer type.  [Some e] stands for [true] with [httpErr]
    pointing at [e]. *)
Fixpoint As (err : error) : option apperr.HTTPError :=
  match err with
  | HTTPErrorPtr e => Some e
  | wrapError _ inner => As inner
  | errorString _ => None
  | HTTPErrorVal _ => None
  end.

End errors.

(* ===================================================================== *)
(** ** log/slog                                                           *)
(* ===================================================================== *)

Module slog.

Inductive Level : Type := LevelDebug | LevelInfo | LevelWarn | LevelError.

Definition Attr : Type := (string * string)%type.

(** [slog.String(key, value)] *)
Definition String (key val : string) : Attr := (key, val).

(** [slog.Any(key, value)], used in the source with a string value only. *)
Definition Any (key val : string) : Attr := (key, val).

Record LogRecord : Type := {
  level : Level;
  message : string;
  attrs : list Attr
}.

(** The logger is identified with the records handed to it, oldest first. *)
Definition Logger : Type := list LogRecord.

Definition Log (l : Level) (msg : string) (args : list Attr) (lg : Logger) : Logger :=
  lg ++ [{| level := l; message := msg; attrs := args |}].

End slog.

(* ===================================================================== *)
(** ** net/http                                                           *)
(* ===================================================================== *)

Module http.

Definition StatusOK : Z := 200.
Definition StatusBadRequest : Z := 400.
Definition StatusInternalServerError : Z := 500.

(** The response writer of the server ([*http.response]).  [header] is
    the map behind [w.Header()]; [informational] lists the 1xx responses
    sent ahead of the status line, each with the header map as it was
    then; [wroteHeader] is the status line and the headers as the first
    [WriteHeader] that counts froze them; [body] holds the documents the
    writer has accepted. *)
Record ResponseWriter : Type := {
  header : gmap string (list string);
  informational : list (Z * gmap string (list string));
  wroteHeader : option (Z * gmap string (list string));
  body : list json.value
}.

(** [w.Header().Set(key, val)] *)
Definition Header_Set (key val : string) (w : ResponseWriter) : ResponseWriter :=
  {| header := <[key := [val]]> (header w);
     informational := informational w;
     wroteHeader := wroteHeader w;
     body := body w |}.

(** [checkWriteHeaderCode] accepts three-digit codes; on any other code
    it panics. *)
Definition checkWriteHeaderCode (code : Z) : bool := (100 <=? code) && (code <=? 999).

(** The codes [WriteHeader] sends as an informational response: 1xx
    other than 101 Switching Protocols. *)
Definition isInformational (code : Z) : bool :=
  (100 <=? code) && (code <=? 199) && negb (code =? 101).

(** [bodyAllowedForStatus] *)
Definition bodyAllowedForStatus (status : Z) : bool :=
  negb ((100 <=? status) && (status <=? 199))
  && negb (status =? 204) && negb (status =? 304).

(** [w.WriteHeader(code)].  Once the status line is out a further call is
    ignored, whatever its code.  Before that, a code that is not
    three-digit makes the call panic ([None]); a 1xx code other than 101
    goes out as an informational response and leaves the status line
    open; any other code becomes the status line, with the headers as
    they are at that moment. *)
Definition WriteHeader (code : Z) (w : ResponseWriter) : option ResponseWriter :=
  match wroteHeader w with
  | Some _ => Some w
  | None =>
      if checkWriteHeaderCode code then
        if isInformational code then
          Some {| header := header w;
                  informational := informational w ++ [(code, header w)];
                  wroteHeader := None;
                  body := body w |}
        else
          Some {| header := header w;
                  informational := informational w;
                  wroteHeader := Some (code, header w);
                  body := body w |}
      else None
  end.

(** The writer once [WriteHeader(StatusOK)] has been called on it if the
    status line was still open. *)
Definition withStatusLine (w : ResponseWriter) : ResponseWriter :=
  match wroteHeader w with
  | Some _ => w
  | None => {| header := header w;
               informational := informational w;
               wroteHeader := Some (StatusOK, header w);
               body := body w |}
  end.

(** [w.Write]: a write with the status line still open sends status 200
    first; the document is accepted unless the status in force allows no
    body, in which case the write fails with [ErrBodyNotAllowed]
    ([false]) and nothing is added. *)
Definition Write (doc : json.value) (w : ResponseWriter) : ResponseWriter * bool :=
  let w' := withStatusLine w in
  match wroteHeader w' with
  | Some (status, _) =>
      if bodyAllowedForStatus status
      then ({| header := header w';
               informational := informational w';
               wroteHeader := wroteHeader w';
               body := body w' ++ [doc] |}, true)
      else (w', false)
  | None => (w', false)
  end.

(** The status a write goes out under: the one that was sent, or 200
    when the status line is still open. *)
Definition status_in_force (w : ResponseWriter) : Z :=
  match wroteHeader w with
  | Some (status, _) => status
  | None => StatusOK
  end.

(** A writer on which nothing was sent yet, with headers [h] already set. *)
Definition unwritten (h : gmap string (list string)) : ResponseWriter :=
  {| header := h; informational := []; wroteHeader := None; body := [] |}.

(** The request, reduced to what the helpers read of it: the bytes of
    its body.  (The method is not part of it; for a HEAD request the
    server takes the writes and sends no body.) *)
Record Request : Type := { Body : string }.

End http.

(* ===================================================================== *)
(** ** Handlers: state passing over the writer and the logger             *)
(* ===================================================================== *)

Record World : Type := {
  w : http.ResponseWriter;
  log : slog.Logger
}.

(** The panics the helpers can run into. *)
Inductive panic : Type :=
| InvalidWriteHeaderCode (code : Z).
    (* panic(fmt.Sprintf("invalid WriteHeader code %v", code)) *)

Inductive outcome (A : Type) : Type :=
| Returned (a : A)
| Panicked (p : panic).

Arguments Returned {A} a.
Arguments Panicked {A} p.

(** A handler runs from a state to an outcome and the state it leaves:
    the state at the return, or the state at the panic. *)
Definition Handler (A : Type) : Type := World -> outcome A * World.

Definition ret {A : Type} (x : A) : Handler A := fun s => (Returned x, s).

Definition bind {A B : Type} (m : Handler A) (k : A -> Handler B) : Handler B :=
  fun s =>
    match m s with
    | (Returned a, s') => k a s'
    | (Panicked p, s') => (Panicked p, s')
    end.

Declare Scope handler_scope.
Delimit Scope handler_scope with handler.
Bind Scope handler_scope with Handler.
Notation "x <- c ;; k" := (bind c (fun x => k))
  (at level 100, c at next level, k at level 200, right associativity) : handler_scope.
Notation "c ;; k" := (bind c (fun _ => k))
  (at level 100, k at level 200, right associativity) : handler_scope.
Local Open Scope handler_scope.

(** The state a handler leaves behind, and how it ends. *)
Definition exec {A : Type} (m : Handler A) (s : World) : World := snd (m s).
Definition result {A : Type} (m : Handler A) (s : World) : outcome A := fst (m s).

Definition on_writer (f : http.ResponseWriter -> http.ResponseWriter) : Handler unit :=
  fun s => (Returned tt, {| w := f (w s); log := log s |}).

Definition on_logger (f : slog.Logger -> slog.Logger) : Handler unit :=
  fun s => (Returned tt, {| w := w s; log := f (log s) |}).

(** [log.Error(msg, args...)] and [log.Info(msg, args...)] *)
Definition log_Error (msg : string) (args : list slog.Attr) : Handler unit :=
  on_logger (slog.Log slog.LevelError msg args).

Definition log_Info (msg : string) (args : list slog.Attr) : Handler unit :=
  on_logger (slog.Log slog.LevelInfo msg args).

(** [w.Header().Set(key, val)] *)
Definition w_Header_Set (key val : string) : Handler unit :=
  on_writer (http.Header_Set key val).

(** [w.WriteHeader(code)] *)
Definition w_WriteHeader (code : Z) : Handler unit :=
  fun s =>
    match http.WriteHeader code (w s) with
    | Some w' => (Returned tt, {| w := w'; log := log s |})
    | None => (Panicked (InvalidWriteHeaderCode code), s)
    end.

(** [http.ErrBodyNotAllowed] *)
Definition ErrBodyNotAllowed : error :=
  errorString "http: request method or response status code does not allow body".

(** [json.NewEncoder(w).Encode(v)]: the value is marshalled first; only a
    successful encoding reaches the writer, a failure is returned and
    leaves the writer as it was.  The error of the write, if any, is
    returned as well.  (The text of the encoder's error depends on the
    rejected value; one text stands for all of them here, and no caller
    reads it.) *)
Definition json_Encode {A : Type} `{json.Marshaler A} (v : A) : Handler (option error) :=
  match json.Marshal v with
  | Some doc =>
      fun s =>
        let '(w', accepted) := http.Write doc (w s) in
        (Returned (if accepted then None else Some ErrBodyNotAllowed),
         {| w := w'; log := log s |})
  | None => ret (Some (errorString "json: unsupported value"))
  end.

(** The part of [json.Unmarshal] that belongs to the request type [T]:
    [zero] is the value of [var req T]; [store v req] is the contents of
    [req] after the value [v] was stored into it, and the error that
    came up. *)
Class Decodable (T : Type) : Type := {
  zero : T;
  store : json.value -> T -> T * option error
}.

(** [strconv.Quote] of the one-rune string [string(rune(c))], without
    its quotes. *)
Definition quoted_byte (c : ascii) : string :=
  let b := utf8.byte c in
  let hexdigit (n : N) : string :=
    utf8.of_byte (if (n <? 10)%N then 48 + n else 87 + n)%N in
  if (b =? 7)%N then "\a" else if (b =? 8)%N then "\b"
  else if (b =? 12)%N then "\f" else if (b =? 10)%N then "\n"
  else if (b =? 13)%N then "\r" else if (b =? 9)%N then "\t"
  else if (b =? 11)%N then "\v" else if (b =? 92)%N then "\\"
  else if ((b <? 32) || (b =? 127))%N
  then ("\x" ++ hexdigit (b / 16)%N ++ hexdigit (b mod 16)%N)%string
  else if (b <? 127)%N then String c EmptyString
  else if ((b <? 161) || (b =? 173))%N
  then ("\u00" ++ hexdigit (b / 16)%N ++ hexdigit (b mod 16)%N)%string
  else utf8.EncodeRune b.

(** [quoteChar] of [scanner.go] *)
Definition quoteChar (c : ascii) : string :=
  if Ascii.eqb c "'" then "'\''"
  else if Ascii.eqb c "034" then String "'" (String "034" (String "'" EmptyString))
  else ("'" ++ quoted_byte c ++ "'")%string.

(** [json.NewDecoder(r.Body).Decode(&req)] on a fresh decoder: the first
    value of the body is read and stored into [req]; what follows it in
    the body is not looked at.  A body that ends before a value is
    complete, or that holds none, gives [io.ErrUnexpectedEOF] or
    [io.EOF]. *)
Definition json_Decode {T : Type} `{Decodable T} (body : string) (req : T)
    : T * option error :=
  match jsonscan.readValue body with
  | jsonscan.Value v _ => store v req
  | jsonscan.SyntaxError c context =>
      (req, Some (errorString ("invalid character " ++ quoteChar c ++ " " ++ context)))
  | jsonscan.UnexpectedEOF => (req, Some (errorString "unexpected EOF"))
  | jsonscan.EOF => (req, Some (errorString "EOF"))
  end.

(** [validate.Struct(req)] of the validation engine: [None] when the value
    violates none of the constraints its type declares, otherwise the
    error listing the violations. *)
Class Validatable (T : Type) : Type := {
  validate_Struct : T -> option error
}.

(* ===================================================================== *)
(** ** package response                                                   *)
(* ===================================================================== *)

Module response.

(** [[
      type Response struct {
        Status string `json:"status"`
        Error  string `json:"error,omitempty"`
        Data   any    `json:"data,omitempty"`
      }
    ]] *)
Record Response : Type := {
  Response_Status : string;
  Response_Error : string;
  Response_Data : json.any
}.

Definition StatusOK : string := "OK".
Definition StatusError : string := "Error".

Definition OK : Response :=
  {| Response_Status := StatusOK; Response_Error := ""; Response_Data := None |}.

Definition DataOK (data : json.any) : Response :=
  {| Response_Status := StatusOK; Response_Error := ""; Response_Data := data |}.

Definition DataWithError (msg : string) (data : json.any) : Response :=
  {| Response_Status := StatusError; Response_Error := msg; Response_Data := data |}.

Definition Error (msg : string) : Response :=
  {| Response_Status := StatusError; Response_Error := msg; Response_Data := None |}.

(** The document a Go string encodes to: the encoder writes U+FFFD for
    every byte that is not part of well-formed UTF-8. *)
Definition encode_string (s : string) : json.value :=
  json.JStr (utf8.replaceInvalid s).

(** The member a string field tagged [omitempty] contributes: none when
    the string is empty. *)
Definition omitempty_string (key s : string) : list (string * json.value) :=
  if String.eqb s "" then [] else [(key, encode_string s)].

(** The member an interface field tagged [omitempty] contributes: none for
    the nil interface; otherwise the encoding of the dynamic value, which
    may fail. *)
Definition omitempty_any (key : string) (v : json.any) : option (list (string * json.value)) :=
  match v with
  | None => Some []
  | Some d =>
      match json.Marshal d with
      | Some doc => Some [(key, doc)]
      | None => None
      end
  end.

(** The encoding of the struct that its field tags prescribe: members in
    declaration order, [status] always, [error] and [data] unless empty. *)
#[global] Instance Response_Marshaler : json.Marshaler Response :=
  fun r =>
    match omitempty_any "data" (Response_Data r) with
    | Some data =>
        Some (json.JObj (("status", encode_string (Response_Status r))
                           :: omitempty_string "error" (Response_Error r) ++ data))
    | None => None
    end.

(** [[
      func Err(w, r, log, op, err, msg, httpStatus) {
        log.Error(msg, slog.String("op", op), slog.String("err", err.Error()))
        w.Header().Set("Content-Type", "application/json")
        w.WriteHeader(httpStatus)
        json.NewEncoder(w).Encode(Error(msg))
      }
    ]] *)
Definition Err (r : http.Request) (op : string) (err : error) (msg : string)
    (httpStatus : Z) : Handler unit :=
  log_Error msg [slog.String "op" op; slog.String "err" (error_Error err)] ;;
  w_Header_Set "Content-Type" "application/json" ;;
  w_WriteHeader httpStatus ;;
  _ <- json_Encode (Error msg) ;;
  ret tt.

End response.

(* ===================================================================== *)
(** ** package httputils                                                  *)
(* ===================================================================== *)

Module httputils.

(** [[
      func writeJSON(w http.ResponseWriter, status int, data any) {
        w.Header().Set("Content-Type", "application/json")
        w.WriteHeader(status)
        _ = json.NewEncoder(w).Encode(data)
      }
    ]] *)
Definition writeJSON {A : Type} `{json.Marshaler A} (status : Z) (data : A) : Handler unit :=
  w_Header_Set "Content-Type" "application/json" ;;
  w_WriteHeader status ;;
  _ <- json_Encode data ;;
  ret tt.

(** [[
      func DecodeRequest[T any](w, r, log, op) (T, bool) {
        var req T
        if err := json.NewDecoder(r.Body).Decode(&req); err != nil {
          log.Error("failed to decode request body", slog.String("op", op), slog.String("err", err.Error()))
          response.Err(w, r, log, op, err, "invalid request payload", http.StatusBadRequest)
          return req, false
        }
        return req, true
      }
    ]] *)
Definition DecodeRequest {T : Type} `{Decodable T} (r : http.Request) (op : string)
    : Handler (T * bool) :=
  let '(req, failure) := json_Decode (http.Body r) zero in
  match failure with
  | Some err =>
      log_Error "failed to decode request body"
        [slog.String "op" op; slog.String "err" (error_Error err)] ;;
      response.Err r op err "invalid request payload" http.StatusBadRequest ;;
      ret (req, false)
  | None => ret (req, true)
  end.

(** [[
      func ValidateRequest[T any](w, r, log, op, req T) bool {
        if err := validate.Struct(req); err != nil {
          log.Error("validation failed",
            slog.String("op", op),
            slog.String("err", err.Error()),
            slog.Any("validation_errors", err.Error()))
          response.Err(w, r, log, op, err, "invalid input data", http.StatusBadRequest)
          return false
        }
        return true
      }
    ]] *)
Definition ValidateRequest {T : Type} `{Validatable T} (r : http.Request) (op : string)
    (req : T) : Handler bool :=
  match validate_Struct req with
  | Some err =>
      log_Error "validation failed"
        [slog.String "op" op;
         slog.String "err" (error_Error err);
         slog.Any "validation_errors" (error_Error err)] ;;
      response.Err r op err "invalid input data" http.StatusBadRequest ;;
      ret false
  | None => ret true
  end.

(** [SendOK(w, r, log, op)] *)
Definition SendOK (r : http.Request) (op : string) : Handler unit :=
  writeJSON http.StatusOK response.OK ;;
  log_Info "operation successful" [slog.String "op" op].

(** [SendDataOK(w, r, log, op, data)] *)
Definition SendDataOK (r : http.Request) (op : string) (data : json.any) : Handler unit :=
  writeJSON http.StatusOK (response.DataOK data) ;;
  log_Info "operation successful" [slog.String "op" op].

(** [[
      func WriteHTTPError(w, log, op, err) {
        var httpErr *apperr.HTTPError
        if errors.As(err, &httpErr) {
          log.Error("handled error", slog.String("op", op), slog.String("err", httpErr.Error()))
          if httpErr.Data != nil {
            writeJSON(w, httpErr.Code, response.DataWithError(httpErr.Message, httpErr.Data))
          } else {
            writeJSON(w, httpErr.Code, response.Error(httpErr.Message))
          }
          return
        }
        log.Error("internal error", slog.String("op", op), slog.String("err", err.Error()))
        writeJSON(w, http.StatusInternalServerError, response.Error("internal server error"))
      }
    ]] *)
Definition WriteHTTPError (op : string) (err : error) : Handler unit :=
  match errors.As err with
  | Some httpErr =>
      log_Error "handled error"
        [slog.String "op" op; slog.String "err" (apperr.Error httpErr)] ;;
      match apperr.Data httpErr with
      | Some _ =>
          writeJSON (apperr.Code httpErr)
            (response.DataWithError (apperr.Message httpErr) (apperr.Data httpErr))
      | None =>
          writeJSON (apperr.Code httpErr) (response.Error (apperr.Message httpErr))
      end
  | None =>
      log_Error "internal error"
        [slog.String "op" op; slog.String "err" (error_Error err)] ;;
      writeJSON http.StatusInternalServerError (response.Error "internal server error")
  end.

End httputils.

(* ===================================================================== *)
(** ** What the responders hand to the writer                             *)
(* ===================================================================== *)

(** The documents an [Encode] of [v] offers to the writer: the encoding
    of [v], or nothing when the encoder rejects it. *)
Definition encoded {A : Type} `{json.Marshaler A} (v : A) : list json.value :=
  match json.Marshal v with
  | Some doc => [doc]
  | None => []
  end.

(** The three things [WriteHTTPError] derives from an error, branch by
    branch of its source: the status and the envelope it passes to
    [writeJSON], and the record it logs first. *)
Definition answer_status (err : error) : Z :=
  match errors.As err with
  | Some httpErr => apperr.Code httpErr
  | None => http.StatusInternalServerError
  end.

Definition answer_envelope (err : error) : response.Response :=
  match errors.As err with
  | Some httpErr =>
      match apperr.Data httpErr with
      | Some _ => response.DataWithError (apperr.Message httpErr) (apperr.Data httpErr)
      | None => response.Error (apperr.Message httpErr)
      end
  | None => response.Error "internal server error"
  end.

Definition answer_record (op : string) (err : error) : slog.LogRecord :=
  match errors.As err with
  | Some httpErr =>
      {| slog.level := slog.LevelError;
         slog.message := "handled error";
         slog.attrs := [slog.String "op" op; slog.String "err" (apperr.Error httpErr)] |}
  | None =>
      {| slog.level := slog.LevelError;
         slog.message := "internal error";
         slog.attrs := [slog.String "op" op; slog.String "err" (error_Error err)] |}
  end.

(* ===================================================================== *)
(** ** Envelopes on the wire                                              *)
(* ===================================================================== *)

(** The envelopes the package hands out: the images of its four
    constructors. *)
Inductive Constructed : response.Response -> Prop :=
| Constructed_OK : Constructed response.OK
| Constructed_DataOK (data : json.any) : Constructed (response.DataOK data)
| Constructed_Error (msg : string) : Constructed (response.Error msg)
| Constructed_DataWithError (msg : string) (data : json.any) :
    Constructed (response.DataWithError msg data).

(** Modelled from the spec: the repository only encodes envelopes, the
    decoder a client applies to a response body is not part of it.  By the
    wire format of the spec an envelope is [{ status, error?, data? }] with
    [status] always present, [error] an optional string and [data] an
    optional document; an optional field is absent ([None]) exactly when
    the object has no member of that name, so absent differs from the
    empty string ([Some ""]) and from null ([Some json.JNull]). *)
Record Envelope : Type := {
  env_status : string;
  env_error : option string;
  env_data : option json.value
}.

(** Modelled from the spec: reading an envelope off a JSON object. *)
Definition decodeEnvelope (doc : json.value) : option Envelope :=
  match doc with
  | json.JObj ms =>
      match json.member "status" ms with
      | Some (json.JStr st) =>
          match json.member "error" ms with
          | None =>
              Some {| env_status := st; env_error := None;
                      env_data := json.member "data" ms |}
          | Some (json.JStr e) =>
              Some {| env_status := st; env_error := Some e;
                      env_data := json.member "data" ms |}
          | Some _ => None
          end
      | _ => None
      end
  | _ => None
  end.

(** Modelled from the spec: what a client makes of a line of the
    response body.  The line is read as one JSON value with nothing but
    white space behind it, and the value as an envelope. *)
Definition decodeLine (text : string) : option Envelope :=
  match jsonscan.readValue text with
  | jsonscan.Value v rest =>
      if jsonscan.allSpace rest then decodeEnvelope v else None
  | _ => None
  end.

(* ===================================================================== *)
(** ** A request type to run the helpers on                               *)
(* ===================================================================== *)

Module example.

(** [[
      type NameRequest struct {
        Name string `json:"name" validate:"min=2"`
      }
    ]]
    declared in package [main]: the request of the spec's end-to-end
    scenario. *)
Record NameRequest : Type := { Name : string }.

(** The word [UnmarshalTypeError] has for a JSON value. *)
Definition kind (v : json.value) : string :=
  match v with
  | json.JNull => "null"
  | json.JBool _ => "bool"
  | json.JNum _ | json.JReal _ _ => "number"
  | json.JStr _ => "string"
  | json.JArr _ => "array"
  | json.JObj _ => "object"
  end.

Definition lower (c : ascii) : ascii :=
  if utf8.between 65 90 c then ascii_of_N (utf8.byte c + 32) else c.

Fixpoint fold (s : string) : string :=
  match s with
  | EmptyString => EmptyString
  | String c rest => String (lower c) (fold rest)
  end.

(** Whether an object key names the field [Name]: the tag [name],
    compared without regard to the case of letters. *)
Definition names_Name (key : string) : bool := String.eqb (fold key) "name".

(** Storing the members of an object into the struct, in the order of
    the object: a string for [name] is stored (a later one replaces an
    earlier one), null leaves the field alone, a value of another kind is
    a type error, of which the first is kept while the rest of the object
    is still stored; members with other keys are skipped. *)
Fixpoint store_members (ms : list (string * json.value)) (req : NameRequest)
    (saved : option error) : NameRequest * option error :=
  match ms with
  | [] => (req, saved)
  | (key, v) :: rest =>
      if names_Name key then
        match v with
        | json.JStr s => store_members rest {| Name := s |} saved
        | json.JNull => store_members rest req saved
        | _ =>
            store_members rest req
              (match saved with
               | Some e => Some e
               | None =>
                   Some (errorString
                           ("json: cannot unmarshal " ++ kind v
                              ++ " into Go struct field NameRequest.name of type string"))
               end)
        end
      else store_members rest req saved
  end.

(** [json.Unmarshal] into a [*NameRequest]: an object is stored member by
    member, null is accepted and stores nothing, any other value is a
    type error. *)
Definition store_NameRequest (v : json.value) (req : NameRequest)
    : NameRequest * option error :=
  match v with
  | json.JObj ms => store_members ms req None
  | json.JNull => (req, None)
  | _ =>
      (req, Some (errorString
                    ("json: cannot unmarshal " ++ kind v
                       ++ " into Go value of type main.NameRequest")))
  end.

#[global] Instance NameRequest_Decodable : Decodable NameRequest := {|
  zero := {| Name := "" |};
  store := store_NameRequest
|}.

(** The rule [min=2] on [Name]: for a string the engine counts runes. *)
#[global] Instance NameRequest_Validatable : Validatable NameRequest := {|
  validate_Struct req :=
    if (2 <=? utf8.RuneCountInString (Name req))%nat then None
    else Some (errorString
                 "Key: 'NameRequest.Name' Error:Field validation for 'Name' failed on the 'min' tag")
|}.

Definition dquote : string := String "034"%char EmptyString.

(** The body [{"name":"A"}], written without quote characters. *)
Definition body_of_name (name : string) : string :=
  ("{" ++ dquote ++ "name" ++ dquote ++ ":" ++ dquote ++ name ++ dquote ++ "}")%string.

Definition request_A : http.Request := {| http.Body := body_of_name "A" |}.
Definition request_Ann : http.Request := {| http.Body := body_of_name "Ann" |}.
Definition request_malformed : http.Request := {| http.Body := "{name" |}.

(** A well-formed object with something that is not JSON after it. *)
Definition request_trailing : http.Request :=
  {| http.Body := (body_of_name "Ann" ++ " trailing garbage")%string |}.

(** The state at the start of a request: nothing sent, nothing logged. *)
Definition start : World := {| w := http.unwritten ∅; log := [] |}.

(** The handler of the README's quick start, over a service that either
    fails with an error or succeeds:
    [[
      req, ok := httputils.DecodeRequest[NameRequest](w, r, h.log, op)
      if !ok { return }
      if !httputils.ValidateRequest(w, r, h.log, op, req) { return }
      err := h.service.CreateUser(r.Context(), req)
      if err != nil { httputils.WriteHTTPError(w, h.log, op, err); return }
      httputils.SendOK(w, r, h.log, op)
    ]] *)
Definition CreateUser (service : NameRequest -> option error) (r : http.Request)
    : Handler unit :=
  let op := "handler.CreateUser" in
  decoded <- httputils.DecodeRequest r op ;;
  if negb (snd decoded) then ret tt
  else
    valid <- httputils.ValidateRequest r op (fst decoded) ;;
    if negb valid then ret tt
    else
      match service (fst decoded) with
      | Some err => httputils.WriteHTTPError op err
      | None => httputils.SendOK r op
      end.

End example.

(* ===================================================================== *)
(** ** The handler of the README, for any request type                    *)
(* ===================================================================== *)

Module quickstart.

Section Handler.

Context {T : Type} `{Decodable T} `{Validatable T}.

(** The business logic: [None] is the nil error.  It takes the decoded
    request and touches neither the writer nor the logger. *)
Variable service : T -> option error.

(** [[
      func (h *Handler) CreateUser(w http.ResponseWriter, r *http.Request) {
        const op = "handler.CreateUser"
        req, ok := httputils.DecodeRequest[CreateUserRequest](w, r, h.log, op)
        if !ok {
          return
        }
        if !httputils.ValidateRequest(w, r, h.log, op, req) {
          return
        }
        err := h.service.CreateUser(r.Context(), req)
        if err != nil {
          httputils.WriteHTTPError(w, h.log, op, err)
          return
        }
        httputils.SendOK(w, r, h.log, op)
      }
    ]] *)
Definition CreateUser (r : http.Request) : Handler unit :=
  let op := "handler.CreateUser" in
  decoded <- httputils.DecodeRequest r op ;;
  if negb (snd decoded) then ret tt
  else
    valid <- httputils.ValidateRequest r op (fst decoded) ;;
    if negb valid then ret tt
    else
      match service (fst decoded) with
      | Some err => httputils.WriteHTTPError op err
      | None => httputils.SendOK r op
      end.

End Handler.

End quickstart.

(* ===================================================================== *)
(** ** package response, the revision before the last                     *)
(* ===================================================================== *)

Module response_rev2.

(** [[
      type Response struct {
        Status string `json:"status"`
        Data   any    `json:"data,omitempty"`
        Error  string `json:"error,omitempty"`
      }
    ]]
    the same fields as in the last revision, with [Data] declared before
    [Error]. *)
Record Response : Type := {
  Response_Status : string;
  Response_Data : json.any;
  Response_Error : string
}.

Definition StatusOK : string := "OK".
Definition StatusError : string := "Error".

Definition OK : Response :=
  {| Response_Status := StatusOK; Response_Data := None; Response_Error := "" |}.

Definition DataOK (data : json.any) : Response :=
  {| Response_Status := StatusOK; Response_Data := data; Response_Error := "" |}.

Definition DataWithError (msg : string) (data : json.any) : Response :=
  {| Response_Status := StatusError; Response_Data := data; Response_Error := msg |}.

Definition errorResp (msg : string) : Response :=
  {| Response_Status := StatusError; Response_Data := None; Response_Error := msg |}.

(** The encoding the field tags prescribe, members in declaration order:
    [status], then [data], then [error]. *)
#[global] Instance Response_Marshaler : json.Marshaler Response :=
  fun r =>
    match response.omitempty_any "data" (Response_Data r) with
    | Some data =>
        Some (json.JObj (("status", response.encode_string (Response_Status r))
                           :: data ++ response.omitempty_string "error" (Response_Error r)))
    | None => None
    end.

(** [[
      func Err(log, w, r, op, err, msg, httpStatus) {
        log.Error(msg, slog.String("op", op), slog.String("err", err.Error()))
        w.Header().Set("Content-Type", "application/json")
        w.WriteHeader(httpStatus)
        json.NewEncoder(w).Encode(errorResp(msg))
      }
    ]] *)
Definition Err (r : http.Request) (op : string) (err : error) (msg : string)
    (httpStatus : Z) : Handler unit :=
  log_Error msg [slog.String "op" op; slog.String "err" (error_Error err)] ;;
  w_Header_Set "Content-Type" "application/json" ;;
  w_WriteHeader httpStatus ;;
  _ <- json_Encode (errorResp msg) ;;
  ret tt.

End response_rev2.

(* ===================================================================== *)
(** * Properties                                                          *)
(* ===================================================================== *)

(** ** The response writer *)

(** Case analysis on the comparisons of status codes. *)
Ltac status_cases :=
  unfold http.bodyAllowedForStatus, http.isInformational, http.checkWriteHeaderCode,
    http.StatusOK, http.StatusBadRequest, http.StatusInternalServerError in *;
  repeat match goal with
         | H : context [(?a <=? ?b)%Z] |- _ => destruct (Z.leb_spec a b)
         | H : context [(?a =? ?b)%Z] |- _ => destruct (Z.eqb_spec a b)
         | |- context [(?a <=? ?b)%Z] => destruct (Z.leb_spec a b)
         | |- context [(?a =? ?b)%Z] => destruct (Z.eqb_spec a b)
         end;
  simpl in *; try congruence; try lia.

(** The statuses that carry a body are the three-digit codes from 200 on
    other than 204 and 304. *)
Lemma body_statuses (code : Z) :
  http.checkWriteHeaderCode code = true /\ http.bodyAllowedForStatus code = true
  <-> 200 <= code <= 999 /\ code <> 204 /\ code <> 304.
Proof. split; intros H; status_cases. Qed.

Lemma bodyAllowed_not_informational (code : Z) :
  http.bodyAllowedForStatus code = true -> http.isInformational code = false.
Proof. intros H. status_cases. Qed.

Lemma informational_checked (code : Z) :
  http.isInformational code = true ->
  http.checkWriteHeaderCode code = true /\ http.bodyAllowedForStatus code = false.
Proof. intros H. split; status_cases. Qed.

(** The first [WriteHeader] with a code that is a final status. *)
Lemma WriteHeader_first (code : Z) (rw : http.ResponseWriter) :
  http.wroteHeader rw = None ->
  http.checkWriteHeaderCode code = true ->
  http.isInformational code = false ->
  http.WriteHeader code rw
  = Some {| http.header := http.header rw;
            http.informational := http.informational rw;
            http.wroteHeader := Some (code, http.header rw);
            http.body := http.body rw |}.
Proof.
  intros Hw Hc Hi. unfold http.WriteHeader. rewrite Hw, Hc, Hi. reflexivity.
Qed.

(** With a 1xx code other than 101. *)
Lemma WriteHeader_interim (code : Z) (rw : http.ResponseWriter) :
  http.wroteHeader rw = None ->
  http.isInformational code = true ->
  http.WriteHeader code rw
  = Some {| http.header := http.header rw;
            http.informational := http.informational rw ++ [(code, http.header rw)];
            http.wroteHeader := None;
            http.body := http.body rw |}.
Proof.
  intros Hw Hi. unfold http.WriteHeader.
  rewrite Hw, (proj1 (informational_checked code Hi)), Hi. reflexivity.
Qed.

(** With a code that is not three-digit. *)
Lemma WriteHeader_invalid (code : Z) (rw : http.ResponseWriter) :
  http.wroteHeader rw = None ->
  http.checkWriteHeaderCode code = false ->
  http.WriteHeader code rw = None.
Proof. intros Hw Hc. unfold http.WriteHeader. rewrite Hw, Hc. reflexivity. Qed.

(** Once the status line is out. *)
Lemma WriteHeader_superfluous (code : Z) (rw : http.ResponseWriter)
    (sent : Z * gmap string (list string)) :
  http.wroteHeader rw = Some sent -> http.WriteHeader code rw = Some rw.
Proof. intros Hw. unfold http.WriteHeader. rewrite Hw. reflexivity. Qed.


(** After a [Write] the status line is out: the one that was, or 200. *)
Lemma wroteHeader_Write (doc : json.value) (rw : http.ResponseWriter) :
  http.wroteHeader (fst (http.Write doc rw))
  = match http.wroteHeader rw with
    | Some sent => Some sent
    | None => Some (http.StatusOK, http.header rw)
    end.
Proof.
  unfold http.Write, http.withStatusLine.
  destruct (http.wroteHeader rw) as [[st hd] |] eqn:Hw; cbn [http.wroteHeader].
  - rewrite Hw. destruct (http.bodyAllowedForStatus st); cbn [fst http.wroteHeader]; auto.
  - reflexivity.
Qed.


(** A [Write] adds its document exactly when the status in force allows
    a body. *)
Lemma body_Write (doc : json.value) (rw : http.ResponseWriter) :
  http.body (fst (http.Write doc rw))
  = http.body rw
      ++ (if http.bodyAllowedForStatus (http.status_in_force rw) then [doc] else []).
Proof.
  unfold http.Write, http.withStatusLine, http.status_in_force.
  destruct (http.wroteHeader rw) as [[st hd] |] eqn:Hw; cbn [http.wroteHeader].
  - rewrite Hw. destruct (http.bodyAllowedForStatus st); cbn [fst http.body];
      [reflexivity | rewrite app_nil_r; reflexivity].
  - reflexivity.
Qed.

(** ** The helpers, step by step *)

(** [writeJSON] from any state: the content type is set, the status is
    offered to the writer, which may panic on it, and the document is
    written if there is one. *)
Lemma writeJSON_run {A : Type} `{json.Marshaler A} (status : Z) (data : A) (s : World) :
  httputils.writeJSON status data s
  = match http.WriteHeader status
            (http.Header_Set "Content-Type" "application/json" (w s)) with
    | Some sent =>
        (Returned tt,
         {| w := match json.Marshal data with
                 | Some doc => fst (http.Write doc sent)
                 | None => sent
                 end;
            log := log s |})
    | None =>
        (Panicked (InvalidWriteHeaderCode status),
         {| w := http.Header_Set "Content-Type" "application/json" (w s);
            log := log s |})
    end.
Proof.
  unfold httputils.writeJSON, json_Encode, bind, w_Header_Set, w_WriteHeader, on_writer.
  cbn [w log].
  destruct (http.WriteHeader status _) as [sent |]; [| reflexivity].
  destruct (json.Marshal data) as [doc |]; [| reflexivity].
  cbn [w log]. destruct (http.Write doc sent) as [w' accepted]. reflexivity.
Qed.


Section Primitives.

Variables (h : gmap string (list string)) (lg : slog.Logger).

(** On a writer that has sent nothing, [writeJSON] with a status that
    carries a body and a value the encoder accepts sets the content type,
    sends the status with the headers as they are at that moment, and
    writes the one document. *)
Lemma writeJSON_unwritten {A : Type} `{json.Marshaler A} (status : Z) (data : A)
    (doc : json.value) :
  http.checkWriteHeaderCode status = true ->
  http.bodyAllowedForStatus status = true ->
  json.Marshal data = Some doc ->
  httputils.writeJSON status data {| w := http.unwritten h; log := lg |}
  = (Returned tt,
     {| w := {| http.header := <["Content-Type" := ["application/json"]]> h;
                http.informational := [];
                http.wroteHeader :=
                  Some (status, <["Content-Type" := ["application/json"]]> h);
                http.body := [doc] |};
        log := lg |}).
Proof.
  intros Hcode Hbody Hdoc. rewrite writeJSON_run. cbn [w log].
  rewrite WriteHeader_first
    by (reflexivity || auto using bodyAllowed_not_informational).
  rewrite Hdoc. unfold http.Write, http.withStatusLine. cbn.
  rewrite Hbody. reflexivity.
Qed.

(** The same with a value the encoder rejects: the status line is out
    before the encoding is attempted, and no document follows. *)
Lemma writeJSON_unwritten_rejected {A : Type} `{json.Marshaler A} (status : Z) (data : A) :
  http.checkWriteHeaderCode status = true ->
  http.isInformational status = false ->
  json.Marshal data = None ->
  httputils.writeJSON status data {| w := http.unwritten h; log := lg |}
  = (Returned tt,
     {| w := {| http.header := <["Content-Type" := ["application/json"]]> h;
                http.informational := [];
                http.wroteHeader :=
                  Some (status, <["Content-Type" := ["application/json"]]> h);
                http.body := [] |};
        log := lg |}).
Proof.
  intros Hcode Hinf Hdoc. rewrite writeJSON_run. cbn [w log].
  rewrite WriteHeader_first by (reflexivity || assumption).
  rewrite Hdoc. reflexivity.
Qed.

(** A status that is not three-digit makes [writeJSON] panic once the
    content type is set: no status line, no document. *)
Lemma writeJSON_unwritten_invalid {A : Type} `{json.Marshaler A} (status : Z) (data : A) :
  http.checkWriteHeaderCode status = false ->
  httputils.writeJSON status data {| w := http.unwritten h; log := lg |}
  = (Panicked (InvalidWriteHeaderCode status),
     {| w := http.unwritten (<["Content-Type" := ["application/json"]]> h);
        log := lg |}).
Proof.
  intros Hcode. rewrite writeJSON_run. cbn [w log].
  rewrite WriteHeader_invalid by (reflexivity || assumption). reflexivity.
Qed.

(** A final status that allows no body (101, 204, 304) is sent, and the
    writer turns the document down. *)
Lemma writeJSON_unwritten_bodiless {A : Type} `{json.Marshaler A} (status : Z) (data : A) :
  http.checkWriteHeaderCode status = true ->
  http.isInformational status = false ->
  http.bodyAllowedForStatus status = false ->
  httputils.writeJSON status data {| w := http.unwritten h; log := lg |}
  = (Returned tt,
     {| w := {| http.header := <["Content-Type" := ["application/json"]]> h;
                http.informational := [];
                http.wroteHeader :=
                  Some (status, <["Content-Type" := ["application/json"]]> h);
                http.body := [] |};
        log := lg |}).
Proof.
  intros Hcode Hinf Hbody. rewrite writeJSON_run. cbn [w log].
  rewrite WriteHeader_first by (reflexivity || assumption).
  destruct (json.Marshal data) as [doc |]; [| reflexivity].
  unfold http.Write, http.withStatusLine. cbn. rewrite Hbody. reflexivity.
Qed.

(** A 1xx status other than 101 goes out as an interim response; the
    document that follows is then sent under status 200. *)
Lemma writeJSON_unwritten_interim {A : Type} `{json.Marshaler A} (status : Z) (data : A)
    (doc : json.value) :
  http.isInformational status = true ->
  json.Marshal data = Some doc ->
  httputils.writeJSON status data {| w := http.unwritten h; log := lg |}
  = (Returned tt,
     {| w := {| http.header := <["Content-Type" := ["application/json"]]> h;
                http.informational :=
                  [(status, <["Content-Type" := ["application/json"]]> h)];
                http.wroteHeader :=
                  Some (200, <["Content-Type" := ["application/json"]]> h);
                http.body := [doc] |};
        log := lg |}).
Proof.
  intros Hinf Hdoc. rewrite writeJSON_run. cbn [w log].
  rewrite WriteHeader_interim by (reflexivity || assumption).
  rewrite Hdoc. reflexivity.
Qed.

End Primitives.

(** ** The encoding of strings *)

(** Well-formed UTF-8 passes the encoder unchanged. *)
Lemma replace_valid (s : string) :
  forall pending, utf8.valid pending s = true -> utf8.replace pending s = s.
Proof.
  induction s as [| c rest IH]; intros pending Hvalid; [reflexivity |].
  destruct pending as [| p]; cbn [utf8.valid utf8.replace] in *.
  - destruct (utf8.following c rest) as [n |]; [| discriminate].
    rewrite (IH n Hvalid). reflexivity.
  - rewrite (IH p Hvalid). reflexivity.
Qed.

Lemma replaceInvalid_valid (s : string) :
  utf8.ValidString s = true -> utf8.replaceInvalid s = s.
Proof. apply replace_valid. Qed.

Lemma encode_string_valid (s : string) :
  utf8.ValidString s = true -> response.encode_string s = json.JStr s.
Proof.
  intros Hs. unfold response.encode_string. rewrite (replaceInvalid_valid s Hs). reflexivity.
Qed.

Lemma omitempty_string_nonempty (key s : string) :
  s <> "" -> response.omitempty_string key s = [(key, response.encode_string s)].
Proof.
  intros Hs. unfold response.omitempty_string.
  destruct (String.eqb_spec s ""); [contradiction | reflexivity].
Qed.

(** The encoding of an envelope without payload. *)
Lemma Marshal_Error (msg : string) :
  json.Marshal (response.Error msg)
  = Some (json.JObj (("status", json.JStr "Error")
                       :: response.omitempty_string "error" msg)).
Proof.
  unfold json.Marshal, response.Response_Marshaler. cbn.
  rewrite app_nil_r. reflexivity.
Qed.

(** The encoding of an envelope with a payload the encoder accepts. *)
Lemma Marshal_DataWithError (msg : string) (d : json.dynamic) (D : json.value) :
  json.Marshal d = Some D ->
  json.Marshal (response.DataWithError msg (Some d))
  = Some (json.JObj (("status", json.JStr "Error")
                       :: response.omitempty_string "error" msg ++ [("data", D)])).
Proof.
  intros HD. unfold json.Marshal at 1, response.Response_Marshaler. cbn.
  rewrite HD. reflexivity.
Qed.

(** ** [WriteHTTPError], branch by branch *)

(** [WriteHTTPError] on an error that [errors.As] classifies. *)
Lemma WriteHTTPError_As_Some (op : string) (err : error) (httpErr : apperr.HTTPError) :
  errors.As err = Some httpErr ->
  httputils.WriteHTTPError op err
  = (log_Error "handled error"
       [slog.String "op" op; slog.String "err" (apperr.Error httpErr)] ;;
     match apperr.Data httpErr with
     | Some _ =>
         httputils.writeJSON (apperr.Code httpErr)
           (response.DataWithError (apperr.Message httpErr) (apperr.Data httpErr))
     | None =>
         httputils.writeJSON (apperr.Code httpErr) (response.Error (apperr.Message httpErr))
     end)%handler.
Proof. intros Has. unfold httputils.WriteHTTPError. rewrite Has. reflexivity. Qed.

(** [WriteHTTPError] on an error that [errors.As] does not classify. *)
Lemma WriteHTTPError_As_None (op : string) (err : error) :
  errors.As err = None ->
  httputils.WriteHTTPError op err
  = (log_Error "internal error"
       [slog.String "op" op; slog.String "err" (error_Error err)] ;;
     httputils.writeJSON http.StatusInternalServerError
       (response.Error "internal server error"))%handler.
Proof. intros Has. unfold httputils.WriteHTTPError. rewrite Has. reflexivity. Qed.

(** A wrapper is classified exactly as the error it wraps. *)
Lemma As_wrapError (text : string) (inner : error) :
  errors.As (wrapError text inner) = errors.As inner.
Proof. reflexivity. Qed.

(** The errors [errors.As] classifies are those with a pointer to an
    [HTTPError] somewhere along their chain. *)
Lemma As_Some_chain (err : error) (e : apperr.HTTPError) :
  errors.As err = Some e ->
  err = HTTPErrorPtr e \/ exists text inner, err = wrapError text inner /\ errors.As inner = Some e.
Proof.
  destruct err as [text | v | p | text inner]; simpl; intros Has; try discriminate.
  - left. congruence.
  - right. eauto.
Qed.

(** A log record followed by a handler. *)
Lemma log_Error_then {A : Type} (msg : string) (args : list slog.Attr) (k : Handler A)
    (s : World) :
  (log_Error msg args ;; k)%handler s
  = k {| w := w s;
         log := log s ++ [{| slog.level := slog.LevelError;
                             slog.message := msg;
                             slog.attrs := args |}] |}.
Proof. reflexivity. Qed.

(** The whole effect of [WriteHTTPError] on a fresh request, for an error
    classified without payload and with a status that carries a body. *)
Lemma WriteHTTPError_no_payload_run (err : error) (S : Z) (M op : string)
    (h : gmap string (list string)) (lg : slog.Logger) :
  errors.As err = Some (apperr.New S M) ->
  http.checkWriteHeaderCode S = true ->
  http.bodyAllowedForStatus S = true ->
  httputils.WriteHTTPError op err {| w := http.unwritten h; log := lg |}
  = (Returned tt,
     {| w := {| http.header := <["Content-Type" := ["application/json"]]> h;
                http.informational := [];
                http.wroteHeader :=
                  Some (S, <["Content-Type" := ["application/json"]]> h);
                http.body :=
                  [json.JObj (("status", json.JStr "Error")
                                :: response.omitempty_string "error" M)] |};
        log := lg ++ [{| slog.level := slog.LevelError;
                         slog.message := "handled error";
                         slog.attrs := [("op", op); ("err", M)] |}] |}).
Proof.
  intros Has Hcode Hbody. rewrite (WriteHTTPError_As_Some _ _ _ Has).
  rewrite log_Error_then. cbn [apperr.Data apperr.New apperr.Code apperr.Message w log].
  apply (writeJSON_unwritten h _ S _ _ Hcode Hbody (Marshal_Error M)).
Qed.

(** The same for an error classified with a payload the encoder accepts. *)
Lemma WriteHTTPError_payload_run (err : error) (S : Z) (M op : string)
    (d : json.dynamic) (D : json.value)
    (h : gmap string (list string)) (lg : slog.Logger) :
  errors.As err = Some (apperr.NewWithData S M (Some d)) ->
  json.Marshal d = Some D ->
  http.checkWriteHeaderCode S = true ->
  http.bodyAllowedForStatus S = true ->
  httputils.WriteHTTPError op err {| w := http.unwritten h; log := lg |}
  = (Returned tt,
     {| w := {| http.header := <["Content-Type" := ["application/json"]]> h;
                http.informational := [];
                http.wroteHeader :=
                  Some (S, <["Content-Type" := ["application/json"]]> h);
                http.body :=
                  [json.JObj (("status", json.JStr "Error")
                                :: response.omitempty_string "error" M
                                ++ [("data", D)])] |};
        log := lg ++ [{| slog.level := slog.LevelError;
                         slog.message := "handled error";
                         slog.attrs := [("op", op); ("err", M)] |}] |}).
Proof.
  intros Has HD Hcode Hbody. rewrite (WriteHTTPError_As_Some _ _ _ Has).
  rewrite log_Error_then.
  cbn [apperr.Data apperr.NewWithData apperr.Code apperr.Message w log].
  apply (writeJSON_unwritten h _ S _ _ Hcode Hbody (Marshal_DataWithError M d D HD)).
Qed.

(** The effect on a fresh request for an error that is not classified. *)
Lemma WriteHTTPError_internal_run (err : error) (op : string)
    (h : gmap string (list string)) (lg : slog.Logger) :
  errors.As err = None ->
  httputils.WriteHTTPError op err {| w := http.unwritten h; log := lg |}
  = (Returned tt,
     {| w := {| http.header := <["Content-Type" := ["application/json"]]> h;
                http.informational := [];
                http.wroteHeader :=
                  Some (500, <["Content-Type" := ["application/json"]]> h);
                http.body :=
                  [json.JObj [("status", json.JStr "Error");
                              ("error", json.JStr "internal server error")]] |};
        log := lg ++ [{| slog.level := slog.LevelError;
                         slog.message := "internal error";
                         slog.attrs := [("op", op); ("err", error_Error err)] |}] |}).
Proof.
  intros Has. rewrite (WriteHTTPError_As_None _ _ Has). reflexivity.
Qed.

(** ** Classification of errors at the HTTP boundary *)

(** C1.  For every error that [errors.As] does not classify,
    [WriteHTTPError] answers a fresh request with status 500 and the body
    [{"status":"Error","error":"internal server error"}]; and from any
    common state of the writer, two such errors (under any operation
    names and loggers) leave the writer in the same state, so nothing of
    the error's own text reaches the client. *)
Theorem WriteHTTPError_unclassified_hides_detail :
  forall (err1 err2 : error) (op1 op2 : string)
         (h : gmap string (list string)) (rw : http.ResponseWriter)
         (lg1 lg2 : slog.Logger),
    errors.As err1 = None ->
    errors.As err2 = None ->
    http.wroteHeader
      (w (exec (httputils.WriteHTTPError op1 err1) {| w := http.unwritten h; log := lg1 |}))
    = Some (500, <["Content-Type" := ["application/json"]]> h)
    /\ http.body
         (w (exec (httputils.WriteHTTPError op1 err1) {| w := http.unwritten h; log := lg1 |}))
       = [json.JObj [("status", json.JStr "Error");
                     ("error", json.JStr "internal server error")]]
    /\ w (exec (httputils.WriteHTTPError op1 err1) {| w := rw; log := lg1 |})
       = w (exec (httputils.WriteHTTPError op2 err2) {| w := rw; log := lg2 |}).
Proof.
  intros err1 err2 op1 op2 h rw lg1 lg2 Has1 Has2.
  split; [| split].
  - unfold exec. rewrite (WriteHTTPError_internal_run _ op1 h lg1 Has1). reflexivity.
  - unfold exec. rewrite (WriteHTTPError_internal_run _ op1 h lg1 Has1). reflexivity.
  - rewrite (WriteHTTPError_As_None _ _ Has1), (WriteHTTPError_As_None _ _ Has2).
    unfold exec. rewrite !log_Error_then, !writeJSON_run. cbn [w log].
    destruct (http.WriteHeader http.StatusInternalServerError _); reflexivity.
Qed.

Lemma WriteHTTPError_unclassified_witness :
  errors.As (errorString "dial tcp 10.0.0.7:5432: connection refused") = None
  /\ errors.As (wrapError "lookup: row 42" (HTTPErrorVal (apperr.New 404 "row 42"))) = None
  /\ http.body
       (w (exec (httputils.WriteHTTPError "handler.GetUser"
                   (errorString "dial tcp 10.0.0.7:5432: connection refused"))
             example.start))
     = [json.JObj [("status", json.JStr "Error");
                   ("error", json.JStr "internal server error")]]
  /\ w (exec (httputils.WriteHTTPError "handler.GetUser"
                (errorString "dial tcp 10.0.0.7:5432: connection refused"))
          example.start)
     = w (exec (httputils.WriteHTTPError "handler.GetRow"
                  (wrapError "lookup: row 42" (HTTPErrorVal (apperr.New 404 "row 42"))))
            example.start).
Proof.
  split; [reflexivity | split; [reflexivity | ]].
  apply (WriteHTTPError_unclassified_hides_detail
           (errorString "dial tcp 10.0.0.7:5432: connection refused")
           (wrapError "lookup: row 42" (HTTPErrorVal (apperr.New 404 "row 42")))
           "handler.GetUser" "handler.GetRow" ∅ (http.unwritten ∅) [] []);
    reflexivity.
Defined.

(** C2, as the code has it.  For every error classified as [New(S, M)]
    with a status [S] that the server accepts and that carries a body (a
    three-digit code from 200 on, other than 204 and 304),
    [WriteHTTPError] answers a fresh request with status [S] and one
    document: [{"status":"Error","error":M}] when [M] is not empty and is
    well-formed UTF-8; in general the [error] member holds [M] with every
    invalid byte replaced by U+FFFD; and when [M] is the empty string the
    member is left out, the body being [{"status":"Error"}]. *)
Theorem WriteHTTPError_classified_no_payload :
  forall (err : error) (S : Z) (M op : string)
         (h : gmap string (list string)) (lg : slog.Logger),
    errors.As err = Some (apperr.New S M) ->
    http.checkWriteHeaderCode S = true ->
    http.bodyAllowedForStatus S = true ->
    http.wroteHeader
      (w (exec (httputils.WriteHTTPError op err) {| w := http.unwritten h; log := lg |}))
    = Some (S, <["Content-Type" := ["application/json"]]> h)
    /\ (M <> "" ->
        utf8.ValidString M = true ->
        http.body
          (w (exec (httputils.WriteHTTPError op err) {| w := http.unwritten h; log := lg |}))
        = [json.JObj [("status", json.JStr "Error"); ("error", json.JStr M)]])
    /\ (M <> "" ->
        http.body
          (w (exec (httputils.WriteHTTPError op err) {| w := http.unwritten h; log := lg |}))
        = [json.JObj [("status", json.JStr "Error");
                      ("error", json.JStr (utf8.replaceInvalid M))]])
    /\ (M = "" ->
        http.body
          (w (exec (httputils.WriteHTTPError op err) {| w := http.unwritten h; log := lg |}))
        = [json.JObj [("status", json.JStr "Error")]]).
Proof.
  intros err S M op h lg Has Hcode Hbody.
  unfold exec. rewrite (WriteHTTPError_no_payload_run _ _ _ op h lg Has Hcode Hbody).
  cbn [snd w http.wroteHeader http.body].
  split; [reflexivity | split; [| split]].
  - intros HM Hvalid. rewrite omitempty_string_nonempty by assumption.
    rewrite encode_string_valid by assumption. reflexivity.
  - intros HM. rewrite omitempty_string_nonempty by assumption. reflexivity.
  - intros ->. reflexivity.
Qed.

Lemma WriteHTTPError_classified_no_payload_witness :
  http.wroteHeader
    (w (exec (httputils.WriteHTTPError "handler.GetUser"
                (HTTPErrorPtr (apperr.New 404 "user not found")))
          example.start))
  = Some (404, <["Content-Type" := ["application/json"]]> ∅)
  /\ http.body
       (w (exec (httputils.WriteHTTPError "handler.GetUser"
                   (HTTPErrorPtr (apperr.New 404 "user not found")))
             example.start))
     = [json.JObj [("status", json.JStr "Error"); ("error", json.JStr "user not found")]].
Proof.
  assert (Has : errors.As (HTTPErrorPtr (apperr.New 404 "user not found"))
                = Some (apperr.New 404 "user not found")) by reflexivity.
  assert (Hcode : http.checkWriteHeaderCode 404 = true) by reflexivity.
  assert (Hbody : http.bodyAllowedForStatus 404 = true) by reflexivity.
  destruct (WriteHTTPError_classified_no_payload
              (HTTPErrorPtr (apperr.New 404 "user not found"))
              404 "user not found" "handler.GetUser" ∅ [] Has Hcode Hbody)
    as [Hstatus [Hdoc _]].
  split; [exact Hstatus | apply Hdoc; [discriminate | reflexivity]].
Defined.

(** C2 as stated fails on the empty message: the body written for
    [New(400, "")] is [{"status":"Error"}], not
    [{"status":"Error","error":""}]. *)
Lemma WriteHTTPError_empty_message_counterexample :
  http.body
    (w (exec (httputils.WriteHTTPError "op" (HTTPErrorPtr (apperr.New 400 ""))) example.start))
  = [json.JObj [("status", json.JStr "Error")]]
  /\ http.body
       (w (exec (httputils.WriteHTTPError "op" (HTTPErrorPtr (apperr.New 400 "")))
             example.start))
     <> [json.JObj [("status", json.JStr "Error"); ("error", json.JStr "")]].
Proof. split; [reflexivity | discriminate]. Qed.

(** C3, as the code has it.  For every error classified as
    [NewWithData(S, M, d)] with a status [S] that the server accepts and
    that carries a body, and a payload [d] that the encoder accepts and
    marshals to the document [D], [WriteHTTPError] answers a fresh
    request with status [S] and one document:
    [{"status":"Error","error":M,"data":D}] when [M] is not empty and is
    well-formed UTF-8; in general the [error] member holds [M] with every
    invalid byte replaced by U+FFFD; and when [M] is the empty string the
    member is left out, the body being [{"status":"Error","data":D}]. *)
Theorem WriteHTTPError_classified_with_payload :
  forall (err : error) (S : Z) (M op : string) (d : json.dynamic) (D : json.value)
         (h : gmap string (list string)) (lg : slog.Logger),
    errors.As err = Some (apperr.NewWithData S M (Some d)) ->
    json.Marshal d = Some D ->
    http.checkWriteHeaderCode S = true ->
    http.bodyAllowedForStatus S = true ->
    http.wroteHeader
      (w (exec (httputils.WriteHTTPError op err) {| w := http.unwritten h; log := lg |}))
    = Some (S, <["Content-Type" := ["application/json"]]> h)
    /\ (M <> "" ->
        utf8.ValidString M = true ->
        http.body
          (w (exec (httputils.WriteHTTPError op err) {| w := http.unwritten h; log := lg |}))
        = [json.JObj [("status", json.JStr "Error"); ("error", json.JStr M); ("data", D)]])
    /\ (M <> "" ->
        http.body
          (w (exec (httputils.WriteHTTPError op err) {| w := http.unwritten h; log := lg |}))
        = [json.JObj [("status", json.JStr "Error");
                      ("error", json.JStr (utf8.replaceInvalid M));
                      ("data", D)]])
    /\ (M = "" ->
        http.body
          (w (exec (httputils.WriteHTTPError op err) {| w := http.unwritten h; log := lg |}))
        = [json.JObj [("status", json.JStr "Error"); ("data", D)]]).
Proof.
  intros err S M op d D h lg Has HD Hcode Hbody.
  unfold exec. rewrite (WriteHTTPError_payload_run _ _ _ op _ _ h lg Has HD Hcode Hbody).
  cbn [snd w http.wroteHeader http.body].
  split; [reflexivity | split; [| split]].
  - intros HM Hvalid. rewrite omitempty_string_nonempty by assumption.
    rewrite encode_string_valid by assumption. reflexivity.
  - intros HM. rewrite omitempty_string_nonempty by assumption. reflexivity.
  - intros ->. reflexivity.
Qed.

Lemma WriteHTTPError_classified_with_payload_witness :
  http.wroteHeader
    (w (exec (httputils.WriteHTTPError "handler.ProcessBatch"
                (HTTPErrorPtr
                   (apperr.NewWithData 409 "partial failure"
                      (Some (json.Encodable (json.JArr [json.JNum 1; json.JNum 3]))))))
          example.start))
  = Some (409, <["Content-Type" := ["application/json"]]> ∅)
  /\ http.body
       (w (exec (httputils.WriteHTTPError "handler.ProcessBatch"
                   (HTTPErrorPtr
                      (apperr.NewWithData 409 "partial failure"
                         (Some (json.Encodable (json.JArr [json.JNum 1; json.JNum 3]))))))
             example.start))
     = [json.JObj [("status", json.JStr "Error");
                   ("error", json.JStr "partial failure");
                   ("data", json.JArr [json.JNum 1; json.JNum 3])]].
Proof.
  assert (Has : errors.As
                  (HTTPErrorPtr
                     (apperr.NewWithData 409 "partial failure"
                        (Some (json.Encodable (json.JArr [json.JNum 1; json.JNum 3])))))
                = Some (apperr.NewWithData 409 "partial failure"
                          (Some (json.Encodable (json.JArr [json.JNum 1; json.JNum 3])))))
    by reflexivity.
  assert (HD : json.Marshal (json.Encodable (json.JArr [json.JNum 1; json.JNum 3]))
               = Some (json.JArr [json.JNum 1; json.JNum 3])) by reflexivity.
  assert (Hcode : http.checkWriteHeaderCode 409 = true) by reflexivity.
  assert (Hbody : http.bodyAllowedForStatus 409 = true) by reflexivity.
  destruct (WriteHTTPError_classified_with_payload _ 409 "partial failure"
              "handler.ProcessBatch" _ _ ∅ [] Has HD Hcode Hbody)
    as [Hstatus [Hdoc _]].
  split; [exact Hstatus | apply Hdoc; [discriminate | reflexivity]].
Defined.

(** C3 as stated fails on the empty message: the body written for
    [NewWithData(409, "", [1,3])] has no [error] member. *)
Lemma WriteHTTPError_payload_empty_message_counterexample :
  http.body
    (w (exec (httputils.WriteHTTPError "op"
                (HTTPErrorPtr
                   (apperr.NewWithData 409 ""
                      (Some (json.Encodable (json.JArr [json.JNum 1; json.JNum 3]))))))
          example.start))
  = [json.JObj [("status", json.JStr "Error");
                ("data", json.JArr [json.JNum 1; json.JNum 3])]]
  /\ http.body
       (w (exec (httputils.WriteHTTPError "op"
                   (HTTPErrorPtr
                      (apperr.NewWithData 409 ""
                         (Some (json.Encodable (json.JArr [json.JNum 1; json.JNum 3]))))))
             example.start))
     <> [json.JObj [("status", json.JStr "Error");
                    ("error", json.JStr "");
                    ("data", json.JArr [json.JNum 1; json.JNum 3])]].
Proof. split; [reflexivity | discriminate]. Qed.

(** A payload that is a nil pointer, a nil slice or a nil map is not the
    nil interface: it is sent, as null. *)
Lemma WriteHTTPError_typed_nil_payload (S : Z) (M op : string) (d : json.dynamic)
    (h : gmap string (list string)) (lg : slog.Logger) :
  d = json.NilPointer \/ d = json.NilSlice \/ d = json.NilMap ->
  http.checkWriteHeaderCode S = true ->
  http.bodyAllowedForStatus S = true ->
  http.body
    (w (exec (httputils.WriteHTTPError op (HTTPErrorPtr (apperr.NewWithData S M (Some d))))
          {| w := http.unwritten h; log := lg |}))
  = [json.JObj (("status", json.JStr "Error")
                  :: response.omitempty_string "error" M ++ [("data", json.JNull)])].
Proof.
  intros Hd Hcode Hbody. unfold exec.
  rewrite (WriteHTTPError_payload_run
             (HTTPErrorPtr (apperr.NewWithData S M (Some d))) S M op d json.JNull h lg);
    [reflexivity | reflexivity | | assumption | assumption].
  destruct Hd as [-> | [-> | ->]]; reflexivity.
Qed.

(** C10, as the code has it.  From any state, [WriteHTTPError] treats
    [NewWithData(S, M, nil)] exactly as [New(S, M)], down to a panic on a
    status the server does not accept; for a status that the server
    accepts and that carries a body it answers a fresh request with
    status [S] and one document without a [data] member, which is
    [{"status":"Error","error":M}] when [M] is not empty and is
    well-formed UTF-8 (with U+FFFD for every invalid byte of [M]
    otherwise, and [{"status":"Error"}] when [M] is empty). *)
Theorem WriteHTTPError_nil_payload_as_no_payload :
  forall (S : Z) (M op : string) (s : World)
         (h : gmap string (list string)) (lg : slog.Logger),
    httputils.WriteHTTPError op (HTTPErrorPtr (apperr.NewWithData S M None)) s
    = httputils.WriteHTTPError op (HTTPErrorPtr (apperr.New S M)) s
    /\ (http.checkWriteHeaderCode S = true ->
        http.bodyAllowedForStatus S = true ->
        http.wroteHeader
          (w (exec (httputils.WriteHTTPError op (HTTPErrorPtr (apperr.NewWithData S M None)))
                {| w := http.unwritten h; log := lg |}))
        = Some (S, <["Content-Type" := ["application/json"]]> h)
        /\ (exists doc,
              http.body
                (w (exec (httputils.WriteHTTPError op
                            (HTTPErrorPtr (apperr.NewWithData S M None)))
                      {| w := http.unwritten h; log := lg |}))
              = [doc]
              /\ json.get "data" doc = None)
        /\ (M <> "" ->
            utf8.ValidString M = true ->
            http.body
              (w (exec (httputils.WriteHTTPError op
                          (HTTPErrorPtr (apperr.NewWithData S M None)))
                    {| w := http.unwritten h; log := lg |}))
            = [json.JObj [("status", json.JStr "Error"); ("error", json.JStr M)]])
        /\ http.body
             (w (exec (httputils.WriteHTTPError op
                         (HTTPErrorPtr (apperr.NewWithData S M None)))
                   {| w := http.unwritten h; log := lg |}))
           = [json.JObj (("status", json.JStr "Error")
                           :: if String.eqb M "" then []
                              else [("error", json.JStr (utf8.replaceInvalid M))])]).
Proof.
  intros S M op s h lg.
  split; [reflexivity |].
  intros Hcode Hbody. unfold exec.
  rewrite (WriteHTTPError_no_payload_run
             (HTTPErrorPtr (apperr.NewWithData S M None)) S M op h lg)
    by (reflexivity || assumption).
  cbn [snd w http.wroteHeader http.body].
  split; [reflexivity | split; [| split]].
  - eexists; split; [reflexivity |].
    unfold response.omitempty_string. destruct (String.eqb M ""); reflexivity.
  - intros HM Hvalid. rewrite omitempty_string_nonempty by assumption.
    rewrite encode_string_valid by assumption. reflexivity.
  - reflexivity.
Qed.

Lemma WriteHTTPError_nil_payload_witness :
  httputils.WriteHTTPError "handler.GetUser"
    (HTTPErrorPtr (apperr.NewWithData 404 "user not found" None)) example.start
  = httputils.WriteHTTPError "handler.GetUser"
      (HTTPErrorPtr (apperr.New 404 "user not found")) example.start
  /\ http.body
       (w (exec (httputils.WriteHTTPError "handler.GetUser"
                   (HTTPErrorPtr (apperr.NewWithData 404 "user not found" None)))
             example.start))
     = [json.JObj [("status", json.JStr "Error"); ("error", json.JStr "user not found")]].
Proof.
  assert (Hcode : http.checkWriteHeaderCode 404 = true) by reflexivity.
  assert (Hbody : http.bodyAllowedForStatus 404 = true) by reflexivity.
  destruct (WriteHTTPError_nil_payload_as_no_payload
              404 "user not found" "handler.GetUser" example.start ∅ [])
    as [Hsame Hsent].
  destruct (Hsent Hcode Hbody) as [_ [_ [Hdoc _]]].
  split; [exact Hsame | apply Hdoc; [discriminate | reflexivity]].
Defined.

(** C10 as stated fails on the empty message: the response to
    [NewWithData(400, "", nil)] is the one to [New(400, "")], but its body
    is [{"status":"Error"}], not [{"status":"Error","error":""}]. *)
Lemma WriteHTTPError_nil_payload_empty_message_counterexample :
  ~ (httputils.WriteHTTPError "op" (HTTPErrorPtr (apperr.NewWithData 400 "" None))
       example.start
     = httputils.WriteHTTPError "op" (HTTPErrorPtr (apperr.New 400 "")) example.start
     /\ http.body
          (w (exec (httputils.WriteHTTPError "op"
                      (HTTPErrorPtr (apperr.NewWithData 400 "" None)))
                example.start))
        = [json.JObj [("status", json.JStr "Error"); ("error", json.JStr "")]]).
Proof. intros [_ Hbody]. discriminate Hbody. Qed.

(** ** Success responses *)

(** The whole effect of [SendDataOK] on a fresh request. *)
Lemma SendDataOK_run (r : http.Request) (op : string) (data : json.any)
    (h : gmap string (list string)) (lg : slog.Logger) :
  httputils.SendDataOK r op data {| w := http.unwritten h; log := lg |}
  = (Returned tt,
     {| w := {| http.header := <["Content-Type" := ["application/json"]]> h;
                http.informational := [];
                http.wroteHeader :=
                  Some (200, <["Content-Type" := ["application/json"]]> h);
                http.body := match json.Marshal (response.DataOK data) with
                             | Some doc => [doc]
                             | None => []
                             end |};
        log := lg ++ [{| slog.level := slog.LevelInfo;
                         slog.message := "operation successful";
                         slog.attrs := [("op", op)] |}] |}).
Proof.
  unfold httputils.SendDataOK, bind.
  destruct (json.Marshal (response.DataOK data)) as [doc |] eqn:Hdoc.
  - rewrite (writeJSON_unwritten h lg http.StatusOK _ doc eq_refl eq_refl Hdoc).
    reflexivity.
  - rewrite (writeJSON_unwritten_rejected h lg http.StatusOK _ eq_refl eq_refl Hdoc).
    reflexivity.
Qed.

(** The nil interface is no data: [SendDataOK] then answers as [SendOK]. *)
Lemma SendDataOK_nil (r : http.Request) (op : string) (s : World) :
  httputils.SendDataOK r op None s = httputils.SendOK r op s.
Proof. reflexivity. Qed.

(** C7, as the code has it.  On a fresh request [SendOK] sends status 200
    with the body [{"status":"OK"}].  [SendDataOK] sends status 200 as
    well, and its body depends on the data value: for a value the encoder
    accepts, marshalling to the document [D], it is
    [{"status":"OK","data":D}] (a nil pointer, slice or map gives
    [D = null]); for the nil interface it is [{"status":"OK"}], without a
    [data] member; for a value the encoder rejects it is empty. *)
Theorem SendOK_SendDataOK_bodies :
  forall (r : http.Request) (op : string) (data : json.any)
         (h : gmap string (list string)) (lg : slog.Logger),
    (http.wroteHeader
       (w (exec (httputils.SendOK r op) {| w := http.unwritten h; log := lg |}))
     = Some (200, <["Content-Type" := ["application/json"]]> h)
     /\ http.body
          (w (exec (httputils.SendOK r op) {| w := http.unwritten h; log := lg |}))
        = [json.JObj [("status", json.JStr "OK")]])
    /\ http.wroteHeader
         (w (exec (httputils.SendDataOK r op data) {| w := http.unwritten h; log := lg |}))
       = Some (200, <["Content-Type" := ["application/json"]]> h)
    /\ (forall (d : json.dynamic) (D : json.value),
           data = Some d ->
           json.Marshal d = Some D ->
           http.body
             (w (exec (httputils.SendDataOK r op data)
                   {| w := http.unwritten h; log := lg |}))
           = [json.JObj [("status", json.JStr "OK"); ("data", D)]])
    /\ (data = None ->
        http.body
          (w (exec (httputils.SendDataOK r op data) {| w := http.unwritten h; log := lg |}))
        = [json.JObj [("status", json.JStr "OK")]])
    /\ (forall d : json.dynamic,
           data = Some d ->
           json.Marshal d = None ->
           http.body
             (w (exec (httputils.SendDataOK r op data)
                   {| w := http.unwritten h; log := lg |}))
           = []).
Proof.
  intros r op data h lg.
  split; [split; reflexivity |].
  unfold exec. rewrite SendDataOK_run. cbn [snd w http.wroteHeader http.body].
  split; [reflexivity | split; [| split]].
  - intros d D -> HD. unfold json.Marshal at 1, response.Response_Marshaler. cbn.
    rewrite HD. reflexivity.
  - intros ->. reflexivity.
  - intros d -> HD. unfold json.Marshal at 1, response.Response_Marshaler. cbn.
    rewrite HD. reflexivity.
Qed.

Lemma SendOK_SendDataOK_bodies_witness :
  http.body (w (exec (httputils.SendOK example.request_Ann "handler.GetUser") example.start))
  = [json.JObj [("status", json.JStr "OK")]]
  /\ http.body
       (w (exec (httputils.SendDataOK example.request_Ann "handler.GetUser"
                   (Some (json.Encodable (json.JObj [("id", json.JNum 7)]))))
             example.start))
     = [json.JObj [("status", json.JStr "OK");
                   ("data", json.JObj [("id", json.JNum 7)])]]
  /\ http.body
       (w (exec (httputils.SendDataOK example.request_Ann "handler.GetUser"
                   (Some json.NilSlice))
             example.start))
     = [json.JObj [("status", json.JStr "OK"); ("data", json.JNull)]].
Proof.
  destruct (SendOK_SendDataOK_bodies example.request_Ann "handler.GetUser"
              (Some (json.Encodable (json.JObj [("id", json.JNum 7)]))) ∅ [])
    as [[_ Hok] [_ [Hdata _]]].
  destruct (SendOK_SendDataOK_bodies example.request_Ann "handler.GetUser"
              (Some json.NilSlice) ∅ [])
    as [_ [_ [Hnil _]]].
  split; [exact Hok | split].
  - apply (Hdata _ _ eq_refl). reflexivity.
  - apply (Hnil _ _ eq_refl). reflexivity.
Defined.

(** C7 as stated fails on the nil data value: [SendDataOK(..., nil)]
    writes [{"status":"OK"}], not [{"status":"OK","data":null}]. *)
Lemma SendDataOK_nil_counterexample :
  http.body
    (w (exec (httputils.SendDataOK example.request_Ann "op" None) example.start))
  = [json.JObj [("status", json.JStr "OK")]]
  /\ http.body
       (w (exec (httputils.SendDataOK example.request_Ann "op" None) example.start))
     <> [json.JObj [("status", json.JStr "OK"); ("data", json.JNull)]].
Proof. split; [reflexivity | discriminate]. Qed.


(** ** The envelope *)

(** C4.  No envelope built by one of the four constructors has status
    [OK] together with a non-empty error message; and a payload, any
    payload, goes with status [OK] (through [DataOK]) as well as with
    status [Error] (through [DataWithError]). *)
Theorem constructed_envelope_invariant :
  forall (r : response.Response),
    Constructed r ->
    ~ (response.Response_Status r = response.StatusOK /\ response.Response_Error r <> "")
    /\ (forall data : json.any,
          Constructed (response.DataOK data)
          /\ response.Response_Status (response.DataOK data) = response.StatusOK
          /\ response.Response_Data (response.DataOK data) = data)
    /\ (forall (msg : string) (data : json.any),
          Constructed (response.DataWithError msg data)
          /\ response.Response_Status (response.DataWithError msg data) = response.StatusError
          /\ response.Response_Data (response.DataWithError msg data) = data).
Proof.
  intros r Hr. split; [| split].
  - intros [Hstatus Herror].
    inversion Hr; subst; simpl in *; try congruence; discriminate.
  - intros data. split; [constructor | split; reflexivity].
  - intros msg data. split; [constructor | split; reflexivity].
Qed.

Lemma constructed_envelope_invariant_witness :
  Constructed (response.DataWithError "partial failure" (Some (json.Encodable (json.JNum 7))))
  /\ ~ (response.Response_Status
          (response.DataWithError "partial failure" (Some (json.Encodable (json.JNum 7))))
        = response.StatusOK
        /\ response.Response_Error
             (response.DataWithError "partial failure" (Some (json.Encodable (json.JNum 7))))
           <> "").
Proof.
  split; [constructor |].
  apply (constructed_envelope_invariant
           (response.DataWithError "partial failure" (Some (json.Encodable (json.JNum 7))))
           (Constructed_DataWithError "partial failure" (Some (json.Encodable (json.JNum 7))))).
Defined.

(** The invariant is one of the constructors, not of the record: the type
    [Response] itself has room for a success with an error message. *)
Lemma unconstructed_envelope :
  ~ Constructed {| response.Response_Status := "OK";
                   response.Response_Error := "boom";
                   response.Response_Data := None |}.
Proof. intros H. inversion H. Qed.

(** ** The text of a response, read back *)

(** *** Well-formed UTF-8 *)

Lemma between_narrow (lo hi lo' hi' : N) (c : ascii) :
  (lo' <= lo)%N -> (hi <= hi')%N ->
  utf8.between lo hi c = true -> utf8.between lo' hi' c = true.
Proof.
  unfold utf8.between. intros Hlo Hhi H.
  apply andb_true_iff in H as [H1 H2].
  apply N.leb_le in H1, H2. apply andb_true_iff. split; apply N.leb_le; lia.
Qed.

(** A well-formed rune has continuation bytes behind its first byte. *)
Lemma following_continuations (c : ascii) (rest : string) (n : nat) :
  utf8.following c rest = Some n -> utf8.continuations n rest = true.
Proof.
  unfold utf8.following.
  destruct (utf8.byte c <? 128)%N; [intros [= <-]; reflexivity |].
  destruct (utf8.byte c <? 194)%N; [discriminate |].
  destruct (utf8.byte c <? 224)%N.
  { destruct rest as [| c1 r]; [discriminate |].
    destruct (utf8.continuation c1) eqn:H1; intros [= <-]. cbn. rewrite H1. reflexivity. }
  destruct (utf8.byte c <? 240)%N.
  { destruct rest as [| c1 [| c2 r]]; try discriminate.
    match goal with
    | |- context [utf8.between ?lo ?hi c1] =>
        destruct (utf8.between lo hi c1) eqn:H1; [| discriminate];
        assert (Hc1 : utf8.continuation c1 = true)
          by (apply (between_narrow lo hi 128 191 c1);
              [destruct (utf8.byte c =? 224)%N; lia
              | destruct (utf8.byte c =? 237)%N; lia | exact H1])
    end.
    destruct (utf8.continuation c2) eqn:H2; intros [= <-]. cbn. rewrite Hc1, H2. reflexivity. }
  destruct (utf8.byte c <? 245)%N; [| discriminate].
  destruct rest as [| c1 [| c2 [| c3 r]]]; try discriminate.
  match goal with
  | |- context [utf8.between ?lo ?hi c1] =>
      destruct (utf8.between lo hi c1) eqn:H1; [| discriminate];
      assert (Hc1 : utf8.continuation c1 = true)
        by (apply (between_narrow lo hi 128 191 c1);
            [destruct (utf8.byte c =? 240)%N; lia
            | destruct (utf8.byte c =? 244)%N; lia | exact H1])
  end.
  destruct (utf8.continuation c2) eqn:H2; [| discriminate].
  destruct (utf8.continuation c3) eqn:H3; intros [= <-]. cbn. rewrite Hc1, H2, H3. reflexivity.
Qed.

(** Replacement copies the bytes of a rune under way, so the rune is
    still there afterwards. *)
Lemma following_replace (c : ascii) (rest : string) (n : nat) :
  utf8.following c rest = Some n ->
  utf8.following c (utf8.replace n rest) = Some n.
Proof.
  unfold utf8.following.
  destruct (utf8.byte c <? 128)%N; [intros [= <-]; reflexivity |].
  destruct (utf8.byte c <? 194)%N; [discriminate |].
  destruct (utf8.byte c <? 224)%N.
  { destruct rest as [| c1 r]; [discriminate |].
    destruct (utf8.continuation c1) eqn:H1; intros [= <-]. cbn. rewrite H1. reflexivity. }
  destruct (utf8.byte c <? 240)%N.
  { destruct rest as [| c1 [| c2 r]]; try discriminate.
    match goal with
    | |- context [utf8.between ?lo ?hi c1] => destruct (utf8.between lo hi c1) eqn:H1
    end; [| discriminate].
    destruct (utf8.continuation c2) eqn:H2; intros [= <-]. cbn. rewrite H1, H2. reflexivity. }
  destruct (utf8.byte c <? 245)%N; [| discriminate].
  destruct rest as [| c1 [| c2 [| c3 r]]]; try discriminate.
  match goal with
  | |- context [utf8.between ?lo ?hi c1] => destruct (utf8.between lo hi c1) eqn:H1
  end; [| discriminate].
  destruct (utf8.continuation c2) eqn:H2; [| discriminate].
  destruct (utf8.continuation c3) eqn:H3; intros [= <-]. cbn. rewrite H1, H2, H3. reflexivity.
Qed.

(** What the encoder makes of a string is well-formed UTF-8. *)
Lemma valid_replace (s : string) :
  forall pending, utf8.valid pending (utf8.replace pending s) = true.
Proof.
  induction s as [| c rest IH]; intros pending; [destruct pending; reflexivity |].
  destruct pending as [| p]; cbn [utf8.replace].
  - destruct (utf8.following c rest) as [n |] eqn:Hf.
    + cbn [utf8.valid]. rewrite (following_replace c rest n Hf). apply IH.
    + cbn. apply IH.
  - cbn [utf8.valid]. apply IH.
Qed.

Lemma replaceInvalid_idempotent (s : string) :
  utf8.replaceInvalid (utf8.replaceInvalid s) = utf8.replaceInvalid s.
Proof.
  unfold utf8.replaceInvalid. apply (replace_valid _ 0%nat). apply valid_replace.
Qed.

(** *** Reading back what the encoder writes: strings *)

Lemma string_app_assoc (a b c : string) :
  ((a ++ b) ++ c)%string = (a ++ (b ++ c))%string.
Proof.
  induction a as [| x a IH]; [reflexivity |].
  change (String x ((a ++ b) ++ c) = String x (a ++ (b ++ c)))%string.
  rewrite IH. reflexivity.
Qed.

Lemma app_String (a : ascii) (b c : string) :
  (String a b ++ c)%string = String a (b ++ c)%string.
Proof. reflexivity. Qed.

Lemma app_Empty (c : string) : (EmptyString ++ c)%string = c.
Proof. reflexivity. Qed.

(** Texts in the shape the scanner takes them: byte after byte. *)
Ltac bytes := repeat (rewrite app_String || rewrite app_Empty).

(** One byte that leaves the scanner under way. *)
Lemma scan_Next (l l' : jsonscan.lex) (stack stack' : list jsonscan.frame) (c : ascii)
    (rest : string) :
  jsonscan.step l stack c = jsonscan.Next l' stack' ->
  jsonscan.scan l stack (String c rest) = jsonscan.scan l' stack' rest.
Proof. intros Hstep. cbn [jsonscan.scan]. rewrite Hstep. reflexivity. Qed.

(** The scanner run over the bytes that are known. *)
Ltac steps := bytes; repeat (erewrite scan_Next by reflexivity).

(** A byte the scanner takes as it stands. *)
Lemma step_raw (ps : list jsonscan.piece) (stack : list jsonscan.frame) (c : ascii) :
  (utf8.byte c <? 128)%N = false ->
  jsonscan.step (jsonscan.InString ps) stack c
  = jsonscan.Next (jsonscan.InString (ps ++ [jsonscan.Raw c])) stack.
Proof.
  intros Hhigh. cbn [jsonscan.step].
  destruct (Ascii.eqb_spec c "034") as [-> | _]; [discriminate Hhigh |].
  destruct (Ascii.eqb_spec c "\") as [-> | _]; [discriminate Hhigh |].
  destruct (N.ltb_spec (utf8.byte c) 32); [| reflexivity].
  apply N.ltb_ge in Hhigh. lia.
Qed.

Lemma continuation_high (c : ascii) :
  utf8.continuation c = true -> (utf8.byte c <? 128)%N = false.
Proof.
  unfold utf8.continuation, utf8.between. intros H.
  apply andb_true_iff in H as [H _]. apply N.leb_le in H. apply N.ltb_ge. exact H.
Qed.

(** A byte below 0x80, as the encoder writes it, is read back as that
    byte: as it stands, by its short escape, or as the code unit of a
    [\u] escape. *)
Lemma scan_escape_ascii (c : ascii) :
  (utf8.byte c <? 128)%N = true ->
  exists p : jsonscan.piece,
    (forall ps1, jsonscan.pieces_text (p :: ps1) = String c (jsonscan.pieces_text ps1))
    /\ forall ps stack tail,
         jsonscan.scan (jsonscan.InString ps) stack (jsontext.escape_ascii c ++ tail)
         = jsonscan.scan (jsonscan.InString (ps ++ [p])) stack tail.
Proof.
  intros Hlow.
  exists (match jsontext.escape_ascii c with
          | String "\" (String "u" _) => jsonscan.Unit (utf8.byte c)
          | _ => jsonscan.Raw c
          end).
  destruct c as [[] [] [] [] [] [] [] []]; try discriminate Hlow;
    (split; [intros ps1; reflexivity | intros ps stack tail; reflexivity]).
Qed.

(** The inside of a string literal, as the encoder writes it, is read
    back piece by piece; the pieces spell the string with U+FFFD for
    every invalid byte. *)
Lemma scan_escape (n : nat) :
  forall (s : string) (copy : nat),
    (String.length s <= n)%nat ->
    utf8.continuations copy s = true ->
    exists ps' : list jsonscan.piece,
      jsonscan.pieces_text ps' = utf8.replace copy s
      /\ forall ps stack tail,
           jsonscan.scan (jsonscan.InString ps) stack (jsontext.escape copy 0 s ++ tail)
           = jsonscan.scan (jsonscan.InString (ps ++ ps')) stack tail.
Proof.
  induction n as [| n IH]; intros s copy Hlen Hconts.
  - destruct s; [| cbn in Hlen; lia].
    destruct copy; [| discriminate Hconts].
    exists []. split; [reflexivity |]. intros ps stack tail. rewrite app_nil_r. reflexivity.
  - destruct s as [| c rest].
    { destruct copy; [| discriminate Hconts].
      exists []. split; [reflexivity |]. intros ps stack tail. rewrite app_nil_r. reflexivity. }
    cbn [String.length] in Hlen. assert (Hrest : (String.length rest <= n)%nat) by lia.
    destruct copy as [| p].
    + cbn [jsontext.escape utf8.replace].
      destruct (utf8.byte c <? 128)%N eqn:Hlow.
      * assert (Hf : utf8.following c rest = Some 0%nat)
          by (unfold utf8.following; rewrite Hlow; reflexivity).
        rewrite Hf.
        destruct (scan_escape_ascii c Hlow) as (p & Htext & Hscan).
        destruct (IH rest 0%nat Hrest eq_refl) as (ps1 & Htext1 & Hscan1).
        exists (p :: ps1). split; [rewrite Htext, Htext1; reflexivity |].
        intros ps stack tail. rewrite string_app_assoc, Hscan, Hscan1.
        rewrite <- app_assoc. reflexivity.
      * destruct (utf8.following c rest) as [k |] eqn:Hf.
        -- destruct (jsontext.separator c rest) as [d |] eqn:Hsep.
           ++ unfold jsontext.separator in Hsep.
              destruct (Ascii.eqb_spec c "226") as [-> | _]; [| discriminate Hsep].
              destruct rest as [| c1 [| c2 rest']]; try discriminate Hsep.
              destruct (Ascii.eqb_spec c1 "128") as [-> | _]; [| discriminate Hsep].
              cbn [String.length] in Hrest.
              destruct (IH rest' 0%nat ltac:(lia) eq_refl) as (ps1 & Htext1 & Hscan1).
              destruct (Ascii.eqb_spec c2 "168") as [-> | _];
                [| destruct (Ascii.eqb_spec c2 "169") as [-> | _]; [| discriminate Hsep]];
                injection Hsep as <-; injection Hf as <-.
              ** exists (jsonscan.Unit 8232 :: ps1).
                 split; [cbn; rewrite Htext1; reflexivity |].
                 intros ps stack tail. steps. cbn [jsontext.escape].
                 rewrite Hscan1, <- app_assoc. reflexivity.
              ** exists (jsonscan.Unit 8233 :: ps1).
                 split; [cbn; rewrite Htext1; reflexivity |].
                 intros ps stack tail. steps. cbn [jsontext.escape].
                 rewrite Hscan1, <- app_assoc. reflexivity.
           ++ destruct (IH rest k Hrest (following_continuations c rest k Hf))
                as (ps1 & Htext1 & Hscan1).
              exists (jsonscan.Raw c :: ps1). split; [cbn; rewrite Htext1; reflexivity |].
              intros ps stack tail. bytes.
              rewrite (scan_Next _ _ _ _ _ _ (step_raw ps stack c Hlow)).
              rewrite Hscan1, <- app_assoc. reflexivity.
        -- destruct (IH rest 0%nat Hrest eq_refl) as (ps1 & Htext1 & Hscan1).
           exists (jsonscan.Unit 65533 :: ps1). split; [cbn; rewrite Htext1; reflexivity |].
           intros ps stack tail. steps. rewrite Hscan1, <- app_assoc. reflexivity.
    + cbn [utf8.continuations] in Hconts. apply andb_true_iff in Hconts as [Hc Hconts].
      cbn [jsontext.escape utf8.replace].
      destruct (IH rest p Hrest Hconts) as (ps1 & Htext1 & Hscan1).
      exists (jsonscan.Raw c :: ps1). split; [cbn; rewrite Htext1; reflexivity |].
      intros ps stack tail. bytes.
      rewrite (scan_Next _ _ _ _ _ _ (step_raw ps stack c (continuation_high c Hc))).
      rewrite Hscan1, <- app_assoc.
      reflexivity.
Qed.

(** A string literal as the encoder writes it, from behind its opening
    quote: the scanner ends the string with pieces that unquote to the
    string as encoded. *)
Lemma scan_literal (s : string) (stack : list jsonscan.frame) (tail : string) :
  exists ps : list jsonscan.piece,
    jsonscan.unquote ps = utf8.replaceInvalid s
    /\ jsonscan.scan (jsonscan.InString []) stack
         (jsontext.escape 0 0 s ++ String "034" tail)
       = match jsonscan.endString ps stack with
         | jsonscan.Next l stack' => jsonscan.scan l stack' tail
         | jsonscan.Complete v consumed =>
             jsonscan.Value v (if consumed then tail else String "034" tail)
         | jsonscan.Invalid c context => jsonscan.SyntaxError c context
         end.
Proof.
  destruct (scan_escape (String.length s) s 0%nat (Nat.le_refl _) eq_refl)
    as (ps & Htext & Hscan).
  exists ps. split.
  - unfold jsonscan.unquote. rewrite Htext. apply replaceInvalid_idempotent.
  - rewrite Hscan. cbn [app jsonscan.scan jsonscan.step].
    change (Ascii.eqb "034" "034") with true. cbv iota.
    destruct (jsonscan.endString ps stack) as [l st | v [|] | c ctx]; reflexivity.
Qed.

(** *** Reading back what the encoder writes: numbers and literals *)

(** The byte that completes a value. *)
Lemma scan_deliver (l : jsonscan.lex) (stack stack' : list jsonscan.frame) (c : ascii)
    (rest : string) (v : json.value) :
  jsonscan.step l stack c = jsonscan.deliver v true stack' ->
  jsonscan.scan l stack (String c rest) = jsonscan.resume v stack' rest.
Proof.
  intros Hstep. unfold jsonscan.resume. cbn [jsonscan.scan]. rewrite Hstep.
  destruct stack' as [| [] below]; reflexivity.
Qed.

(** No decimal numeral of a positive number starts with a zero. *)
Lemma to_uint_leading (p : positive) :
  match Pos.to_uint p with
  | Nil | D0 _ => False
  | _ => True
  end.
Proof.
  pose proof (DecimalPos.Unsigned.to_of (Pos.to_uint p)) as Hnorm.
  rewrite DecimalPos.Unsigned.of_to in Hnorm. cbn [N.to_uint] in Hnorm.
  pose proof (DecimalPos.Unsigned.to_uint_nonzero p) as Hnz.
  pose proof (DecimalPos.Unsigned.to_uint_nonnil p) as Hnn.
  destruct (Pos.to_uint p) as [| u | u | u | u | u | u | u | u | u | u]; try exact I.
  - apply Hnn. reflexivity.
  - rewrite unorm_D0 in Hnorm. unfold unorm in Hnorm.
    destruct (nzhead u) eqn:Hhead; try discriminate Hnorm.
    + apply Hnz. rewrite Hnorm. reflexivity.
    + rewrite <- Hnorm in Hhead. exact (nzhead_nonzero u u Hhead).
Qed.

(** The value of a digit that is known. *)
Ltac digit_value :=
  repeat match goal with
         | |- context [jsonscan.digit ?c] =>
             let d := eval vm_compute in (jsonscan.digit c) in
             change (jsonscan.digit c) with d
         end.

(** The digits behind the first, read into the integer part. *)
Lemma scan_digits (u : uint) :
  forall (n : jsonscan.number) (acc : positive) (stack : list jsonscan.frame)
         (tail : string),
    jsonscan.digits n = Z.pos acc ->
    jsonscan.scan (jsonscan.Int n) stack (NilEmpty.string_of_uint u ++ tail)
    = jsonscan.scan
        (jsonscan.Int {| jsonscan.negative := jsonscan.negative n;
                         jsonscan.digits := Z.pos (Pos.of_uint_acc u acc);
                         jsonscan.fraction := jsonscan.fraction n;
                         jsonscan.real := jsonscan.real n;
                         jsonscan.exp_negative := jsonscan.exp_negative n;
                         jsonscan.exp := jsonscan.exp n |})
        stack tail.
Proof.
  induction u as [| u IH | u IH | u IH | u IH | u IH | u IH | u IH | u IH | u IH | u IH];
    intros n acc stack tail Hacc;
    [destruct n; cbn in Hacc; subst; reflexivity | ..];
    cbn [NilEmpty.string_of_uint Pos.of_uint_acc]; bytes;
    (erewrite scan_Next by reflexivity);
    (erewrite IH;
     [reflexivity
     | cbn [jsonscan.more_digit jsonscan.digits]; rewrite Hacc; digit_value; lia]).
Qed.

(** The same for the digits of the exponent. *)
Lemma scan_exp_digits (u : uint) :
  forall (n : jsonscan.number) (acc : positive) (stack : list jsonscan.frame)
         (tail : string),
    jsonscan.real n = true ->
    jsonscan.exp n = Z.pos acc ->
    jsonscan.scan (jsonscan.E0 n) stack (NilEmpty.string_of_uint u ++ tail)
    = jsonscan.scan
        (jsonscan.E0 {| jsonscan.negative := jsonscan.negative n;
                        jsonscan.digits := jsonscan.digits n;
                        jsonscan.fraction := jsonscan.fraction n;
                        jsonscan.real := true;
                        jsonscan.exp_negative := jsonscan.exp_negative n;
                        jsonscan.exp := Z.pos (Pos.of_uint_acc u acc) |})
        stack tail.
Proof.
  induction u as [| u IH | u IH | u IH | u IH | u IH | u IH | u IH | u IH | u IH | u IH];
    intros n acc stack tail Hreal Hacc;
    [destruct n; cbn in Hacc, Hreal; subst; reflexivity | ..];
    cbn [NilEmpty.string_of_uint Pos.of_uint_acc]; bytes;
    (erewrite scan_Next by reflexivity);
    (erewrite IH;
     [reflexivity
     | reflexivity
     | cbn [jsonscan.more_exp jsonscan.exp]; rewrite Hacc; digit_value; lia]).
Qed.

Lemma delimiter_ends (c : ascii) :
  jsonscan.delimiter c = true ->
  jsonscan.isDigit c = false /\ Ascii.eqb c "." = false
  /\ Ascii.eqb c "e" = false /\ Ascii.eqb c "E" = false.
Proof.
  destruct c as [[] [] [] [] [] [] [] []]; intros H; try discriminate H;
    repeat split; reflexivity.
Qed.

(** A number ends at a delimiter, which is then read as what follows
    the number. *)
Lemma scan_number_end (l : jsonscan.lex) (n : jsonscan.number)
    (stack : list jsonscan.frame) (c : ascii) (tail : string) :
  l = jsonscan.Zero n \/ l = jsonscan.Int n \/ l = jsonscan.E0 n ->
  jsonscan.delimiter c = true ->
  jsonscan.scan l stack (String c tail)
  = jsonscan.resume (jsonscan.number_value n) stack (String c tail).
Proof.
  intros Hl Hd. destruct (delimiter_ends c Hd) as (H1 & H2 & H3 & H4).
  assert (Hstep : jsonscan.step l stack c = jsonscan.endNumber n stack c).
  { destruct Hl as [-> | [-> | ->]]; cbn [jsonscan.step]; unfold jsonscan.afterInt;
      rewrite ?H1, ?H2, ?H3, ?H4; reflexivity. }
  cbn [jsonscan.scan]. rewrite Hstep. unfold jsonscan.endNumber, jsonscan.resume.
  destruct stack as [| [] below]; reflexivity.
Qed.

(** The first digit of a number that does not start with a zero. *)
Lemma begin_digit (stack : list jsonscan.frame) (c : ascii) :
  jsonscan.isDigit c = true ->
  Ascii.eqb c "0" = false ->
  jsonscan.step jsonscan.BeginValue stack c
  = jsonscan.Next (jsonscan.Int (jsonscan.start_number false (jsonscan.digit c))) stack.
Proof.
  destruct c as [[] [] [] [] [] [] [] []]; intros Hd H0;
    try discriminate Hd; try discriminate H0; reflexivity.
Qed.

Lemma neg_digit (stack : list jsonscan.frame) (c : ascii) :
  jsonscan.isDigit c = true ->
  Ascii.eqb c "0" = false ->
  jsonscan.step jsonscan.Neg stack c
  = jsonscan.Next (jsonscan.Int (jsonscan.start_number true (jsonscan.digit c))) stack.
Proof. intros Hd H0. cbn [jsonscan.step]. rewrite H0, Hd. reflexivity. Qed.

(** The numeral of a positive number, read from a state that takes a
    first digit. *)
Lemma scan_positive (p : positive) (neg : bool) (l : jsonscan.lex)
    (stack : list jsonscan.frame) (tail : string) :
  (forall c : ascii,
      jsonscan.isDigit c = true ->
      Ascii.eqb c "0" = false ->
      jsonscan.step l stack c
      = jsonscan.Next (jsonscan.Int (jsonscan.start_number neg (jsonscan.digit c))) stack) ->
  jsonscan.scan l stack (NilEmpty.string_of_uint (Pos.to_uint p) ++ tail)
  = jsonscan.scan
      (jsonscan.Int {| jsonscan.negative := neg;
                       jsonscan.digits := Z.pos p;
                       jsonscan.fraction := 0;
                       jsonscan.real := false;
                       jsonscan.exp_negative := false;
                       jsonscan.exp := 0 |})
      stack tail.
Proof.
  intros Hl. pose proof (to_uint_leading p) as Hlead.
  pose proof (DecimalPos.Unsigned.of_to p) as Hof.
  destruct (Pos.to_uint p) as [| u | u | u | u | u | u | u | u | u | u];
    try contradiction;
    cbn [Pos.of_uint] in Hof; injection Hof as Hof;
    cbn [NilEmpty.string_of_uint]; bytes;
    (erewrite scan_Next by (apply Hl; reflexivity));
    (erewrite scan_digits by reflexivity);
    rewrite Hof; reflexivity.
Qed.

(** The integer part of a number, from the beginning of a value. *)
Lemma scan_mantissa (m : Z) (stack : list jsonscan.frame) (rest : string) :
  exists l : jsonscan.lex,
    (l = jsonscan.Zero {| jsonscan.negative := (m <? 0);
                          jsonscan.digits := Z.abs m;
                          jsonscan.fraction := 0;
                          jsonscan.real := false;
                          jsonscan.exp_negative := false;
                          jsonscan.exp := 0 |}
     \/ l = jsonscan.Int {| jsonscan.negative := (m <? 0);
                            jsonscan.digits := Z.abs m;
                            jsonscan.fraction := 0;
                            jsonscan.real := false;
                            jsonscan.exp_negative := false;
                            jsonscan.exp := 0 |})
    /\ jsonscan.scan jsonscan.BeginValue stack (jsontext.decimal m ++ rest)
       = jsonscan.scan l stack rest.
Proof.
  destruct m as [| p | p]; cbn [jsontext.decimal Z.ltb Z.compare Z.abs].
  - eexists. split; [left; reflexivity |]. steps. reflexivity.
  - eexists. split; [right; reflexivity |].
    apply scan_positive. intros c. apply begin_digit.
  - eexists. split; [right; reflexivity |]. bytes.
    erewrite scan_Next by reflexivity.
    apply scan_positive. intros c. apply neg_digit.
Qed.

(** The exponent, from behind the letter e. *)
Lemma scan_exponent (e : Z) (n : jsonscan.number) (stack : list jsonscan.frame)
    (rest : string) :
  jsonscan.exp n = 0 ->
  jsonscan.scan (jsonscan.E n) stack (jsontext.decimal e ++ rest)
  = jsonscan.scan
      (jsonscan.E0 {| jsonscan.negative := jsonscan.negative n;
                      jsonscan.digits := jsonscan.digits n;
                      jsonscan.fraction := jsonscan.fraction n;
                      jsonscan.real := true;
                      jsonscan.exp_negative := (e <? 0);
                      jsonscan.exp := Z.abs e |})
      stack rest.
Proof.
  intros Hexp.
  assert (Hdigits : forall (p : positive) (neg : bool) (l : jsonscan.lex),
             (forall c : ascii,
                 jsonscan.isDigit c = true ->
                 jsonscan.step l stack c
                 = jsonscan.Next
                     (jsonscan.E0 (jsonscan.more_exp (jsonscan.with_real n neg) c)) stack) ->
             jsonscan.scan l stack (NilEmpty.string_of_uint (Pos.to_uint p) ++ rest)
             = jsonscan.scan
                 (jsonscan.E0 {| jsonscan.negative := jsonscan.negative n;
                                 jsonscan.digits := jsonscan.digits n;
                                 jsonscan.fraction := jsonscan.fraction n;
                                 jsonscan.real := true;
                                 jsonscan.exp_negative := neg;
                                 jsonscan.exp := Z.pos p |})
                 stack rest).
  { intros p neg l Hl. pose proof (to_uint_leading p) as Hlead.
    pose proof (DecimalPos.Unsigned.of_to p) as Hof.
    destruct (Pos.to_uint p) as [| u | u | u | u | u | u | u | u | u | u];
      try contradiction;
      cbn [Pos.of_uint] in Hof; injection Hof as Hof;
      cbn [NilEmpty.string_of_uint]; bytes;
      (erewrite scan_Next by (apply Hl; reflexivity));
      (erewrite scan_exp_digits;
       [| reflexivity
        | cbn [jsonscan.more_exp jsonscan.exp jsonscan.with_real]; rewrite Hexp;
          digit_value; reflexivity]);
      rewrite Hof; reflexivity. }
  destruct e as [| p | p]; cbn [jsontext.decimal Z.ltb Z.compare Z.abs].
  - bytes. erewrite scan_Next by reflexivity.
    destruct n as [ng dg fr re en ex]. cbn in Hexp. subst ex. reflexivity.
  - apply Hdigits. intros c Hc. cbn [jsonscan.step].
    destruct (Ascii.eqb_spec c "+") as [-> | _]; [discriminate Hc |].
    destruct (Ascii.eqb_spec c "-") as [-> | _]; [discriminate Hc |].
    unfold jsonscan.expDigit. rewrite Hc. reflexivity.
  - bytes. erewrite scan_Next by reflexivity.
    apply Hdigits. intros c Hc. cbn [jsonscan.step]. unfold jsonscan.expDigit.
    rewrite Hc. reflexivity.
Qed.

(** An integer, as the encoder writes it, is read back. *)
Lemma scan_JNum (n : Z) (stack : list jsonscan.frame) (c : ascii) (tail : string) :
  jsonscan.delimiter c = true ->
  jsonscan.scan jsonscan.BeginValue stack (jsontext.decimal n ++ String c tail)
  = jsonscan.resume (json.JNum n) stack (String c tail).
Proof.
  intros Hd. destruct (scan_mantissa n stack (String c tail)) as (l & Hl & ->).
  destruct Hl as [-> | ->];
    (erewrite scan_number_end by (eauto || exact Hd));
    unfold jsonscan.number_value; cbn [jsonscan.negative jsonscan.digits jsonscan.real];
    destruct n; reflexivity.
Qed.

(** A number with an exponent, as the encoder writes it, is read back. *)
Lemma scan_JReal (m e : Z) (stack : list jsonscan.frame) (c : ascii) (tail : string) :
  jsonscan.delimiter c = true ->
  jsonscan.scan jsonscan.BeginValue stack
    (jsontext.decimal m ++ String "e" (jsontext.decimal e ++ String c tail))
  = jsonscan.resume (json.JReal m e) stack (String c tail).
Proof.
  intros Hd.
  destruct (scan_mantissa m stack (String "e" (jsontext.decimal e ++ String c tail)))
    as (l & Hl & ->).
  destruct Hl as [-> | ->];
    (erewrite scan_Next by reflexivity);
    (rewrite scan_exponent by reflexivity);
    (erewrite scan_number_end by (eauto || exact Hd));
    unfold jsonscan.number_value;
    cbn [jsonscan.negative jsonscan.digits jsonscan.real jsonscan.exp_negative
         jsonscan.exp jsonscan.fraction];
    destruct m, e; reflexivity.
Qed.

(** *** Reading back what the encoder writes: documents *)

(** Induction over documents, through elements and members. *)
Lemma value_induction (P : json.value -> Prop) :
  P json.JNull ->
  (forall b, P (json.JBool b)) ->
  (forall n, P (json.JNum n)) ->
  (forall m e, P (json.JReal m e)) ->
  (forall s, P (json.JStr s)) ->
  (forall vs, Forall P vs -> P (json.JArr vs)) ->
  (forall ms, Forall (fun m => P (snd m)) ms -> P (json.JObj ms)) ->
  forall v, P v.
Proof.
  intros Hnull Hbool Hnum Hreal Hstr Harr Hobj.
  fix IH 1.
  intros [| b | n | m e | s | vs | ms];
    [exact Hnull | apply Hbool | apply Hnum | apply Hreal | apply Hstr | |].
  - apply Harr.
    refine ((fix elements (l : list json.value) : Forall P l :=
               match l with
               | [] => @List.Forall_nil _ P
               | v :: l' => @List.Forall_cons _ P v l' (IH v) (elements l')
               end) vs).
  - apply Hobj.
    refine ((fix members (l : list (string * json.value))
               : Forall (fun m => P (snd m)) l :=
               match l with
               | [] => @List.Forall_nil _ _
               | m :: l' => @List.Forall_cons _ _ m l' (IH (snd m)) (members l')
               end) ms).
Qed.

(** Texts with the appends pushed to the right. *)
Ltac text := repeat (rewrite string_app_assoc || rewrite app_String || rewrite app_Empty).

(** The first byte of a document is neither white space nor a closing
    bracket. *)
Lemma scan_first (v : json.value) (stack : list jsonscan.frame) (rest : string) :
  jsonscan.scan jsonscan.BeginValueOrEmpty stack (jsontext.encode v ++ rest)
  = jsonscan.scan jsonscan.BeginValue stack (jsontext.encode v ++ rest).
Proof.
  assert (Hdecimal : forall n rest',
             jsonscan.scan jsonscan.BeginValueOrEmpty stack (jsontext.decimal n ++ rest')
             = jsonscan.scan jsonscan.BeginValue stack (jsontext.decimal n ++ rest')).
  { intros [| p | p] rest'; cbn [jsontext.decimal]; try reflexivity.
    pose proof (to_uint_leading p) as Hlead.
    destruct (Pos.to_uint p); try contradiction; reflexivity. }
  destruct v as [| [|] | n | m e | s | vs | ms]; cbn [jsontext.encode];
    try reflexivity; try apply Hdecimal.
  rewrite string_app_assoc. apply Hdecimal.
Qed.

Lemma depth_room (stack : list jsonscan.frame) (d : nat) :
  (N.of_nat (length stack + S d) <= jsonscan.maxNestingDepth)%N ->
  (N.of_nat (length stack) <? jsonscan.maxNestingDepth)%N = true.
Proof. intros H. apply N.ltb_lt. lia. Qed.

(** The elements of an array, from the first to the closing bracket. *)
Lemma scan_elements (stack : list jsonscan.frame) (c : ascii) (tail : string)
    (vs : list json.value) :
  Forall reads_back vs ->
  Forall (fun v => (N.of_nat (S (length stack) + jsontext.depth v)
                    <= jsonscan.maxNestingDepth)%N) vs ->
  jsonscan.delimiter c = true ->
  vs <> [] ->
  forall done : list json.value,
    jsonscan.scan jsonscan.BeginValue (jsonscan.ArrValue done :: stack)
      (jsontext.join (map jsontext.encode vs) ++ String "]" (String c tail))
    = jsonscan.resume (json.JArr (done ++ map json.canon vs)) stack (String c tail).
Proof.
  intros Hvs Hdepth Hc. induction vs as [| v vs IH]; [congruence |]. intros _ done.
  inversion Hvs as [| ? ? Hv Hvs']; inversion Hdepth as [| ? ? Hd Hdepth']; subst.
  destruct vs as [| v2 vs'].
  - cbn [map jsontext.join].
    rewrite (Hv (jsonscan.ArrValue done :: stack) "]"%char (String c tail) eq_refl eq_refl Hd).
    unfold jsonscan.resume at 1. cbn [jsonscan.deliver].
    apply scan_deliver. reflexivity.
  - change (jsontext.join (map jsontext.encode (v :: v2 :: vs')))
      with (jsontext.encode v
              ++ String "," (jsontext.join (map jsontext.encode (v2 :: vs'))))%string.
    text.
    rewrite (Hv (jsonscan.ArrValue done :: stack) ","%char _ eq_refl eq_refl Hd).
    unfold jsonscan.resume at 1. cbn [jsonscan.deliver].
    erewrite scan_Next by reflexivity.
    rewrite (IH Hvs' Hdepth' ltac:(discriminate) (done ++ [json.canon v])).
    rewrite <- app_assoc. reflexivity.
Qed.

(** The members of an object, from the first key to the closing brace. *)
Lemma scan_members (stack : list jsonscan.frame) (c : ascii) (tail : string)
    (ms : list (string * json.value)) :
  Forall (fun m => reads_back (snd m)) ms ->
  Forall (fun m => (N.of_nat (S (length stack) + jsontext.depth (snd m))
                    <= jsonscan.maxNestingDepth)%N) ms ->
  jsonscan.delimiter c = true ->
  ms <> [] ->
  forall done : list (string * json.value),
    jsonscan.scan jsonscan.BeginString (jsonscan.ObjKey done :: stack)
      (jsontext.join
         (map (fun m => (jsontext.quote (fst m) ++ String ":" (jsontext.encode (snd m)))%string)
            ms)
         ++ String "}" (String c tail))
    = jsonscan.resume
        (json.JObj
           (done ++ map (fun m => (utf8.replaceInvalid (fst m), json.canon (snd m))) ms))
        stack (String c tail).
Proof.
  intros Hms Hdepth Hc. induction ms as [| [k v] ms IH]; [congruence |]. intros _ done.
  inversion Hms as [| ? ? Hv Hms']; inversion Hdepth as [| ? ? Hd Hdepth']; subst.
  cbn [fst snd] in Hv, Hd.
  assert (Hmember : forall (rest : string) (d : ascii),
             jsonscan.delimiter d = true ->
             jsonscan.scan jsonscan.BeginString (jsonscan.ObjKey done :: stack)
               (jsontext.quote k ++ String ":" (jsontext.encode v ++ String d rest))
             = jsonscan.scan jsonscan.EndValue
                 (jsonscan.ObjNext (done ++ [(utf8.replaceInvalid k, json.canon v)])
                    :: stack)
                 (String d rest)).
  { intros rest d Hdelim. unfold jsontext.quote. text.
    erewrite scan_Next by reflexivity.
    destruct (scan_literal k (jsonscan.ObjKey done :: stack)
                (String ":" (jsontext.encode v ++ String d rest)))
      as (ps & Hq & ->).
    cbn [jsonscan.endString]. rewrite Hq.
    erewrite scan_Next by reflexivity.
    rewrite (Hv (jsonscan.ObjValue done (utf8.replaceInvalid k) :: stack) d rest
               eq_refl Hdelim Hd).
    reflexivity. }
  destruct ms as [| m2 ms'].
  - cbn [map jsontext.join fst snd]. text.
    rewrite (Hmember (String c tail) "}"%char eq_refl).
    apply scan_deliver. reflexivity.
  - change (jsontext.join
              (map (fun m => (jsontext.quote (fst m)
                                ++ String ":" (jsontext.encode (snd m)))%string)
                 ((k, v) :: m2 :: ms')))
      with ((jsontext.quote k ++ String ":" (jsontext.encode v))
              ++ String ","
                   (jsontext.join
                      (map (fun m => (jsontext.quote (fst m)
                                        ++ String ":" (jsontext.encode (snd m)))%string)
                         (m2 :: ms'))))%string.
    text.
    rewrite (Hmember _ ","%char eq_refl).
    erewrite scan_Next by reflexivity.
    rewrite (IH Hms' Hdepth' ltac:(discriminate)
               (done ++ [(utf8.replaceInvalid k, json.canon v)])).
    rewrite <- app_assoc. reflexivity.
Qed.

(** The depth of a container bounds that of what it holds. *)
Lemma depth_elements (vs : list json.value) (bound : nat) :
  (fold_right (fun e d => Nat.max (jsontext.depth e) d) O vs <= bound)%nat ->
  Forall (fun v => (jsontext.depth v <= bound)%nat) vs.
Proof.
  induction vs as [| v vs IH]; cbn [fold_right]; intros Hb; constructor;
    [lia | apply IH; lia].
Qed.

Lemma depth_members (ms : list (string * json.value)) (bound : nat) :
  (fold_right (fun m d => Nat.max (jsontext.depth (snd m)) d) O ms <= bound)%nat ->
  Forall (fun m => (jsontext.depth (snd m) <= bound)%nat) ms.
Proof.
  induction ms as [| m ms IH]; cbn [fold_right]; intros Hb; constructor;
    [lia | apply IH; lia].
Qed.

(** Every document, as the encoder writes it, is read back by the
    scanner as the document the text denotes. *)
Lemma scan_encode (v : json.value) : reads_back v.
Proof.
  induction v as [| b | n | m e | s | vs IHvs | ms IHms] using value_induction;
    intros stack c tail Hawaits Hc Hdepth; cbn [jsontext.encode json.canon].
  - steps. apply scan_deliver. reflexivity.
  - destruct b; steps; apply scan_deliver; reflexivity.
  - apply scan_JNum. exact Hc.
  - text. apply scan_JReal. exact Hc.
  - unfold jsontext.quote. text. erewrite scan_Next by reflexivity.
    destruct (scan_literal s stack (String c tail)) as (ps & Hq & ->).
    unfold jsonscan.resume.
    destruct stack as [| [] below]; try discriminate Hawaits;
      cbn [jsonscan.endString jsonscan.deliver]; rewrite Hq; reflexivity.
  - cbn [jsontext.depth] in Hdepth. text.
    assert (Hpush : jsonscan.step jsonscan.BeginValue stack "["
                    = jsonscan.Next jsonscan.BeginValueOrEmpty
                        (jsonscan.ArrValue [] :: stack)).
    { cbn. unfold jsonscan.push. rewrite (depth_room _ _ Hdepth). reflexivity. }
    rewrite (scan_Next _ _ _ _ _ _ Hpush).
    destruct vs as [| v vs'].
    + cbn [map jsontext.join]. text. apply scan_deliver. reflexivity.
    + assert (Hfirst : exists rest,
                 (jsontext.join (map jsontext.encode (v :: vs'))
                    ++ String "]" (String c tail))%string
                 = (jsontext.encode v ++ rest)%string).
      { destruct vs' as [| v2 vs''].
        - eexists. reflexivity.
        - eexists. cbn [map jsontext.join]. rewrite string_app_assoc. reflexivity. }
      destruct Hfirst as [rest Hfirst].
      rewrite Hfirst, scan_first, <- Hfirst.
      apply (scan_elements stack c tail (v :: vs') IHvs); [| exact Hc | discriminate].
      eapply Forall_impl;
        [apply (depth_elements (v :: vs') _ (Nat.le_refl _)) |].
      cbn beta. intros x Hx. lia.
  - cbn [jsontext.depth] in Hdepth. text.
    assert (Hpush : jsonscan.step jsonscan.BeginValue stack "{"
                    = jsonscan.Next jsonscan.BeginStringOrEmpty
                        (jsonscan.ObjKey [] :: stack)).
    { cbn. unfold jsonscan.push. rewrite (depth_room _ _ Hdepth). reflexivity. }
    rewrite (scan_Next _ _ _ _ _ _ Hpush).
    destruct ms as [| [k v] ms'].
    + cbn [map jsontext.join]. text. apply scan_deliver. reflexivity.
    + assert (Hfirst :
                 forall rest st,
                   jsonscan.scan jsonscan.BeginStringOrEmpty st (jsontext.quote k ++ rest)
                   = jsonscan.scan jsonscan.BeginString st (jsontext.quote k ++ rest))
        by reflexivity.
      assert (Hshape : exists rest,
                 (jsontext.join
                    (map (fun m => (jsontext.quote (fst m)
                                      ++ String ":" (jsontext.encode (snd m)))%string)
                       ((k, v) :: ms'))
                    ++ String "}" (String c tail))%string
                 = (jsontext.quote k ++ rest)%string).
      { destruct ms' as [| m2 ms''].
        - eexists. cbn [map jsontext.join fst snd]. rewrite string_app_assoc. reflexivity.
        - eexists. cbn [map jsontext.join fst snd]. rewrite !string_app_assoc. reflexivity. }
      destruct Hshape as [rest Hshape].
      rewrite Hshape, Hfirst, <- Hshape.
      apply (scan_members stack c tail ((k, v) :: ms') IHms); [| exact Hc | discriminate].
      eapply Forall_impl;
        [apply (depth_members ((k, v) :: ms') _ (Nat.le_refl _)) |].
      cbn beta. intros x Hx. lia.
Qed.

(** The line [Encode] writes for a document is read back as that
    document, with the newline left over. *)
Lemma readValue_line (v : json.value) :
  (N.of_nat (jsontext.depth v) <= jsonscan.maxNestingDepth)%N ->
  jsonscan.readValue (jsontext.line v)
  = jsonscan.Value (json.canon v) (String "010" EmptyString).
Proof.
  intros Hdepth. unfold jsonscan.readValue, jsontext.line.
  rewrite (scan_encode v [] "010"%char EmptyString eq_refl eq_refl Hdepth). reflexivity.
Qed.

(** ** The envelope on the wire and back *)

(** The line written for an envelope is one well-formed JSON text. *)
Lemma line_Valid (v : json.value) :
  (N.of_nat (jsontext.depth v) <= jsonscan.maxNestingDepth)%N ->
  jsonscan.Valid (jsontext.line v) = true.
Proof.
  intros Hdepth. unfold jsonscan.Valid. rewrite (readValue_line v Hdepth). reflexivity.
Qed.

(** What the encoder has written, it writes again unchanged. *)
Lemma canon_idempotent (v : json.value) : json.canon (json.canon v) = json.canon v.
Proof.
  induction v as [| b | n | m e | s | vs IHvs | ms IHms] using value_induction;
    cbn [json.canon]; try reflexivity.
  - rewrite replaceInvalid_idempotent. reflexivity.
  - f_equal. induction IHvs as [| v vs Hv _ IH]; cbn [map]; [reflexivity |].
    rewrite Hv, IH. reflexivity.
  - f_equal. induction IHms as [| [k v] ms Hv _ IH]; cbn [map fst snd]; [reflexivity |].
    cbn [snd] in Hv. rewrite Hv, IH, replaceInvalid_idempotent. reflexivity.
Qed.

(** The document a payload marshals to is in the form the encoder
    writes, and so is the encoding of an envelope. *)
Lemma Marshal_dynamic_canon (d : json.dynamic) (D : json.value) :
  json.Marshal d = Some D -> json.canon D = D.
Proof.
  destruct d; intros HD; try discriminate HD; injection HD as <-;
    [reflexivity | reflexivity | reflexivity | apply canon_idempotent].
Qed.

Lemma Marshal_Response_canon (r : response.Response) (doc : json.value) :
  json.Marshal r = Some doc -> json.canon doc = doc.
Proof.
  destruct r as [st msg data].
  unfold json.Marshal at 1, response.Response_Marshaler, response.omitempty_string,
    response.omitempty_any, response.encode_string.
  cbn [response.Response_Status response.Response_Error response.Response_Data].
  destruct data as [d |]; [destruct (json.Marshal d) as [D |] eqn:HD; [| discriminate] |];
    destruct (String.eqb_spec msg "") as [-> | Hmsg];
    intros Hdoc; injection Hdoc as <-;
    cbn [json.canon map fst snd app];
    rewrite !replaceInvalid_idempotent;
    try rewrite (Marshal_dynamic_canon d D HD);
    reflexivity.
Qed.

(** The line [Encode] writes for an envelope is read back as the
    document that was encoded. *)
Lemma readValue_Response (r : response.Response) (doc : json.value) :
  json.Marshal r = Some doc ->
  (N.of_nat (jsontext.depth doc) <= jsonscan.maxNestingDepth)%N ->
  jsonscan.readValue (jsontext.line doc) = jsonscan.Value doc (String "010" EmptyString).
Proof.
  intros Hdoc Hdepth.
  rewrite (readValue_line doc Hdepth), (Marshal_Response_canon r doc Hdoc). reflexivity.
Qed.

(** C8, as the code has it.  For every envelope the encoder accepts (and
    whose encoding nests no deeper than the decoder follows), the line
    that [Encode] writes reads back as an envelope with the status, the
    error message when there is one, and the payload when there is one,
    each as the encoder wrote it: the status and the message with U+FFFD
    for every byte that is not well-formed UTF-8, the payload as the
    document it marshals to.  So a status and a message of well-formed
    UTF-8 come back as they were.  A field the encoding omitted (an
    empty error message, a nil payload) reads back as absent, which is
    neither the empty string nor null. *)
Theorem envelope_round_trip :
  forall (r : response.Response) (doc : json.value),
    json.Marshal r = Some doc ->
    (N.of_nat (jsontext.depth doc) <= jsonscan.maxNestingDepth)%N ->
    exists e : Envelope,
      decodeLine (jsontext.line doc) = Some e
      /\ env_status e = utf8.replaceInvalid (response.Response_Status r)
      /\ (response.Response_Error r <> "" ->
          env_error e = Some (utf8.replaceInvalid (response.Response_Error r)))
      /\ (forall (d : json.dynamic) (D : json.value),
             response.Response_Data r = Some d ->
             json.Marshal d = Some D ->
             env_data e = Some D)
      /\ (utf8.ValidString (response.Response_Status r) = true ->
          env_status e = response.Response_Status r)
      /\ (response.Response_Error r <> "" ->
          utf8.ValidString (response.Response_Error r) = true ->
          env_error e = Some (response.Response_Error r))
      /\ (response.Response_Error r = "" ->
          json.get "error" doc = None /\ env_error e = None /\ env_error e <> Some "")
      /\ (response.Response_Data r = None ->
          json.get "data" doc = None /\ env_data e = None
          /\ env_data e <> Some json.JNull).
Proof.
  intros r doc Hdoc Hdepth.
  unfold decodeLine. rewrite (readValue_Response r doc Hdoc Hdepth).
  cbn [jsonscan.allSpace jsonscan.isSpace]. change (_ && true) with true. cbv iota.
  destruct r as [st msg data].
  unfold json.Marshal at 1, response.Response_Marshaler, response.omitempty_string,
    response.omitempty_any, response.encode_string in Hdoc.
  cbn [response.Response_Status response.Response_Error response.Response_Data] in *.
  destruct data as [d |]; [destruct (json.Marshal d) as [D |] eqn:HD; [| discriminate] |];
    destruct (String.eqb_spec msg "") as [-> | Hmsg];
    injection Hdoc as <-;
    (eexists; split; [reflexivity |]);
    cbn [env_status env_error env_data json.member json.get app];
    repeat split;
      try reflexivity; try congruence; try discriminate;
      try (intros; rewrite replaceInvalid_valid by assumption; reflexivity);
      try (intros d0 D0 Hd0 HD0; injection Hd0 as <-;
           rewrite HD in HD0; injection HD0 as <-; reflexivity).
Qed.

Lemma envelope_round_trip_witness :
  json.Marshal (response.DataWithError "partial failure"
                  (Some (json.Encodable (json.JArr [json.JNum 1; json.JNum 3]))))
  = Some (json.JObj [("status", json.JStr "Error");
                     ("error", json.JStr "partial failure");
                     ("data", json.JArr [json.JNum 1; json.JNum 3])])
  /\ exists e : Envelope,
       decodeLine
         (jsontext.line
            (json.JObj [("status", json.JStr "Error");
                        ("error", json.JStr "partial failure");
                        ("data", json.JArr [json.JNum 1; json.JNum 3])]))
       = Some e
       /\ env_status e = "Error"
       /\ env_error e = Some "partial failure"
       /\ env_data e = Some (json.JArr [json.JNum 1; json.JNum 3]).
Proof.
  assert (Hdoc : json.Marshal
                   (response.DataWithError "partial failure"
                      (Some (json.Encodable (json.JArr [json.JNum 1; json.JNum 3]))))
                 = Some (json.JObj [("status", json.JStr "Error");
                                    ("error", json.JStr "partial failure");
                                    ("data", json.JArr [json.JNum 1; json.JNum 3])]))
    by reflexivity.
  split; [exact Hdoc |].
  assert (Hdepth : (N.of_nat
                      (jsontext.depth
                         (json.JObj [("status", json.JStr "Error");
                                     ("error", json.JStr "partial failure");
                                     ("data", json.JArr [json.JNum 1; json.JNum 3])]))
                    <= jsonscan.maxNestingDepth)%N)
    by (vm_compute; discriminate).
  destruct (envelope_round_trip _ _ Hdoc Hdepth)
    as [e [Hdec [_ [_ [Hdata [Hst [Herr _]]]]]]].
  exists e. split; [exact Hdec | split; [apply Hst; reflexivity | split]].
  - apply Herr; [discriminate | reflexivity].
  - apply (Hdata (json.Encodable (json.JArr [json.JNum 1; json.JNum 3])));
      reflexivity.
Defined.

(** C8 as stated fails on a message that is not well-formed UTF-8: the
    envelope [Error("\xff")] is written with U+FFFD in place of the
    byte, so the message that reads back differs from the original. *)
Lemma envelope_round_trip_counterexample :
  json.Marshal (response.Error (String "255" EmptyString))
  = Some (json.JObj [("status", json.JStr "Error"); ("error", json.JStr utf8.RuneError)])
  /\ option_map env_error
       (decodeLine
          (jsontext.line
             (json.JObj [("status", json.JStr "Error");
                         ("error", json.JStr utf8.RuneError)])))
     = Some (Some utf8.RuneError)
  /\ utf8.RuneError <> String "255" EmptyString.
Proof. split; [reflexivity | split; [reflexivity | discriminate]]. Qed.

(** ** Decoding and validating a request *)

(** [response.Err] from any state. *)
Lemma Err_run (r : http.Request) (op : string) (err : error) (msg : string)
    (httpStatus : Z) (s : World) :
  response.Err r op err msg httpStatus s
  = httputils.writeJSON httpStatus (response.Error msg)
      {| w := w s;
         log := log s ++ [{| slog.level := slog.LevelError;
                             slog.message := msg;
                             slog.attrs := [("op", op); ("err", error_Error err)] |}] |}.
Proof. reflexivity. Qed.

(** What [response.Err] leaves behind on an unwritten writer, for one of
    the two messages the request helpers pass with status 400. *)
Lemma Err_unwritten (r : http.Request) (op : string) (err : error) (msg : string)
    (h : gmap string (list string)) (lg : slog.Logger) :
  msg <> "" ->
  utf8.ValidString msg = true ->
  response.Err r op err msg http.StatusBadRequest {| w := http.unwritten h; log := lg |}
  = (Returned tt,
     {| w := {| http.header := <["Content-Type" := ["application/json"]]> h;
                http.informational := [];
                http.wroteHeader :=
                  Some (400, <["Content-Type" := ["application/json"]]> h);
                http.body :=
                  [json.JObj [("status", json.JStr "Error");
                              ("error", json.JStr msg)]] |};
        log := lg ++ [{| slog.level := slog.LevelError;
                         slog.message := msg;
                         slog.attrs := [("op", op); ("err", error_Error err)] |}] |}).
Proof.
  intros Hmsg Hvalid. rewrite Err_run. cbn [w log].
  rewrite (writeJSON_unwritten h _ http.StatusBadRequest _ _ eq_refl eq_refl
             (Marshal_Error msg)).
  rewrite omitempty_string_nonempty by assumption.
  rewrite encode_string_valid by assumption. reflexivity.
Qed.

(** What the decoder makes of a body, by what the scanner reads off it. *)
Lemma json_Decode_cases {T : Type} `{Decodable T} (body : string) (req : T) :
  match jsonscan.readValue body with
  | jsonscan.Value v _ => json_Decode body req = store v req
  | _ => exists err, json_Decode body req = (req, Some err)
  end.
Proof.
  unfold json_Decode. destruct (jsonscan.readValue body); eauto.
Qed.

Section Pipeline.

Context {T : Type} `{Decodable T} `{Validatable T}.

Variables (r : http.Request) (op : string).

(** The whole effect of [DecodeRequest] on a fresh request whose body the
    decoder rejects. *)
Lemma DecodeRequest_failure_run (req : T) (err : error)
    (h : gmap string (list string)) (lg : slog.Logger) :
  json_Decode (http.Body r) zero = (req, Some err) ->
  httputils.DecodeRequest r op {| w := http.unwritten h; log := lg |}
  = (Returned (req, false),
     {| w := {| http.header := <["Content-Type" := ["application/json"]]> h;
                http.informational := [];
                http.wroteHeader :=
                  Some (400, <["Content-Type" := ["application/json"]]> h);
                http.body :=
                  [json.JObj [("status", json.JStr "Error");
                              ("error", json.JStr "invalid request payload")]] |};
        log := lg ++ [{| slog.level := slog.LevelError;
                         slog.message := "failed to decode request body";
                         slog.attrs := [("op", op); ("err", error_Error err)] |};
                      {| slog.level := slog.LevelError;
                         slog.message := "invalid request payload";
                         slog.attrs := [("op", op); ("err", error_Error err)] |}] |}).
Proof.
  intros Hdec. unfold httputils.DecodeRequest. rewrite Hdec.
  rewrite log_Error_then. unfold bind. cbn [w log].
  rewrite Err_unwritten by (discriminate || reflexivity).
  unfold ret. rewrite <- app_assoc. reflexivity.
Qed.

(** A body the decoder accepts is returned with [true]; nothing is
    written and nothing is logged. *)
Lemma DecodeRequest_success_run (req : T) (s : World) :
  json_Decode (http.Body r) zero = (req, None) ->
  httputils.DecodeRequest r op s = (Returned (req, true), s).
Proof.
  intros Hdec. unfold httputils.DecodeRequest. rewrite Hdec. reflexivity.
Qed.

(** The whole effect of [ValidateRequest] on a fresh request, for a value
    the engine rejects. *)
Lemma ValidateRequest_failure_run (req : T) (err : error)
    (h : gmap string (list string)) (lg : slog.Logger) :
  validate_Struct req = Some err ->
  httputils.ValidateRequest r op req {| w := http.unwritten h; log := lg |}
  = (Returned false,
     {| w := {| http.header := <["Content-Type" := ["application/json"]]> h;
                http.informational := [];
                http.wroteHeader :=
                  Some (400, <["Content-Type" := ["application/json"]]> h);
                http.body :=
                  [json.JObj [("status", json.JStr "Error");
                              ("error", json.JStr "invalid input data")]] |};
        log := lg ++ [{| slog.level := slog.LevelError;
                         slog.message := "validation failed";
                         slog.attrs := [("op", op);
                                        ("err", error_Error err);
                                        ("validation_errors", error_Error err)] |};
                      {| slog.level := slog.LevelError;
                         slog.message := "invalid input data";
                         slog.attrs := [("op", op); ("err", error_Error err)] |}] |}).
Proof.
  intros Hval. unfold httputils.ValidateRequest. rewrite Hval.
  rewrite log_Error_then. unfold bind. cbn [w log].
  rewrite Err_unwritten by (discriminate || reflexivity).
  unfold ret. rewrite <- app_assoc. reflexivity.
Qed.

Lemma ValidateRequest_success_run (req : T) (s : World) :
  validate_Struct req = None ->
  httputils.ValidateRequest r op req s = (Returned true, s).
Proof.
  intros Hval. unfold httputils.ValidateRequest. rewrite Hval. reflexivity.
Qed.

(** C5, as the code has it.  [DecodeRequest] goes by the verdict of the
    streaming decoder on the first JSON value of the body.  When the
    decoder reports an error, [DecodeRequest] returns [false] and answers
    the fresh request with status 400 and the body
    [{"status":"Error","error":"invalid request payload"}]; it does so
    whenever the body holds no value, or its first value is cut short or
    malformed, and when the first value cannot be stored into [T].  When
    the first value is well-formed and can be stored, [DecodeRequest]
    returns it with [true] and writes nothing, whatever follows that
    value in the body. *)
Theorem DecodeRequest_malformed_body :
  forall (h : gmap string (list string)) (lg : slog.Logger),
    (forall (req : T) (err : error),
        json_Decode (http.Body r) zero = (req, Some err) ->
        result (httputils.DecodeRequest r op) {| w := http.unwritten h; log := lg |}
        = Returned (req, false)
        /\ http.wroteHeader
             (w (exec (httputils.DecodeRequest r op) {| w := http.unwritten h; log := lg |}))
           = Some (400, <["Content-Type" := ["application/json"]]> h)
        /\ http.body
             (w (exec (httputils.DecodeRequest r op) {| w := http.unwritten h; log := lg |}))
           = [json.JObj [("status", json.JStr "Error");
                         ("error", json.JStr "invalid request payload")]])
    /\ ((forall (v : json.value) (rest : string),
            jsonscan.readValue (http.Body r) <> jsonscan.Value v rest) ->
        exists err : error, json_Decode (http.Body r) zero = (zero, Some err))
    /\ (forall (v : json.value) (rest : string),
           jsonscan.readValue (http.Body r) = jsonscan.Value v rest ->
           json_Decode (http.Body r) zero = store v zero)
    /\ (forall (v : json.value) (rest : string) (req : T) (s : World),
           jsonscan.readValue (http.Body r) = jsonscan.Value v rest ->
           store v zero = (req, None) ->
           httputils.DecodeRequest r op s = (Returned (req, true), s)).
Proof.
  intros h lg. pose proof (json_Decode_cases (T := T) (http.Body r) zero) as Hcases.
  split; [| split; [| split]].
  - intros req err Hdec. unfold result, exec.
    rewrite (DecodeRequest_failure_run req err h lg Hdec).
    repeat split; reflexivity.
  - intros Hnone.
    destruct (jsonscan.readValue (http.Body r)) as [v rest | | |]; try exact Hcases.
    exfalso. exact (Hnone v rest eq_refl).
  - intros v rest Hread. rewrite Hread in Hcases. exact Hcases.
  - intros v rest req s Hread Hstore. apply DecodeRequest_success_run.
    rewrite Hread in Hcases. rewrite Hcases. exact Hstore.
Qed.

(** C6.  For every value on which the validation engine reports a
    violation, [ValidateRequest] returns [false] and answers the fresh
    request with status 400 and the body
    [{"status":"Error","error":"invalid input data"}]; for every value on
    which it reports none, [ValidateRequest] returns [true] and leaves the
    writer and the logger as they were. *)
Theorem ValidateRequest_verdict :
  forall (req : T) (h : gmap string (list string)) (lg : slog.Logger) (s : World),
    (forall err : error,
        validate_Struct req = Some err ->
        result (httputils.ValidateRequest r op req) {| w := http.unwritten h; log := lg |}
        = Returned false
        /\ http.wroteHeader
             (w (exec (httputils.ValidateRequest r op req)
                   {| w := http.unwritten h; log := lg |}))
           = Some (400, <["Content-Type" := ["application/json"]]> h)
        /\ http.body
             (w (exec (httputils.ValidateRequest r op req)
                   {| w := http.unwritten h; log := lg |}))
           = [json.JObj [("status", json.JStr "Error");
                         ("error", json.JStr "invalid input data")]])
    /\ (validate_Struct req = None ->
        result (httputils.ValidateRequest r op req) s = Returned true
        /\ exec (httputils.ValidateRequest r op req) s = s).
Proof.
  intros req h lg s. split.
  - intros err Hval. unfold result, exec.
    rewrite (ValidateRequest_failure_run req err h lg Hval).
    repeat split; reflexivity.
  - intros Hval. unfold result, exec.
    rewrite (ValidateRequest_success_run req s Hval). split; reflexivity.
Qed.


End Pipeline.

Lemma DecodeRequest_malformed_body_witness :
  json_Decode (http.Body example.request_malformed) zero
  = ({| example.Name := "" |},
     Some (errorString "invalid character 'n' looking for beginning of object key string"))
  /\ result (httputils.DecodeRequest (T := example.NameRequest)
               example.request_malformed "handler.CreateUser")
       example.start
     = Returned ({| example.Name := "" |}, false)
  /\ http.wroteHeader
       (w (exec (httputils.DecodeRequest (T := example.NameRequest)
                   example.request_malformed "handler.CreateUser")
             example.start))
     = Some (400, <["Content-Type" := ["application/json"]]> ∅)
  /\ http.body
       (w (exec (httputils.DecodeRequest (T := example.NameRequest)
                   example.request_malformed "handler.CreateUser")
             example.start))
     = [json.JObj [("status", json.JStr "Error");
                   ("error", json.JStr "invalid request payload")]].
Proof.
  assert (Hdec : json_Decode (http.Body example.request_malformed) zero
                 = ({| example.Name := "" |},
                    Some (errorString
                            "invalid character 'n' looking for beginning of object key string")))
    by reflexivity.
  split; [exact Hdec |].
  destruct (DecodeRequest_malformed_body (T := example.NameRequest)
              example.request_malformed "handler.CreateUser" ∅ [])
    as [Hrejected _].
  exact (Hrejected _ _ Hdec).
Defined.

(** C5 as stated fails on a body that is a well-formed object followed by
    text that is not JSON: the body as a whole is not well-formed JSON,
    yet [DecodeRequest] returns the object with [true] and writes
    nothing. *)
Lemma DecodeRequest_trailing_text_counterexample :
  jsonscan.Valid (http.Body example.request_trailing) = false
  /\ httputils.DecodeRequest (T := example.NameRequest)
       example.request_trailing "handler.CreateUser" example.start
     = (Returned ({| example.Name := "Ann" |}, true), example.start).
Proof. split; reflexivity. Qed.

Lemma ValidateRequest_verdict_witness :
  (validate_Struct {| example.Name := "A" |}
   = Some (errorString
             "Key: 'NameRequest.Name' Error:Field validation for 'Name' failed on the 'min' tag")
   /\ result (httputils.ValidateRequest example.request_A "handler.CreateUser"
                {| example.Name := "A" |})
        example.start
      = Returned false
   /\ http.body
        (w (exec (httputils.ValidateRequest example.request_A "handler.CreateUser"
                    {| example.Name := "A" |})
              example.start))
      = [json.JObj [("status", json.JStr "Error");
                    ("error", json.JStr "invalid input data")]])
  /\ (validate_Struct {| example.Name := "Ann" |} = None
      /\ result (httputils.ValidateRequest example.request_Ann "handler.CreateUser"
                   {| example.Name := "Ann" |})
           example.start
         = Returned true
      /\ exec (httputils.ValidateRequest example.request_Ann "handler.CreateUser"
                 {| example.Name := "Ann" |})
           example.start
         = example.start).
Proof.
  assert (HA : validate_Struct {| example.Name := "A" |}
               = Some (errorString
                         "Key: 'NameRequest.Name' Error:Field validation for 'Name' failed on the 'min' tag"))
    by reflexivity.
  assert (HAnn : validate_Struct {| example.Name := "Ann" |} = None) by reflexivity.
  split.
  - split; [exact HA |].
    destruct (ValidateRequest_verdict (T := example.NameRequest)
                example.request_A "handler.CreateUser" {| example.Name := "A" |}
                ∅ [] example.start)
      as [Hreject _].
    destruct (Hreject _ HA) as [Hfalse [_ Hbody]].
    split; [exact Hfalse | exact Hbody].
  - split; [exact HAnn |].
    destruct (ValidateRequest_verdict (T := example.NameRequest)
                example.request_Ann "handler.CreateUser" {| example.Name := "Ann" |}
                ∅ [] example.start)
      as [_ Haccept].
    exact (Haccept HAnn).
Defined.



(** ** The scenarios of the spec, run end to end *)

(** The body [{"name":"A"}] against the rule [min=2]: decoding succeeds,
    validation fails, the client receives 400 and "invalid input data". *)
Example scenario_name_too_short :
  w (exec (example.CreateUser (fun _ => None) example.request_A) example.start)
  = {| http.header := <["Content-Type" := ["application/json"]]> ∅;
       http.informational := [];
       http.wroteHeader := Some (400, <["Content-Type" := ["application/json"]]> ∅);
       http.body := [json.JObj [("status", json.JStr "Error");
                                ("error", json.JStr "invalid input data")]] |}.
Proof. reflexivity. Qed.

(** The service raises [New(404, "user not found")]. *)
Example scenario_user_not_found :
  w (exec (example.CreateUser
             (fun _ => Some (HTTPErrorPtr (apperr.New 404 "user not found")))
             example.request_Ann)
       example.start)
  = {| http.header := <["Content-Type" := ["application/json"]]> ∅;
       http.informational := [];
       http.wroteHeader := Some (404, <["Content-Type" := ["application/json"]]> ∅);
       http.body := [json.JObj [("status", json.JStr "Error");
                                ("error", json.JStr "user not found")]] |}.
Proof. reflexivity. Qed.

(** The service raises [NewWithData(409, "partial failure", [1,3])]. *)
Example scenario_partial_failure :
  w (exec (example.CreateUser
             (fun _ => Some (HTTPErrorPtr
                               (apperr.NewWithData 409 "partial failure"
                                  (Some (json.Encodable (json.JArr [json.JNum 1; json.JNum 3]))))))
             example.request_Ann)
       example.start)
  = {| http.header := <["Content-Type" := ["application/json"]]> ∅;
       http.informational := [];
       http.wroteHeader := Some (409, <["Content-Type" := ["application/json"]]> ∅);
       http.body := [json.JObj [("status", json.JStr "Error");
                                ("error", json.JStr "partial failure");
                                ("data", json.JArr [json.JNum 1; json.JNum 3])]] |}.
Proof. reflexivity. Qed.

(** The service succeeds. *)
Example scenario_success :
  exec (example.CreateUser (fun _ => None) example.request_Ann) example.start
  = {| w := {| http.header := <["Content-Type" := ["application/json"]]> ∅;
               http.informational := [];
               http.wroteHeader := Some (200, <["Content-Type" := ["application/json"]]> ∅);
               http.body := [json.JObj [("status", json.JStr "OK")]] |};
       log := [{| slog.level := slog.LevelInfo;
                  slog.message := "operation successful";
                  slog.attrs := [("op", "handler.CreateUser")] |}] |}.
Proof. reflexivity. Qed.

(** A classified error keeps its classification under wrapping; the
    wrapper's own text reaches neither the log nor the body. *)
Example scenario_wrapped_classified :
  exec (httputils.WriteHTTPError "handler.GetUser"
          (wrapError "get user 42: user not found"
             (HTTPErrorPtr (apperr.New 404 "user not found"))))
    example.start
  = {| w := {| http.header := <["Content-Type" := ["application/json"]]> ∅;
               http.informational := [];
               http.wroteHeader := Some (404, <["Content-Type" := ["application/json"]]> ∅);
               http.body := [json.JObj [("status", json.JStr "Error");
                                        ("error", json.JStr "user not found")]] |};
       log := [{| slog.level := slog.LevelError;
                  slog.message := "handled error";
                  slog.attrs := [("op", "handler.GetUser"); ("err", "user not found")] |}] |}.
Proof. reflexivity. Qed.

(** An error of the first revision's shape, an [HTTPError] held by value,
    is not what [errors.As] looks for: it is answered as an internal
    error, and its message stays out of the body. *)
Example scenario_error_by_value :
  w (exec (httputils.WriteHTTPError "op" (HTTPErrorVal (apperr.New 404 "user not found")))
       example.start)
  = {| http.header := <["Content-Type" := ["application/json"]]> ∅;
       http.informational := [];
       http.wroteHeader := Some (500, <["Content-Type" := ["application/json"]]> ∅);
       http.body := [json.JObj [("status", json.JStr "Error");
                                ("error", json.JStr "internal server error")]] |}.
Proof. reflexivity. Qed.

(** A message that is not well-formed UTF-8 reaches the client with the
    offending byte replaced by U+FFFD. *)
Example scenario_invalid_utf8_message :
  http.body
    (w (exec (httputils.WriteHTTPError "op"
                (HTTPErrorPtr (apperr.New 400 (String "255"%char "x"))))
          example.start))
  = [json.JObj [("status", json.JStr "Error");
                ("error", json.JStr (utf8.RuneError ++ "x"))]].
Proof. reflexivity. Qed.

(** A status that is not three-digit: the handler panics after logging,
    and nothing is sent. *)
Example scenario_status_zero :
  httputils.WriteHTTPError "op" (HTTPErrorPtr (apperr.New 0 "boom")) example.start
  = (Panicked (InvalidWriteHeaderCode 0),
     {| w := http.unwritten (<["Content-Type" := ["application/json"]]> ∅);
        log := [{| slog.level := slog.LevelError;
                   slog.message := "handled error";
                   slog.attrs := [("op", "op"); ("err", "boom")] |}] |}).
Proof. reflexivity. Qed.

(** Status 204 is sent, and the writer turns its document down. *)
Example scenario_status_no_content :
  w (exec (httputils.WriteHTTPError "op" (HTTPErrorPtr (apperr.New 204 "gone")))
       example.start)
  = {| http.header := <["Content-Type" := ["application/json"]]> ∅;
       http.informational := [];
       http.wroteHeader := Some (204, <["Content-Type" := ["application/json"]]> ∅);
       http.body := [] |}.
Proof. reflexivity. Qed.

(* ===================================================================== *)
(** * Further properties of the helpers                                   *)
(* ===================================================================== *)

(** ** The helpers from any state *)


(** [writeJSON] with a final status the server accepts, from any state:
    the status line is the one already sent if there is one, and the
    document is appended when the status in force allows a body. *)
Lemma writeJSON_any {A : Type} `{json.Marshaler A} (status : Z) (data : A) (s : World) :
  http.checkWriteHeaderCode status = true ->
  http.isInformational status = false ->
  httputils.writeJSON status data s
  = (Returned tt,
     {| w := {| http.header :=
                  <["Content-Type" := ["application/json"]]> (http.header (w s));
                http.informational := http.informational (w s);
                http.wroteHeader :=
                  Some (match http.wroteHeader (w s) with
                        | Some sent => sent
                        | None =>
                            (status,
                             <["Content-Type" := ["application/json"]]> (http.header (w s)))
                        end);
                http.body :=
                  http.body (w s)
                    ++ (if http.bodyAllowedForStatus
                             (match http.wroteHeader (w s) with
                              | Some (sent, _) => sent
                              | None => status
                              end)
                        then encoded data else []) |};
        log := log s |}).
Proof.
  intros Hcode Hinf. rewrite writeJSON_run.
  destruct s as [[hd inf sent bd] lg]. cbn [w log].
  unfold http.WriteHeader, http.Header_Set, encoded. cbn.
  destruct sent as [[st hd'] |]; [| rewrite Hcode, Hinf];
    (destruct (json.Marshal data) as [doc |];
     [unfold http.Write, http.withStatusLine; cbn |]);
    repeat match goal with
           | |- context [if ?b then _ else _] => destruct b
           end;
    cbn; rewrite ?app_nil_r; reflexivity.
Qed.



(** [WriteHTTPError] from any state, as one log record followed by one
    [writeJSON]. *)
Lemma WriteHTTPError_run (op : string) (err : error) (s : World) :
  httputils.WriteHTTPError op err s
  = httputils.writeJSON (answer_status err) (answer_envelope err)
      {| w := w s; log := log s ++ [answer_record op err] |}.
Proof.
  unfold httputils.WriteHTTPError, answer_status, answer_envelope, answer_record.
  destruct (errors.As err) as [httpErr |]; rewrite log_Error_then;
    [destruct (apperr.Data httpErr) |]; reflexivity.
Qed.




(** X3.  The responders drop the encoder's error.  For a payload the
    encoder rejects, [SendDataOK] answers a fresh request with status 200,
    the JSON content type and an empty body, and still logs "operation
    successful" at level Info; [WriteHTTPError] answers an error
    classified with such a payload and a final status the server accepts
    with that status and an empty body, and logs the handled error only.
    Neither leaves a record of the failed encoding. *)
Theorem unencodable_payload_unreported :
  forall (r : http.Request) (op : string) (err : error) (S : Z) (M : string)
         (h : gmap string (list string)) (lg : slog.Logger),
    exec (httputils.SendDataOK r op (Some json.Unsupported))
      {| w := http.unwritten h; log := lg |}
    = {| w := {| http.header := <["Content-Type" := ["application/json"]]> h;
                 http.informational := [];
                 http.wroteHeader :=
                   Some (200, <["Content-Type" := ["application/json"]]> h);
                 http.body := [] |};
         log := lg ++ [{| slog.level := slog.LevelInfo;
                          slog.message := "operation successful";
                          slog.attrs := [("op", op)] |}] |}
    /\ (errors.As err = Some (apperr.NewWithData S M (Some json.Unsupported)) ->
        http.checkWriteHeaderCode S = true ->
        http.isInformational S = false ->
        httputils.WriteHTTPError op err {| w := http.unwritten h; log := lg |}
        = (Returned tt,
           {| w := {| http.header := <["Content-Type" := ["application/json"]]> h;
                      http.informational := [];
                      http.wroteHeader :=
                        Some (S, <["Content-Type" := ["application/json"]]> h);
                      http.body := [] |};
              log := lg ++ [{| slog.level := slog.LevelError;
                               slog.message := "handled error";
                               slog.attrs := [("op", op); ("err", M)] |}] |})).
Proof.
  intros r op err S M h lg. split; [reflexivity |].
  intros Has Hcode Hinf. rewrite (WriteHTTPError_As_Some _ _ _ Has).
  rewrite log_Error_then.
  cbn [apperr.Data apperr.NewWithData apperr.Code apperr.Message w log].
  apply (writeJSON_unwritten_rejected h _ S _ Hcode Hinf). reflexivity.
Qed.

Lemma unencodable_payload_unreported_witness :
  http.body
    (w (exec (httputils.WriteHTTPError "handler.Export"
                (wrapError "export: stream"
                   (HTTPErrorPtr
                      (apperr.NewWithData 409 "partial failure" (Some json.Unsupported)))))
          example.start))
  = []
  /\ length
       (log (exec (httputils.WriteHTTPError "handler.Export"
                     (wrapError "export: stream"
                        (HTTPErrorPtr
                           (apperr.NewWithData 409 "partial failure"
                              (Some json.Unsupported)))))
               example.start))
     = 1%nat.
Proof.
  assert (Has : errors.As
                  (wrapError "export: stream"
                     (HTTPErrorPtr
                        (apperr.NewWithData 409 "partial failure" (Some json.Unsupported))))
                = Some (apperr.NewWithData 409 "partial failure" (Some json.Unsupported)))
    by reflexivity.
  assert (Hcode : http.checkWriteHeaderCode 409 = true) by reflexivity.
  assert (Hinf : http.isInformational 409 = false) by reflexivity.
  destruct (unencodable_payload_unreported
              example.request_A "handler.Export"
              (wrapError "export: stream"
                 (HTTPErrorPtr
                    (apperr.NewWithData 409 "partial failure" (Some json.Unsupported))))
              409 "partial failure" ∅ [])
    as [_ Herr].
  unfold exec. change example.start with {| w := http.unwritten ∅; log := [] |}.
  rewrite (Herr Has Hcode Hinf). split; reflexivity.
Defined.

(** X4.  Wrapping an error never changes the response: from any state,
    [WriteHTTPError] leaves the writer for [fmt.Errorf("...%w", inner)] as
    it leaves it for [inner].  When [inner] is classified the log is the
    same as well, so the wrapper's text appears nowhere. *)
Theorem WriteHTTPError_wrapping_transparent :
  forall (text op : string) (inner : error) (s : World),
    w (exec (httputils.WriteHTTPError op (wrapError text inner)) s)
    = w (exec (httputils.WriteHTTPError op inner) s)
    /\ (forall httpErr : apperr.HTTPError,
           errors.As inner = Some httpErr ->
           httputils.WriteHTTPError op (wrapError text inner) s
           = httputils.WriteHTTPError op inner s).
Proof.
  intros text op inner s.
  pose proof (As_wrapError text inner) as Hwrap.
  destruct (errors.As inner) as [httpErr |] eqn:Has.
  - assert (Hsame : httputils.WriteHTTPError op (wrapError text inner) s
                    = httputils.WriteHTTPError op inner s).
    { rewrite (WriteHTTPError_As_Some _ _ _ Hwrap), (WriteHTTPError_As_Some _ _ _ Has).
      reflexivity. }
    split; [unfold exec; rewrite Hsame; reflexivity | intros _ _; exact Hsame].
  - split; [| intros httpErr Habs; discriminate Habs].
    rewrite (WriteHTTPError_As_None _ _ Hwrap), (WriteHTTPError_As_None _ _ Has).
    unfold exec. rewrite !log_Error_then, !writeJSON_run. cbn [w log].
    destruct (http.WriteHeader http.StatusInternalServerError _); reflexivity.
Qed.

Lemma WriteHTTPError_wrapping_witness :
  errors.As (HTTPErrorPtr (apperr.New 404 "user not found"))
  = Some (apperr.New 404 "user not found")
  /\ httputils.WriteHTTPError "handler.GetUser"
       (wrapError "get user 42: user not found"
          (HTTPErrorPtr (apperr.New 404 "user not found")))
       example.start
     = httputils.WriteHTTPError "handler.GetUser"
         (HTTPErrorPtr (apperr.New 404 "user not found")) example.start.
Proof.
  assert (Has : errors.As (HTTPErrorPtr (apperr.New 404 "user not found"))
                = Some (apperr.New 404 "user not found")) by reflexivity.
  split; [exact Has |].
  destruct (WriteHTTPError_wrapping_transparent
              "get user 42: user not found" "handler.GetUser"
              (HTTPErrorPtr (apperr.New 404 "user not found")) example.start)
    as [_ Hsame].
  exact (Hsame (apperr.New 404 "user not found") Has).
Defined.

Section Contract.

Context {T : Type} `{Decodable T} `{Validatable T}.

Variables (r : http.Request) (op : string).

(** [DecodeRequest] from any state, on a body the decoder rejects. *)
Lemma DecodeRequest_failure_any (req : T) (err : error) (s : World) :
  json_Decode (http.Body r) zero = (req, Some err) ->
  httputils.DecodeRequest r op s
  = (Returned (req, false),
     snd (httputils.writeJSON http.StatusBadRequest
            (response.Error "invalid request payload")
            {| w := w s;
               log := log s
                        ++ [{| slog.level := slog.LevelError;
                               slog.message := "failed to decode request body";
                               slog.attrs := [("op", op); ("err", error_Error err)] |};
                            {| slog.level := slog.LevelError;
                               slog.message := "invalid request payload";
                               slog.attrs := [("op", op); ("err", error_Error err)] |}] |})).
Proof.
  intros Hdec. unfold httputils.DecodeRequest. rewrite Hdec.
  rewrite log_Error_then. unfold bind. rewrite Err_run. cbn [w log].
  rewrite <- app_assoc. cbn [app].
  rewrite !writeJSON_any by reflexivity. reflexivity.
Qed.

(** [ValidateRequest] from any state, on a value the engine rejects. *)
Lemma ValidateRequest_failure_any (req : T) (err : error) (s : World) :
  validate_Struct req = Some err ->
  httputils.ValidateRequest r op req s
  = (Returned false,
     snd (httputils.writeJSON http.StatusBadRequest
            (response.Error "invalid input data")
            {| w := w s;
               log := log s
                        ++ [{| slog.level := slog.LevelError;
                               slog.message := "validation failed";
                               slog.attrs := [("op", op);
                                              ("err", error_Error err);
                                              ("validation_errors", error_Error err)] |};
                            {| slog.level := slog.LevelError;
                               slog.message := "invalid input data";
                               slog.attrs := [("op", op); ("err", error_Error err)] |}] |})).
Proof.
  intros Hval. unfold httputils.ValidateRequest. rewrite Hval.
  rewrite log_Error_then. unfold bind. rewrite Err_run. cbn [w log].
  rewrite <- app_assoc. cbn [app].
  rewrite !writeJSON_any by reflexivity. reflexivity.
Qed.



(** X6.  What a rejected request is answered with tells nothing about
    why it was rejected: from a common state of the writer, any two
    decode failures leave the writer in the same state, whatever the
    bodies, the decoder's errors, the operation names and the loggers; and
    so do any two validation failures. *)
Theorem rejection_hides_cause :
  forall (r2 : http.Request) (op2 : string) (s1 s2 : World),
    w s1 = w s2 ->
    (forall (req1 req2 : T) (err1 err2 : error),
        json_Decode (http.Body r) zero = (req1, Some err1) ->
        json_Decode (http.Body r2) zero = (req2, Some err2) ->
        w (exec (httputils.DecodeRequest r op) s1)
        = w (exec (httputils.DecodeRequest (T := T) r2 op2) s2))
    /\ (forall (req1 req2 : T) (err1 err2 : error),
           validate_Struct req1 = Some err1 ->
           validate_Struct req2 = Some err2 ->
           w (exec (httputils.ValidateRequest r op req1) s1)
           = w (exec (httputils.ValidateRequest r2 op2 req2) s2)).
Proof.
  intros r2 op2 s1 s2 Hw. split.
  - intros req1 req2 err1 err2 Hdec1 Hdec2.
    unfold exec.
    rewrite (DecodeRequest_failure_any req1 err1 s1 Hdec1).
    unfold httputils.DecodeRequest at 1. rewrite Hdec2.
    rewrite log_Error_then. unfold bind. rewrite Err_run. cbn [w log].
    rewrite !writeJSON_any by reflexivity. cbn [snd w]. rewrite Hw. reflexivity.
  - intros req1 req2 err1 err2 Hval1 Hval2. unfold exec.
    rewrite (ValidateRequest_failure_any req1 err1 s1 Hval1).
    unfold httputils.ValidateRequest at 1. rewrite Hval2.
    rewrite log_Error_then. unfold bind. rewrite Err_run. cbn [w log].
    rewrite !writeJSON_any by reflexivity. cbn [snd w]. rewrite Hw. reflexivity.
Qed.

End Contract.


(** On a writer that has sent a status without a body, a rejection is
    still reported by the flag, and nothing is added to the body. *)
Example rejection_after_no_content :
  result (httputils.ValidateRequest example.request_A "op" {| example.Name := "A" |})
    (exec (httputils.WriteHTTPError "op" (HTTPErrorPtr (apperr.New 204 "gone")))
       example.start)
  = Returned false
  /\ http.body
       (w (exec (httputils.ValidateRequest example.request_A "op" {| example.Name := "A" |})
             (exec (httputils.WriteHTTPError "op" (HTTPErrorPtr (apperr.New 204 "gone")))
                example.start)))
     = [].
Proof. split; reflexivity. Qed.

Lemma rejection_hides_cause_witness :
  json_Decode (http.Body example.request_malformed) zero
  = ({| example.Name := "" |},
     Some (errorString "invalid character 'n' looking for beginning of object key string"))
  /\ json_Decode (http.Body {| http.Body := "[1, 2]" |}) zero
     = ({| example.Name := "" |},
        Some (errorString
                "json: cannot unmarshal array into Go value of type main.NameRequest"))
  /\ w (exec (httputils.DecodeRequest (T := example.NameRequest)
                example.request_malformed "handler.CreateUser")
          example.start)
     = w (exec (httputils.DecodeRequest (T := example.NameRequest)
                  {| http.Body := "[1, 2]" |} "handler.Rename")
            example.start).
Proof.
  assert (H1 : json_Decode (http.Body example.request_malformed) zero
               = ({| example.Name := "" |},
                  Some (errorString
                          "invalid character 'n' looking for beginning of object key string")))
    by reflexivity.
  assert (H2 : json_Decode (http.Body {| http.Body := "[1, 2]" |}) zero
               = ({| example.Name := "" |},
                  Some (errorString
                          "json: cannot unmarshal array into Go value of type main.NameRequest")))
    by reflexivity.
  split; [exact H1 | split; [exact H2 |]].
  destruct (rejection_hides_cause (T := example.NameRequest)
              example.request_malformed "handler.CreateUser"
              {| http.Body := "[1, 2]" |} "handler.Rename"
              example.start example.start eq_refl)
    as [Hdecode _].
  exact (Hdecode _ _ _ _ H1 H2).
Defined.

Section Logging.

Context {T : Type} `{Decodable T} `{Validatable T}.


End Logging.

(** ** The encoding of the envelope *)

(** Distinctness of a list of literal keys. *)
Ltac distinct_keys :=
  repeat (apply NoDup_cons_2;
          [ let Hin := fresh "Hin" in
            intros Hin;
            repeat (apply elem_of_cons in Hin as [Hin | Hin]; [discriminate Hin |]);
            apply elem_of_nil in Hin; exact Hin
          | ]);
  apply NoDup_nil_2.

(** X8.  The encoder rejects an envelope exactly when its payload is a
    value the encoder rejects; every encoding is an object whose first
    member is [status] with the encoding of the envelope's status, whose
    keys are distinct and are drawn, in this order, from [status],
    [error], [data]. *)
Theorem Marshal_Response_shape :
  forall (r : response.Response),
    (json.Marshal r = None <-> response.Response_Data r = Some json.Unsupported)
    /\ (forall doc : json.value,
           json.Marshal r = Some doc ->
           exists ms,
             doc = json.JObj ms
             /\ head ms = Some ("status", response.encode_string (response.Response_Status r))
             /\ NoDup (map fst ms)
             /\ sublist (map fst ms) ["status"; "error"; "data"]).
Proof.
  intros [st msg data].
  unfold json.Marshal, response.Response_Marshaler, response.omitempty_string.
  cbn [response.Response_Status response.Response_Error response.Response_Data].
  split.
  - destruct data as [[| | | D |] |]; cbn; split; intros Hx; congruence.
  - intros doc Hdoc.
    destruct data as [[| | | D |] |]; cbn in Hdoc; try discriminate;
      destruct (String.eqb msg ""); injection Hdoc as <-;
      eexists; (split; [reflexivity |]); cbn [head map fst app];
      (split; [reflexivity |]);
      (split; [distinct_keys | repeat constructor]).
Qed.

Lemma Marshal_Response_shape_witness :
  json.Marshal (response.DataWithError "partial failure" (Some (json.Encodable json.JNull)))
  = Some (json.JObj [("status", json.JStr "Error");
                     ("error", json.JStr "partial failure");
                     ("data", json.JNull)])
  /\ exists ms,
       json.JObj [("status", json.JStr "Error");
                  ("error", json.JStr "partial failure");
                  ("data", json.JNull)]
       = json.JObj ms
       /\ head ms = Some ("status", json.JStr "Error")
       /\ NoDup (map fst ms)
       /\ sublist (map fst ms) ["status"; "error"; "data"].
Proof.
  split; [reflexivity |].
  destruct (Marshal_Response_shape
              (response.DataWithError "partial failure" (Some (json.Encodable json.JNull))))
    as [_ Hshape].
  exact (Hshape _ eq_refl).
Defined.

(** The encoder leaves no string empty that was not. *)
Lemma replaceInvalid_nonempty (s : string) :
  s <> "" -> utf8.replaceInvalid s <> "".
Proof.
  destruct s as [| c rest]; [congruence |]. intros _.
  unfold utf8.replaceInvalid. cbn [utf8.replace].
  destruct (utf8.following c rest); discriminate.
Qed.

(** X9.  What the encoding tells about the envelope.  Two envelopes with
    the same encoding have the same status and the same message up to the
    replacement of invalid UTF-8 (the same status and message outright
    when these are well-formed UTF-8), both carry a payload or neither
    does, and their payloads have the same encoding.  The envelopes
    themselves may differ: in bytes that are not UTF-8, and in payloads
    that marshal alike. *)
Theorem Marshal_Response_injective :
  forall (r1 r2 : response.Response) (doc : json.value),
    json.Marshal r1 = Some doc ->
    json.Marshal r2 = Some doc ->
    utf8.replaceInvalid (response.Response_Status r1)
    = utf8.replaceInvalid (response.Response_Status r2)
    /\ utf8.replaceInvalid (response.Response_Error r1)
       = utf8.replaceInvalid (response.Response_Error r2)
    /\ (response.Response_Data r1 = None <-> response.Response_Data r2 = None)
    /\ (forall d1 d2 : json.dynamic,
           response.Response_Data r1 = Some d1 ->
           response.Response_Data r2 = Some d2 ->
           json.Marshal d1 = json.Marshal d2)
    /\ (utf8.ValidString (response.Response_Status r1) = true ->
        utf8.ValidString (response.Response_Status r2) = true ->
        response.Response_Status r1 = response.Response_Status r2)
    /\ (utf8.ValidString (response.Response_Error r1) = true ->
        utf8.ValidString (response.Response_Error r2) = true ->
        response.Response_Error r1 = response.Response_Error r2).
Proof.
  intros [st1 msg1 data1] [st2 msg2 data2] doc.
  unfold json.Marshal at 1 2, response.Response_Marshaler, response.omitempty_string,
    response.omitempty_any, response.encode_string.
  cbn [response.Response_Status response.Response_Error response.Response_Data].
  intros H1 H2.
  assert (Hall : utf8.replaceInvalid st1 = utf8.replaceInvalid st2
                 /\ utf8.replaceInvalid msg1 = utf8.replaceInvalid msg2
                 /\ (data1 = None <-> data2 = None)
                 /\ (forall d1 d2, data1 = Some d1 -> data2 = Some d2 ->
                                   json.Marshal d1 = json.Marshal d2)).
  { destruct data1 as [d1 |]; [destruct (json.Marshal d1) as [D1 |] eqn:HD1 |];
      try discriminate;
      (destruct data2 as [d2 |]; [destruct (json.Marshal d2) as [D2 |] eqn:HD2 |];
       try discriminate);
      destruct (String.eqb_spec msg1 "") as [-> | Hm1];
      destruct (String.eqb_spec msg2 "") as [-> | Hm2];
      rewrite <- H2 in H1; injection H1 as Hst; subst;
      try discriminate;
      repeat split; try congruence; try reflexivity;
      try (intros; discriminate);
      try (intros ? ? Ha Hb; injection Ha as <-; injection Hb as <-; congruence). }
  destruct Hall as [Hst [Hmsg [Hnil Hdata]]].
  repeat split; try assumption; try apply Hnil.
  - intros Hv1 Hv2.
    rewrite <- (replaceInvalid_valid st1 Hv1), <- (replaceInvalid_valid st2 Hv2). exact Hst.
  - intros Hv1 Hv2.
    rewrite <- (replaceInvalid_valid msg1 Hv1), <- (replaceInvalid_valid msg2 Hv2).
    exact Hmsg.
Qed.

Lemma Marshal_Response_injective_witness :
  json.Marshal (response.Error "conflict")
  = Some (json.JObj [("status", json.JStr "Error"); ("error", json.JStr "conflict")])
  /\ json.Marshal (response.DataWithError "conflict" None)
     = Some (json.JObj [("status", json.JStr "Error"); ("error", json.JStr "conflict")])
  /\ response.Response_Error (response.Error "conflict")
     = response.Response_Error (response.DataWithError "conflict" None).
Proof.
  split; [reflexivity | split; [reflexivity |]].
  destruct (Marshal_Response_injective
              (response.Error "conflict") (response.DataWithError "conflict" None)
              (json.JObj [("status", json.JStr "Error"); ("error", json.JStr "conflict")])
              eq_refl eq_refl)
    as [_ [_ [_ [_ [_ Hmsg]]]]].
  apply Hmsg; reflexivity.
Defined.

(** Envelopes that differ and encode alike: two messages that are not
    UTF-8, and a nil slice against a nil map as payload. *)
Lemma Marshal_Response_collisions :
  (json.Marshal (response.Error (String "255"%char ""))
   = json.Marshal (response.Error (String "254"%char ""))
   /\ response.Error (String "255"%char "") <> response.Error (String "254"%char ""))
  /\ (json.Marshal (response.DataOK (Some json.NilSlice))
      = json.Marshal (response.DataOK (Some json.NilMap))
      /\ response.DataOK (Some json.NilSlice) <> response.DataOK (Some json.NilMap)).
Proof. repeat split; try reflexivity; discriminate. Qed.

(** X10.  Declaring [Error] before [Data] in the last revision changed the
    order of the members and nothing else: for the same status, message
    and payload the two revisions of [Response] are encodable together,
    their encodings hold the same document under every key, and they
    differ as texts exactly when both a message and a payload are there.
    [Err] of either revision has the same effect on every state. *)
Theorem revisions_agree_by_key :
  forall (st msg : string) (data : json.any),
    (json.Marshal {| response_rev2.Response_Status := st;
                     response_rev2.Response_Data := data;
                     response_rev2.Response_Error := msg |} = None
     <-> json.Marshal {| response.Response_Status := st;
                         response.Response_Error := msg;
                         response.Response_Data := data |} = None)
    /\ (forall old new : json.value,
           json.Marshal {| response_rev2.Response_Status := st;
                           response_rev2.Response_Data := data;
                           response_rev2.Response_Error := msg |} = Some old ->
           json.Marshal {| response.Response_Status := st;
                           response.Response_Error := msg;
                           response.Response_Data := data |} = Some new ->
           (forall k : string, json.get k old = json.get k new)
           /\ (old <> new <-> msg <> "" /\ data <> None))
    /\ (forall (r : http.Request) (op : string) (err : error) (httpStatus : Z) (s : World),
           response_rev2.Err r op err msg httpStatus s
           = response.Err r op err msg httpStatus s).
Proof.
  intros st msg data. split; [| split].
  - unfold json.Marshal at 1 2, response_rev2.Response_Marshaler, response.Response_Marshaler.
    cbn [response_rev2.Response_Data response.Response_Data].
    destruct (response.omitempty_any "data" data); split; intros Hx; congruence.
  - intros old new.
    unfold json.Marshal at 1 2, response_rev2.Response_Marshaler,
      response.Response_Marshaler, response.omitempty_string, response.omitempty_any.
    cbn [response_rev2.Response_Status response_rev2.Response_Error
         response_rev2.Response_Data response.Response_Status response.Response_Error
         response.Response_Data].
    intros Hold Hnew.
    destruct data as [d |]; [destruct (json.Marshal d) as [D |]; [| discriminate] |];
      destruct (String.eqb_spec msg "") as [-> | Hmsg];
      injection Hold as <-; injection Hnew as <-.
    + split; [reflexivity |].
      split; [intros Hne; exfalso; apply Hne; reflexivity | intros [Hne _]; congruence].
    + split.
      * intros k. cbn [json.get json.member app].
        destruct (String.eqb_spec "status" k); [reflexivity |].
        destruct (String.eqb_spec "data" k) as [Hd |];
          destruct (String.eqb_spec "error" k) as [He |]; subst;
          try reflexivity; discriminate.
      * split; [intros _; split; [assumption | discriminate] | intros _; discriminate].
    + split; [reflexivity |].
      split; [intros Hne; exfalso; apply Hne; reflexivity | intros [Hne _]; congruence].
    + split; [reflexivity |].
      split; [intros Hne; exfalso; apply Hne; reflexivity | intros [_ Hne]; congruence].
  - intros r op err httpStatus s.
    unfold response_rev2.Err, response.Err, json_Encode.
    unfold json.Marshal, response_rev2.Response_Marshaler, response.Response_Marshaler.
    cbn. rewrite app_nil_r. reflexivity.
Qed.

Lemma revisions_agree_by_key_witness :
  json.get "data"
    (json.JObj [("status", json.JStr "Error"); ("data", json.JNum 7);
                ("error", json.JStr "partial failure")])
  = json.get "data"
      (json.JObj [("status", json.JStr "Error"); ("error", json.JStr "partial failure");
                  ("data", json.JNum 7)])
  /\ json.JObj [("status", json.JStr "Error"); ("data", json.JNum 7);
                ("error", json.JStr "partial failure")]
     <> json.JObj [("status", json.JStr "Error"); ("error", json.JStr "partial failure");
                   ("data", json.JNum 7)].
Proof.
  destruct (revisions_agree_by_key "Error" "partial failure"
              (Some (json.Encodable (json.JNum 7))))
    as [_ [Hdocs _]].
  destruct (Hdocs _ _ eq_refl eq_refl) as [Hkeys Hdiffer].
  split; [exact (Hkeys "data") | apply Hdiffer; split; discriminate].
Defined.

(** ** The handler of the README *)

(** Every envelope [WriteHTTPError] encodes has status [Error]. *)
Lemma answer_envelope_encoding (err : error) (doc : json.value) :
  json.Marshal (answer_envelope err) = Some doc ->
  exists ms, doc = json.JObj (("status", json.JStr "Error") :: ms).
Proof.
  unfold answer_envelope, json.Marshal at 1, response.Response_Marshaler.
  destruct (errors.As err) as [[code msg data] |]; cbn;
    [destruct data as [d |]; cbn; [destruct (json.Marshal d); [| discriminate] |] |];
    intros Hdoc; injection Hdoc as <-; eexists; reflexivity.
Qed.

(** An envelope is encodable when its payload is. *)
Lemma answer_envelope_encodable (err : error) :
  (forall (httpErr : apperr.HTTPError) (d : json.dynamic),
      errors.As err = Some httpErr ->
      apperr.Data httpErr = Some d ->
      json.Marshal d <> None) ->
  exists doc, json.Marshal (answer_envelope err) = Some doc.
Proof.
  intros Hpayload.
  unfold answer_envelope, json.Marshal at 1, response.Response_Marshaler.
  destruct (errors.As err) as [[code msg data] |]; cbn; [| eauto].
  destruct data as [d |]; cbn; [| eauto].
  specialize (Hpayload _ d eq_refl eq_refl).
  destruct (json.Marshal d); [eauto | contradiction].
Qed.

(** The body [writeJSON] leaves on a fresh request holds the encoding of
    its value, or nothing. *)
Lemma writeJSON_fresh_body {A : Type} `{json.Marshaler A} (status : Z) (data : A)
    (h : gmap string (list string)) (lg : slog.Logger) :
  http.body (w (exec (httputils.writeJSON status data) {| w := http.unwritten h; log := lg |}))
  = []
  \/ exists doc,
       json.Marshal data = Some doc
       /\ http.body
            (w (exec (httputils.writeJSON status data)
                  {| w := http.unwritten h; log := lg |}))
          = [doc].
Proof.
  unfold exec. rewrite writeJSON_run. unfold http.WriteHeader. cbn.
  destruct (http.checkWriteHeaderCode status); [| left; reflexivity].
  destruct (http.isInformational status);
    (destruct (json.Marshal data) as [doc |]; [| left; reflexivity]);
    unfold http.Write, http.withStatusLine; cbn;
    try destruct (http.bodyAllowedForStatus status); cbn; eauto.
Qed.

Section QuickStart.

Context {T : Type} `{Decodable T} `{Validatable T}.

Variables (service : T -> option error) (r : http.Request).
Variables (h : gmap string (list string)) (lg : slog.Logger).

(** The handler, path by path: a request the decoder rejects is answered
    by [DecodeRequest] alone, one the engine rejects by [ValidateRequest]
    alone, and the business logic sees validated requests only. *)
Lemma CreateUser_paths :
  match json_Decode (http.Body r) zero with
  | (_, Some _) =>
      quickstart.CreateUser service r {| w := http.unwritten h; log := lg |}
      = (Returned tt,
         exec (httputils.DecodeRequest (T := T) r "handler.CreateUser")
           {| w := http.unwritten h; log := lg |})
  | (req, None) =>
      match validate_Struct req with
      | Some _ =>
          quickstart.CreateUser service r {| w := http.unwritten h; log := lg |}
          = (Returned tt,
             exec (httputils.ValidateRequest r "handler.CreateUser" req)
               {| w := http.unwritten h; log := lg |})
      | None =>
          match service req with
          | Some err =>
              quickstart.CreateUser service r {| w := http.unwritten h; log := lg |}
              = httputils.WriteHTTPError "handler.CreateUser" err
                  {| w := http.unwritten h; log := lg |}
          | None =>
              quickstart.CreateUser service r {| w := http.unwritten h; log := lg |}
              = httputils.SendOK r "handler.CreateUser"
                  {| w := http.unwritten h; log := lg |}
          end
      end
  end.
Proof.
  destruct (json_Decode (http.Body r) zero) as [req [derr |]] eqn:Hdec.
  - unfold exec, quickstart.CreateUser, bind.
    rewrite (DecodeRequest_failure_run r "handler.CreateUser" req derr h lg Hdec).
    reflexivity.
  - destruct (validate_Struct req) as [verr |] eqn:Hval.
    + unfold exec, quickstart.CreateUser, bind.
      rewrite (DecodeRequest_success_run r "handler.CreateUser" req _ Hdec).
      cbn [fst snd negb].
      rewrite (ValidateRequest_failure_run r "handler.CreateUser" req verr h lg Hval).
      reflexivity.
    + destruct (service req) as [err |] eqn:Hsvc;
        unfold exec, quickstart.CreateUser, bind;
        rewrite (DecodeRequest_success_run r "handler.CreateUser" req _ Hdec);
        cbn [fst snd negb];
        rewrite (ValidateRequest_success_run r "handler.CreateUser" req _ Hval);
        cbn [negb]; rewrite Hsvc; reflexivity.
Qed.

(** X11.  Every path through the handler writes the response once.
    Provided every classified error of the service has a status that the
    server accepts and that carries a body, and a payload the encoder
    accepts if it has one, the handler returns and leaves on a fresh
    request exactly one status line, no interim response, and exactly one
    document. *)
Theorem CreateUser_writes_once :
  (forall (req : T) (err : error) (httpErr : apperr.HTTPError),
      service req = Some err ->
      errors.As err = Some httpErr ->
      http.checkWriteHeaderCode (apperr.Code httpErr) = true
      /\ http.bodyAllowedForStatus (apperr.Code httpErr) = true
      /\ (forall d : json.dynamic,
             apperr.Data httpErr = Some d -> json.Marshal d <> None)) ->
  exists (code : Z) (doc : json.value),
    result (quickstart.CreateUser service r) {| w := http.unwritten h; log := lg |}
    = Returned tt
    /\ w (exec (quickstart.CreateUser service r) {| w := http.unwritten h; log := lg |})
       = {| http.header := <["Content-Type" := ["application/json"]]> h;
            http.informational := [];
            http.wroteHeader := Some (code, <["Content-Type" := ["application/json"]]> h);
            http.body := [doc] |}.
Proof.
  intros Hservice. pose proof CreateUser_paths as Hpath. unfold result, exec.
  destruct (json_Decode (http.Body r) zero) as [req [derr |]] eqn:Hdec.
  - rewrite Hpath. unfold exec.
    rewrite (DecodeRequest_failure_run r "handler.CreateUser" req derr h lg Hdec).
    do 2 eexists. split; reflexivity.
  - destruct (validate_Struct req) as [verr |] eqn:Hval.
    + rewrite Hpath. unfold exec.
      rewrite (ValidateRequest_failure_run r "handler.CreateUser" req verr h lg Hval).
      do 2 eexists. split; reflexivity.
    + destruct (service req) as [err |] eqn:Hsvc; rewrite Hpath.
      * rewrite WriteHTTPError_run. cbn [w log].
        assert (Hcode : http.checkWriteHeaderCode (answer_status err) = true
                        /\ http.bodyAllowedForStatus (answer_status err) = true).
        { unfold answer_status.
          destruct (errors.As err) as [httpErr |] eqn:Has; [| split; reflexivity].
          destruct (Hservice req err httpErr Hsvc Has) as [Hc [Hb _]]. split; assumption. }
        destruct (answer_envelope_encodable err) as [doc Hdoc].
        { intros httpErr d Has Hd.
          destruct (Hservice req err httpErr Hsvc Has) as [_ [_ Hp]]. exact (Hp d Hd). }
        rewrite (writeJSON_unwritten h _ (answer_status err) _ doc
                   (proj1 Hcode) (proj2 Hcode) Hdoc).
        do 2 eexists. split; reflexivity.
      * do 2 eexists. split; reflexivity.
Qed.

(** X12.  The handler answers [{"status":"OK"}] exactly when the body
    decodes, the decoded request passes validation and the service
    returns no error; in every other case the body is not that document. *)
Theorem CreateUser_OK_iff_all_succeed :
  http.body
    (w (exec (quickstart.CreateUser service r) {| w := http.unwritten h; log := lg |}))
  = [json.JObj [("status", json.JStr "OK")]]
  <-> exists req : T,
        json_Decode (http.Body r) zero = (req, None)
        /\ validate_Struct req = None
        /\ service req = None.
Proof.
  pose proof CreateUser_paths as Hpath. unfold exec.
  destruct (json_Decode (http.Body r) zero) as [req [derr |]] eqn:Hdec.
  - rewrite Hpath. unfold exec.
    rewrite (DecodeRequest_failure_run r "handler.CreateUser" req derr h lg Hdec).
    split; [discriminate | intros (req' & Habs & _); discriminate Habs].
  - destruct (validate_Struct req) as [verr |] eqn:Hval.
    + rewrite Hpath. unfold exec.
      rewrite (ValidateRequest_failure_run r "handler.CreateUser" req verr h lg Hval).
      split; [discriminate |].
      intros (req' & Hdec' & Hval' & _).
      injection Hdec' as <-. congruence.
    + destruct (service req) as [err |] eqn:Hsvc; rewrite Hpath.
      * rewrite WriteHTTPError_run. cbn [w log].
        split.
        -- intros Hbody. exfalso.
           destruct (writeJSON_fresh_body (answer_status err) (answer_envelope err) h
                       (lg ++ [answer_record "handler.CreateUser" err]))
             as [Hnone | (doc & Hdoc & Hone)]; unfold exec in *.
           ++ rewrite Hnone in Hbody. discriminate Hbody.
           ++ rewrite Hone in Hbody.
              destruct (answer_envelope_encoding err doc Hdoc) as [ms ->].
              discriminate Hbody.
        -- intros (req' & Hdec' & _ & Hsvc'). injection Hdec' as <-. congruence.
      * split; [intros _; exists req; auto | intros _; reflexivity].
Qed.

End QuickStart.

Lemma CreateUser_writes_once_witness :
  exists (code : Z) (doc : json.value),
    result (quickstart.CreateUser
              (fun req : example.NameRequest =>
                 if String.eqb (example.Name req) "Ann"
                 then Some (HTTPErrorPtr (apperr.New 409 "name taken"))
                 else None)
              example.request_Ann)
      {| w := http.unwritten ∅; log := [] |}
    = Returned tt
    /\ w (exec (quickstart.CreateUser
                  (fun req : example.NameRequest =>
                     if String.eqb (example.Name req) "Ann"
                     then Some (HTTPErrorPtr (apperr.New 409 "name taken"))
                     else None)
                  example.request_Ann)
            {| w := http.unwritten ∅; log := [] |})
       = {| http.header := <["Content-Type" := ["application/json"]]> ∅;
            http.informational := [];
            http.wroteHeader := Some (code, <["Content-Type" := ["application/json"]]> ∅);
            http.body := [doc] |}.
Proof.
  apply (CreateUser_writes_once (T := example.NameRequest)).
  intros req err httpErr Hsvc Has.
  destruct (String.eqb (example.Name req) "Ann"); [| discriminate Hsvc].
  injection Hsvc as <-. injection Has as <-.
  split; [reflexivity | split; [reflexivity | intros d Hd; discriminate Hd]].
Defined.

Lemma CreateUser_OK_iff_all_succeed_witness :
  http.body
    (w (exec (quickstart.CreateUser (fun _ : example.NameRequest => None)
                example.request_Ann)
          {| w := http.unwritten ∅; log := [] |}))
  = [json.JObj [("status", json.JStr "OK")]].
Proof.
  apply (CreateUser_OK_iff_all_succeed (T := example.NameRequest)).
  exists {| example.Name := "Ann" |}. repeat split; reflexivity.
Defined.

(** ** Errors held by value *)

(** A chain of wrappers around an [HTTPError] held by value is not
    classified. *)
Lemma As_by_value (texts : list string) (e : apperr.HTTPError) :
  errors.As (fold_right wrapError (HTTPErrorVal e) texts) = None.
Proof.
  induction texts as [| text texts IH]; simpl; [reflexivity | exact IH].
Qed.

(** X13.  [WriteHTTPError] looks for a pointer to an [HTTPError] only.  An
    [HTTPError] handed over by value, bare or under any number of
    wrappers, is answered like an internal error: a fresh request gets
    status 500 and the generic message, whatever the code and the message
    of the value, and its payload is not sent. *)
Theorem HTTPError_by_value_is_internal :
  forall (texts : list string) (e : apperr.HTTPError) (op : string)
         (h : gmap string (list string)) (lg : slog.Logger),
    w (exec (httputils.WriteHTTPError op (fold_right wrapError (HTTPErrorVal e) texts))
         {| w := http.unwritten h; log := lg |})
    = {| http.header := <["Content-Type" := ["application/json"]]> h;
         http.informational := [];
         http.wroteHeader := Some (500, <["Content-Type" := ["application/json"]]> h);
         http.body := [json.JObj [("status", json.JStr "Error");
                                  ("error", json.JStr "internal server error")]] |}.
Proof.
  intros texts e op h lg. unfold exec.
  rewrite (WriteHTTPError_internal_run _ op h lg (As_by_value texts e)). reflexivity.
Qed.

(** ** Statuses the server treats apart *)

(** X14.  What [WriteHTTPError] does with the status of a classified
    error is the server's doing, not a check of its own.  On a fresh
    request: a status that is not three-digit makes it panic after the
    error is logged and the content type set, with nothing sent; a final
    status that allows no body (101, 204, 304) is sent without a
    document; a 1xx status other than 101 goes out as an interim
    response, and the document follows under status 200. *)
Theorem WriteHTTPError_by_status :
  forall (err : error) (S : Z) (M op : string) (data : json.any)
         (h : gmap string (list string)) (lg : slog.Logger),
    errors.As err = Some (apperr.NewWithData S M data) ->
    (http.checkWriteHeaderCode S = false ->
     httputils.WriteHTTPError op err {| w := http.unwritten h; log := lg |}
     = (Panicked (InvalidWriteHeaderCode S),
        {| w := http.unwritten (<["Content-Type" := ["application/json"]]> h);
           log := lg ++ [{| slog.level := slog.LevelError;
                            slog.message := "handled error";
                            slog.attrs := [("op", op); ("err", M)] |}] |}))
    /\ (http.checkWriteHeaderCode S = true ->
        http.isInformational S = false ->
        http.bodyAllowedForStatus S = false ->
        w (exec (httputils.WriteHTTPError op err) {| w := http.unwritten h; log := lg |})
        = {| http.header := <["Content-Type" := ["application/json"]]> h;
             http.informational := [];
             http.wroteHeader := Some (S, <["Content-Type" := ["application/json"]]> h);
             http.body := [] |})
    /\ (http.isInformational S = true ->
        w (exec (httputils.WriteHTTPError op err) {| w := http.unwritten h; log := lg |})
        = {| http.header := <["Content-Type" := ["application/json"]]> h;
             http.informational := [(S, <["Content-Type" := ["application/json"]]> h)];
             http.wroteHeader :=
               match encoded (answer_envelope err) with
               | [] => None
               | _ => Some (200, <["Content-Type" := ["application/json"]]> h)
               end;
             http.body := encoded (answer_envelope err) |}).
Proof.
  intros err S M op data h lg Has.
  assert (Hstatus : answer_status err = S) by (unfold answer_status; rewrite Has; reflexivity).
  assert (Hrec : answer_record op err
                 = {| slog.level := slog.LevelError;
                      slog.message := "handled error";
                      slog.attrs := [("op", op); ("err", M)] |})
    by (unfold answer_record; rewrite Has; reflexivity).
  unfold exec. rewrite WriteHTTPError_run, Hstatus, Hrec. cbn [w log].
  split; [| split].
  - intros Hcode. apply (writeJSON_unwritten_invalid h _ S _ Hcode).
  - intros Hcode Hinf Hbody.
    rewrite (writeJSON_unwritten_bodiless h _ S _ Hcode Hinf Hbody). reflexivity.
  - intros Hinf. unfold encoded.
    destruct (json.Marshal (answer_envelope err)) as [doc |] eqn:Hdoc.
    + rewrite (writeJSON_unwritten_interim h _ S _ doc Hinf Hdoc). reflexivity.
    + rewrite writeJSON_run. cbn [w log].
      rewrite WriteHeader_interim by (reflexivity || assumption).
      rewrite Hdoc. reflexivity.
Qed.

Lemma WriteHTTPError_by_status_witness :
  httputils.WriteHTTPError "op" (HTTPErrorPtr (apperr.NewWithData 1000 "boom" None))
    example.start
  = (Panicked (InvalidWriteHeaderCode 1000),
     {| w := http.unwritten (<["Content-Type" := ["application/json"]]> ∅);
        log := [{| slog.level := slog.LevelError;
                   slog.message := "handled error";
                   slog.attrs := [("op", "op"); ("err", "boom")] |}] |})
  /\ w (exec (httputils.WriteHTTPError "op"
                (HTTPErrorPtr (apperr.NewWithData 304 "same" None)))
          example.start)
     = {| http.header := <["Content-Type" := ["application/json"]]> ∅;
          http.informational := [];
          http.wroteHeader := Some (304, <["Content-Type" := ["application/json"]]> ∅);
          http.body := [] |}
  /\ w (exec (httputils.WriteHTTPError "op"
                (HTTPErrorPtr (apperr.NewWithData 102 "wait" None)))
          example.start)
     = {| http.header := <["Content-Type" := ["application/json"]]> ∅;
          http.informational := [(102, <["Content-Type" := ["application/json"]]> ∅)];
          http.wroteHeader := Some (200, <["Content-Type" := ["application/json"]]> ∅);
          http.body := [json.JObj [("status", json.JStr "Error");
                                   ("error", json.JStr "wait")]] |}.
Proof.
  assert (Has : forall S M,
             errors.As (HTTPErrorPtr (apperr.NewWithData S M None))
             = Some (apperr.NewWithData S M None)) by reflexivity.
  destruct (WriteHTTPError_by_status _ 1000 "boom" "op" None ∅ [] (Has 1000 "boom"))
    as [Hpanic _].
  destruct (WriteHTTPError_by_status _ 304 "same" "op" None ∅ [] (Has 304 "same"))
    as [_ [Hbodiless _]].
  destruct (WriteHTTPError_by_status _ 102 "wait" "op" None ∅ [] (Has 102 "wait"))
    as [_ [_ Hinterim]].
  split; [apply Hpanic; reflexivity | split].
  - apply Hbodiless; reflexivity.
  - apply Hinterim; reflexivity.
Defined.

(** ** The body as text *)

(** X15.  What the responders send is well-formed JSON.  For every
    envelope the encoder accepts (nested no deeper than a JSON decoder
    follows), the line written for it is one JSON value followed by a
    newline, and the scanner reads it back as the very document that was
    encoded: an object whose first member is [status]. *)
Theorem encoded_envelope_is_valid_json :
  forall (r : response.Response) (doc : json.value),
    json.Marshal r = Some doc ->
    (N.of_nat (jsontext.depth doc) <= jsonscan.maxNestingDepth)%N ->
    jsonscan.Valid (jsontext.line doc) = true
    /\ jsonscan.readValue (jsontext.line doc)
       = jsonscan.Value doc (String "010" EmptyString)
    /\ exists ms,
         doc = json.JObj (("status",
                           json.JStr (utf8.replaceInvalid (response.Response_Status r)))
                            :: ms).
Proof.
  intros r doc Hdoc Hdepth.
  split; [apply line_Valid; exact Hdepth |].
  split; [apply (readValue_Response r doc Hdoc Hdepth) |].
  destruct r as [st msg data].
  unfold json.Marshal at 1, response.Response_Marshaler, response.encode_string in Hdoc.
  cbn [response.Response_Status response.Response_Error response.Response_Data] in *.
  destruct (response.omitempty_any "data" data); [| discriminate].
  injection Hdoc as <-. eexists. reflexivity.
Qed.

Lemma encoded_envelope_is_valid_json_witness :
  jsonscan.Valid
    (jsontext.line
       (json.JObj [("status", json.JStr "Error");
                   ("error", json.JStr "invalid request payload")]))
  = true
  /\ jsonscan.readValue
       (jsontext.line
          (json.JObj [("status", json.JStr "Error");
                      ("error", json.JStr "invalid request payload")]))
     = jsonscan.Value
         (json.JObj [("status", json.JStr "Error");
                     ("error", json.JStr "invalid request payload")])
         (String "010" EmptyString).
Proof.
  assert (Hdoc : json.Marshal (response.Error "invalid request payload")
                 = Some (json.JObj [("status", json.JStr "Error");
                                    ("error", json.JStr "invalid request payload")]))
    by reflexivity.
  assert (Hdepth : (N.of_nat
                      (jsontext.depth
                         (json.JObj [("status", json.JStr "Error");
                                     ("error", json.JStr "invalid request payload")]))
                    <= jsonscan.maxNestingDepth)%N)
    by (vm_compute; discriminate).
  destruct (encoded_envelope_is_valid_json _ _ Hdoc Hdepth) as [Hvalid [Hread _]].
  split; [exact Hvalid | exact Hread].
Defined.
